(** * SimTradeData: incremental synchronisation and gap repair

    A shallow embedding of the core of the repository
    (batched writer, gap detector, data validator, sync manager)
    together with the properties its specification states about it.

    Conventions of the embedding
    - a Python [dict] with string keys is a [gmap string _]; a [dict] whose
      iteration order is observed (the writer's buffer, the result of
      [flush_all]) is an insertion-ordered association list;
    - a Python [set] is a [gset];
    - a function that may raise returns a [result]; a method that also
      mutates [self] or the store returns the new state next to it;
    - a [datetime.date] is its proleptic Gregorian ordinal where the code
      does date arithmetic (gap detector) and its (year, month, day) triple
      where the code reads the fields (sync manager). *)

From Stdlib Require Import ZArith List Bool String Lia Sorting.Sorted Permutation.
From stdpp Require Import base option list gmap strings sorting fin_maps.

Local Open Scope string_scope.
Local Open Scope list_scope.
Local Open Scope Z_scope.

(** ** Exceptions and results *)

Inductive exn : Type :=
| KeyError (key : string)
| ValueError (msg : string)
| TypeError (msg : string)
| ZeroDivisionError
| OperationalError (msg : string)
| ValidationError (msg : string).

Inductive result (A : Type) : Type :=
| Ok (a : A)
| Raise (e : exn).
Arguments Ok {A} a.
Arguments Raise {A} e.

Definition is_ok {A} (r : result A) : bool :=
  match r with Ok _ => true | Raise _ => false end.

Definition rbind {A B} (r : result A) (k : A -> result B) : result B :=
  match r with Ok a => k a | Raise e => Raise e end.

(** [try: body  except Exception as e: handler e] *)
Definition try_except {A} (body : result A) (handler : exn -> A) : A :=
  match body with Ok a => a | Raise e => handler e end.

(** ** Gap detector (sync/gap_detector.py) *)

Module GapDetector.

(** A [date] is the day number [date.toordinal()]; [d2 - d1] is a
    [timedelta] whose [.days] is the difference of the ordinals, and
    [d + timedelta(days=1)] is the next ordinal.  Python's upper bound on
    dates (9999-12-31, after which the sum is an [OverflowError]) is not
    represented: the sum is taken of a gap's end only while a missing
    date follows it in ascending order. *)
Definition date := Z.

Definition days (delta : Z) : Z := delta.
Definition plus_days (d : date) (n : Z) : date := d + n.

(** [_calculate_gap_severity] *)
Definition _calculate_gap_severity (start_date end_date : date) : string :=
  let gap_days := days (end_date - start_date) + 1 in
  if gap_days <=? 1 then "low"
  else if gap_days <=? 3 then "medium"
  else if gap_days <=? 7 then "high"
  else "critical".

(** The dict appended to [gaps].  [start_date] and [end_date] hold the
    dates whose [str] the code stores; the free-text [description], which
    renders the same two dates, is left out. *)
Record gap : Type := mk_gap {
  symbol : string;
  frequency : string;
  gap_type : string;
  start_date : date;
  end_date : date;
  gap_days : Z;
  severity : string
}.

Definition new_gap (sym freq : string) (s e : date) : gap :=
  {| symbol := sym; frequency := freq; gap_type := "date_missing";
     start_date := s; end_date := e;
     gap_days := days (e - s) + 1;
     severity := _calculate_gap_severity s e |}.

(** [sorted(missing_dates)] *)
Definition sorted (l : list date) : list date := merge_sort Z.le l.

(** The trading days that are not in [set(existing_dates)], in the order
    of [trading_days]. *)
Definition missing_dates (trading_days existing_dates : list date) : list date :=
  let existing_set : gset date := list_to_set existing_dates in
  filter (fun trading_day => trading_day ∉ existing_set) trading_days.

(** State of the merging loop: the gaps closed so far and the open gap
    ([current_gap_start], [current_gap_end]); the two variables are [None]
    together and set together. *)
Record loop_state : Type := mk_loop {
  gaps : list gap;
  current_gap : option (date * date)
}.

Definition loop_body (sym freq : string) (st : loop_state) (missing_date : date)
  : loop_state :=
  match current_gap st with
  | None => mk_loop (gaps st) (Some (missing_date, missing_date))
  | Some (current_gap_start, current_gap_end) =>
      if decide (missing_date = plus_days current_gap_end 1)
      then mk_loop (gaps st) (Some (current_gap_start, missing_date))
      else mk_loop (gaps st ++ [new_gap sym freq current_gap_start current_gap_end])
                   (Some (missing_date, missing_date))
  end.

Definition close_last (sym freq : string) (st : loop_state) : list gap :=
  match current_gap st with
  | Some (s, e) => gaps st ++ [new_gap sym freq s e]
  | None => gaps st
  end.

(** [_detect_date_gaps] *)
Definition _detect_date_gaps (sym : string) (trading_days existing_dates : list date)
    (freq : string) : list gap :=
  let missing := missing_dates trading_days existing_dates in
  match missing with
  | [] => []
  | _ =>
      close_last sym freq
        (foldl (loop_body sym freq) (mk_loop [] None) (sorted missing))
  end.

(** The two tables the detector reads.  A row keeps the columns the
    queries mention; the [date] column holds the date whose ISO text the
    store keeps. *)
Record calendar_row : Type := mk_calendar_row {
  cal_date : date;
  cal_market : string;
  cal_is_trading : Z
}.

Record market_row : Type := mk_market_row {
  md_symbol : string;
  md_date : date;
  md_frequency : string
}.

Record database : Type := mk_database {
  trading_calendar : list calendar_row;
  market_data : list market_row
}.

(** [_get_trading_days]: [SELECT date FROM trading_calendar WHERE date >= ?
    AND date <= ? AND market = 'CN' AND is_trading = 1 ORDER BY date]. *)
Definition _get_trading_days (db : database) (start_date end_date : date)
  : list date :=
  sorted
    (cal_date <$>
       filter (fun r => start_date <= cal_date r /\ cal_date r <= end_date
                        /\ cal_market r = "CN" /\ cal_is_trading r = 1)
              (trading_calendar db)).

(** [_get_existing_dates]: [SELECT DISTINCT date FROM market_data WHERE
    symbol = ? AND frequency = ? AND date >= ? AND date <= ? ORDER BY date]. *)
Definition _get_existing_dates (db : database) (sym : string)
    (start_date end_date : date) (freq : string) : list date :=
  sorted
    (remove_dups
       (md_date <$>
          filter (fun r => md_symbol r = sym /\ md_frequency r = freq
                           /\ start_date <= md_date r /\ md_date r <= end_date)
                 (market_data db))).

(** [detect_symbol_gaps] *)
Definition detect_symbol_gaps (db : database) (sym : string)
    (start_date end_date : date) (freq : string) : list gap :=
  let trading_days := _get_trading_days db start_date end_date in
  let existing_dates := _get_existing_dates db sym start_date end_date freq in
  _detect_date_gaps sym trading_days existing_dates freq.

(** *** The merge rule in the specification's words

    A missing date extends the current gap exactly when it is one calendar
    day after the current gap's end; otherwise the current gap ends and a
    new gap starts at that date. *)
Fixpoint extend_gap (s e : date) (l : list date) : list (date * date) :=
  match l with
  | [] => [(s, e)]
  | d :: l' =>
      if decide (d = e + 1) then extend_gap s d l'
      else (s, e) :: extend_gap d d l'
  end.

Definition merge_adjacent (l : list date) : list (date * date) :=
  match l with
  | [] => []
  | d :: l' => extend_gap d d l'
  end.

Definition gap_of_range (sym freq : string) (r : date * date) : gap :=
  new_gap sym freq (fst r) (snd r).

(** *** The structural invariant of a gap list *)

Definition gap_consistent (trading_days existing_dates : list date) (g : gap) : Prop :=
  start_date g <= end_date g
  /\ gap_days g = end_date g - start_date g + 1
  /\ 1 <= gap_days g
  /\ severity g = _calculate_gap_severity (start_date g) (end_date g)
  /\ forall d, start_date g <= d <= end_date g ->
               d ∈ trading_days /\ d ∉ existing_dates.

(** Every later gap starts at least two calendar days after an earlier
    gap ends: the list is ascending by start date and the gaps are
    pairwise disjoint. *)
Definition gaps_separated (gs : list gap) : Prop :=
  StronglySorted (fun g1 g2 => end_date g1 + 2 <= start_date g2) gs.

Definition gaps_invariant (trading_days existing_dates : list date)
    (gs : list gap) : Prop :=
  Forall (gap_consistent trading_days existing_dates) gs /\ gaps_separated gs.

End GapDetector.

(** ** Insertion-ordered dictionaries

    A Python [dict] iterates in insertion order; assigning to a key that
    is present keeps its position, assigning to a new key appends it. *)

Module PyDict.

Fixpoint get {A} (k : string) (d : list (string * A)) : option A :=
  match d with
  | [] => None
  | (k', a) :: d' => if decide (k' = k) then Some a else get k d'
  end.

Fixpoint set {A} (k : string) (a : A) (d : list (string * A)) : list (string * A) :=
  match d with
  | [] => [(k, a)]
  | (k', a') :: d' =>
      if decide (k' = k) then (k, a) :: d' else (k', a') :: set k a d'
  end.

Definition keys {A} (d : list (string * A)) : list string := d.*1.

End PyDict.

(** ** Relational store *)

Module Store.
Section Store.
Context {V : Type} `{EqDecision V}.

(** Modelled from the spec: the relational store behind [db_manager]
    (simtradedata/database/manager.py is not part of the sources).  The
    specification gives it [executemany(sql, params_list)], a
    [transaction()] block that commits on success and rolls back on an
    exception, and tables with a declared primary key on which an
    insert-or-replace statement is an upsert (last value wins).  A row
    maps column names to values; an absent column is NULL. *)
Record table : Type := mk_table {
  tbl_columns : list string;
  tbl_primary_key : list string;
  tbl_rows : list (gmap string V)
}.

Definition key_of (pk : list string) (r : gmap string V) : list (option V) :=
  (fun c => r !! c) <$> pk.

(** Modelled from the spec: one insert-or-replace, keyed by the declared
    primary key: the stored rows with the key of the new row are replaced
    by the new row. *)
Definition insert_or_replace (t : table) (r : gmap string V) : table :=
  mk_table (tbl_columns t) (tbl_primary_key t)
    (filter (fun r' => key_of (tbl_primary_key t) r' <> key_of (tbl_primary_key t) r)
            (tbl_rows t)
     ++ [r]).

(** [INSERT OR REPLACE INTO table (columns) VALUES (?, ..., ?)] *)
Inductive statement : Type :=
| InsertOrReplace (name : string) (columns : list string).

Definition row_of (columns : list string) (params : list V) : gmap string V :=
  list_to_map (zip columns params).

(** Modelled from the spec: what a bulk insert-or-replace does to its
    table.  The statement fails when the table or one of the columns does
    not exist, the column list is empty or a parameter tuple has the wrong
    length; otherwise every tuple is applied in order. *)
Definition run_on_table (t : option table) (columns : list string)
    (params_list : list (list V)) : result table :=
  match t with
  | None => Raise (OperationalError "no such table")
  | Some t =>
      if decide (columns = []) then Raise (OperationalError "syntax error")
      else if decide (Forall (fun c => c ∈ tbl_columns t) columns) then
        if decide (Forall (fun ps => length ps = length columns) params_list)
        then Ok (foldl insert_or_replace t (row_of columns <$> params_list))
        else Raise (OperationalError "incorrect number of bindings")
      else Raise (OperationalError "no such column")
  end.

(** Modelled from the spec: [executemany] inside a [transaction()]
    block: on success the new table is committed, on an exception the
    block rolls back and the store is the one it started from. *)
Definition executemany (st : gmap string table) (sql : statement)
    (params_list : list (list V)) : result (gmap string table) :=
  match sql with
  | InsertOrReplace name columns =>
      match run_on_table (st !! name) columns params_list with
      | Ok t' => Ok (<[name := t']> st)
      | Raise e => Raise e
      end
  end.

(** The rows of a table that carry the primary key of [r]. *)
Definition rows_with_key (t : table) (r : gmap string V) : list (gmap string V) :=
  filter (fun r' => key_of (tbl_primary_key t) r' = key_of (tbl_primary_key t) r)
         (tbl_rows t).

End Store.
Arguments table V : clear implicits.
End Store.

(** ** Batched writer (database/batch_writer.py) *)

Module BatchWriter.
Import Store.
Section BatchWriter.
Context {V : Type} `{EqDecision V}.

(** [_stats]; the wall-clock [total_flush_time] is not part of the state. *)
Record stats : Type := mk_stats {
  total_records : Z;
  total_batches : Z;
  failed_batches : Z
}.

Record writer : Type := mk_writer {
  batch_size : Z;
  auto_flush : bool;
  _buffer : list (string * list (gmap string V));
  _stats : stats
}.

(** [BatchWriter(db_manager, batch_size, auto_flush)] *)
Definition new_writer (batch_size : Z) (auto_flush : bool) : writer :=
  mk_writer batch_size auto_flush [] (mk_stats 0 0 0).

(** [self._buffer[table]] of the [defaultdict(list)], read without
    inserting the key. *)
Definition buffered (w : writer) (table : string) : list (gmap string V) :=
  default [] (PyDict.get table (_buffer w)).

(** [len(self._buffer.get(table, []))] *)
Definition get_buffer_size (w : writer) (table : string) : Z :=
  Z.of_nat (length (buffered w table)).

(** [list(records[0].keys())], in the map's order of keys: the order of
    the columns permutes the statement's text and each parameter tuple
    alike. *)
Definition columns_of (record : gmap string V) : list string :=
  (map_to_list record).*1.

(** [tuple(record[col] for col in columns)]; a missing column is a
    [KeyError]. *)
Fixpoint params_of (columns : list string) (record : gmap string V)
  : result (list V) :=
  match columns with
  | [] => Ok []
  | col :: columns' =>
      match record !! col with
      | None => Raise (KeyError col)
      | Some v => rbind (params_of columns' record) (fun vs => Ok (v :: vs))
      end
  end.

(** [[tuple(...) for record in records]] *)
Fixpoint params_list_of (columns : list string) (records : list (gmap string V))
  : result (list (list V)) :=
  match records with
  | [] => Ok []
  | record :: records' =>
      rbind (params_of columns record) (fun ps =>
      rbind (params_list_of columns records') (fun pss => Ok (ps :: pss)))
  end.

(** The row a buffered record becomes under a statement on [columns]:
    its values for these columns. *)
Definition stored_row (columns : list string) (record : gmap string V)
  : gmap string V :=
  filter (fun kv => kv.1 ∈ columns) record.

Definition count_failure (w : writer) : writer :=
  mk_writer (batch_size w) (auto_flush w) (_buffer w)
    (mk_stats (total_records (_stats w)) (total_batches (_stats w))
              (failed_batches (_stats w) + 1)).

Definition count_success (w : writer) (table : string) (record_count : Z) : writer :=
  mk_writer (batch_size w) (auto_flush w)
    (PyDict.set table [] (_buffer w))
    (mk_stats (total_records (_stats w) + record_count)
              (total_batches (_stats w) + 1)
              (failed_batches (_stats w))).

(** [flush(table)] for a table name; the returned writer and store are
    the state the call leaves behind, also when it raises. *)
Definition flush (w : writer) (st : gmap string (table V)) (table : string)
  : result Z * writer * gmap string (Store.table V) :=
  match PyDict.get table (_buffer w) with
  | None | Some [] => (Ok 0, w, st)
  | Some ((first :: _) as records) =>
      let record_count := Z.of_nat (length records) in
      let columns := columns_of first in
      let sql := InsertOrReplace table columns in
      match rbind (params_list_of columns records) (executemany st sql) with
      | Ok st' => (Ok record_count, count_success w table record_count, st')
      | Raise e => (Raise e, count_failure w, st)
      end
  end.

(** [flush_all]: every buffered table is flushed on its own; an
    exception of one flush is caught and recorded as 0. *)
Definition flush_all_step
    (acc : list (string * Z) * writer * gmap string (table V)) (table : string)
  : list (string * Z) * writer * gmap string (Store.table V) :=
  let '(results, w, st) := acc in
  let '(r, w', st') := flush w st table in
  (PyDict.set table (try_except r (fun _ => 0)) results, w', st').

Definition flush_all (w : writer) (st : gmap string (table V))
  : list (string * Z) * writer * gmap string (Store.table V) :=
  foldl flush_all_step ([], w, st) (PyDict.keys (_buffer w)).

(** The tables whose flush, started from [(w, st)], raises. *)
Definition failing_tables (w : writer) (st : gmap string (table V))
    (ks : list string) : list string :=
  filter (fun t => is_ok (flush w st t).1.1 = false) ks.

(** [add_record] *)
Definition add_record (w : writer) (st : gmap string (table V)) (table : string)
    (data : gmap string V) : result Z * writer * gmap string (Store.table V) :=
  if decide (table = "") then (Raise (ValueError "empty table name"), w, st)
  else
    let records := buffered w table ++ [data] in
    let w1 := mk_writer (batch_size w) (auto_flush w)
                (PyDict.set table records (_buffer w)) (_stats w) in
    let buffer_size := Z.of_nat (length records) in
    if auto_flush w && (batch_size w <=? buffer_size) then
      let '(r, w2, st2) := flush w1 st table in
      (rbind r (fun _ => Ok 0), w2, st2)
    else (Ok buffer_size, w1, st).

End BatchWriter.
Arguments writer V : clear implicits.

(** Cell values of the examples: SQL integers, text and NULL. *)
Inductive cell : Type :=
| CNull
| CInt (z : Z)
| CText (s : string).

#[global] Instance cell_eq_dec : EqDecision cell.
Proof. solve_decision. Defined.

(** The two tables of the unit tests: [id INTEGER PRIMARY KEY] and two
    more columns each. *)
Definition table_a : Store.table cell :=
  Store.mk_table ["id"; "name"; "value"] ["id"] [].

Definition table_b : Store.table cell :=
  Store.mk_table ["id"; "category"; "amount"] ["id"] [].

Definition test_store : gmap string (Store.table cell) :=
  <["test_table_a" := table_a]> (<["test_table_b" := table_b]> ∅).

Definition record_a (id : Z) (name : string) (value : Z) : gmap string cell :=
  <["id" := CInt id]> (<["name" := CText name]> (<["value" := CInt value]> ∅)).

Definition record_b (id : Z) (category : string) (amount : Z) : gmap string cell :=
  <["id" := CInt id]> (<["category" := CText category]> (<["amount" := CInt amount]> ∅)).

(** The buffer of the isolation test: table A holds a complete record and
    one without [id] and [value]; table B holds two complete records. *)
Definition isolation_writer : @writer cell :=
  mk_writer 3 true
    [ ("test_table_a", [record_a 1 "test1" 100; <["name" := CText "test2"]> ∅]);
      ("test_table_b", [record_b 1 "cat1" 10; record_b 2 "cat2" 20]) ]
    (mk_stats 0 0 0).

(** [{id: 1, name: n}] *)
Definition record_id_name (id : Z) (name : string) : gmap string cell :=
  <["id" := CInt id]> (<["name" := CText name]> ∅).

End BatchWriter.

(** ** Data validator (sync/validator.py) *)

Module Validator.

(** Python floats and the operations the validator applies to them.
    [float_of_int], [float_of_str] and [div] may raise ([OverflowError],
    [ValueError], [ZeroDivisionError]); nothing else is assumed. *)
Class FloatOps (F : Type) : Type := {
  float_of_int : Z -> result F;
  float_of_str : string -> result F;
  lt : F -> F -> bool;
  le : F -> F -> bool;
  sub : F -> F -> F;
  mul : F -> F -> F;
  div : F -> F -> result F;
  abs : F -> F;
  mean : list F -> result F;
  median : list F -> result F;
  minimum : list F -> result F;
  maximum : list F -> result F
}.

Section Validator.
Context {F : Type} `{FloatOps F}.

(** A column value of a fetched row. *)
Inductive pyval : Type :=
| PNone
| PInt (z : Z)
| PFloat (f : F)
| PStr (s : string).

(** [float(v)] *)
Definition float (v : pyval) : result F :=
  match v with
  | PNone => Raise (TypeError "float() argument must be a string or a real number")
  | PInt z => float_of_int z
  | PFloat f => Ok f
  | PStr s => float_of_str s
  end.

Record config : Type := mk_config {
  min_data_quality : F;
  max_price_change_pct : F;
  min_volume_threshold : F
}.

(** One entry of an issue list.  [cause] is the exception a
    [validation_error] reports; the free-text [description] is left out. *)
Record issue : Type := mk_issue {
  issue_type : string;
  field : option string;
  trade_date : pyval;
  cause : option exn
}.

(** [field in record and record[field] is not None] *)
Definition present (record : gmap string pyval) (fld : string) : bool :=
  match record !! fld with
  | Some PNone | None => false
  | Some _ => true
  end.

(** [record[field]] *)
Definition getitem (record : gmap string pyval) (fld : string) : result pyval :=
  match record !! fld with
  | Some v => Ok v
  | None => Raise (KeyError fld)
  end.

(** [record.get("trade_date", "")] *)
Definition get_trade_date (record : gmap string pyval) : pyval :=
  default (PStr "") (record !! "trade_date").

Definition new_issue (record : gmap string pyval) (ty : string)
    (fld : option string) : issue :=
  mk_issue ty fld (get_trade_date record) None.

(** The body of the [try] block of [_validate_record] mutates the list
    [issues] and may raise: a computation takes the list and returns the
    list it leaves, whether it raised or not. *)
Definition check (A : Type) : Type := list issue -> list issue * result A.

Definition ret {A} (a : A) : check A := fun issues => (issues, Ok a).

Definition bind {A B} (m : check A) (k : A -> check B) : check B :=
  fun issues =>
    match m issues with
    | (issues', Ok a) => k a issues'
    | (issues', Raise e) => (issues', Raise e)
    end.

Definition lift {A} (r : result A) : check A := fun issues => (issues, r).

(** [issues.append(i)] *)
Definition append (i : issue) : check unit := fun issues => (issues ++ [i], Ok tt).

Definition when (b : bool) (m : check unit) : check unit :=
  if b then m else ret tt.

Fixpoint for_each {A} (l : list A) (body : A -> check unit) : check unit :=
  match l with
  | [] => ret tt
  | x :: l' => bind (body x) (fun _ => for_each l' body)
  end.

Definition required_fields : list string :=
  ["symbol"; "trade_date"; "open"; "high"; "low"; "close"; "volume"].

Definition zero : result F := float_of_int 0.
Definition hundred : result F := float_of_int 100.

(** The five checks, in the order of the source. *)
Definition check_required (record : gmap string pyval) : check unit :=
  for_each required_fields (fun fld =>
    when (negb (present record fld))
      (append (new_issue record "missing_field" (Some fld)))).

Definition check_prices (record : gmap string pyval) : check unit :=
  when (forallb (present record) ["open"; "high"; "low"; "close"])
    (bind (lift (rbind (getitem record "open") float)) (fun open_price =>
     bind (lift (rbind (getitem record "high") float)) (fun high_price =>
     bind (lift (rbind (getitem record "low") float)) (fun low_price =>
     bind (lift (rbind (getitem record "close") float)) (fun close_price =>
     bind (lift zero) (fun z =>
     bind (when (existsb (fun price => le price z)
                   [open_price; high_price; low_price; close_price])
             (append (new_issue record "invalid_price" None))) (fun _ =>
     bind (when (lt high_price low_price)
             (append (new_issue record "price_logic_error" None))) (fun _ =>
     bind (when (negb (le low_price open_price && le open_price high_price))
             (append (new_issue record "price_logic_error" None))) (fun _ =>
     when (negb (le low_price close_price && le close_price high_price))
       (append (new_issue record "price_logic_error" None))))))))))).

Definition check_volume (cfg : config) (record : gmap string pyval) : check unit :=
  when (present record "volume")
    (bind (lift (rbind (getitem record "volume") float)) (fun volume =>
     bind (lift zero) (fun z =>
     if lt volume z then append (new_issue record "invalid_volume" None)
     else when (lt volume (min_volume_threshold cfg))
            (append (new_issue record "low_volume" None))))).

Definition check_quality (cfg : config) (record : gmap string pyval) : check unit :=
  when (present record "quality_score")
    (bind (lift (rbind (getitem record "quality_score") float)) (fun quality =>
     when (lt quality (min_data_quality cfg))
       (append (new_issue record "low_quality" None)))).

Definition check_change (cfg : config) (record : gmap string pyval) : check unit :=
  when (forallb (present record) ["close"; "preclose"])
    (bind (lift (rbind (getitem record "close") float)) (fun close_price =>
     bind (lift (rbind (getitem record "preclose") float)) (fun preclose =>
     bind (lift zero) (fun z =>
     when (lt z preclose)
       (bind (lift hundred) (fun h =>
        bind (lift (div (sub close_price preclose) preclose)) (fun q =>
        let change_percent := abs (mul q h) in
        when (lt (max_price_change_pct cfg) change_percent)
          (append (new_issue record "extreme_change" None))))))))).

Definition checks (cfg : config) (record : gmap string pyval) : check unit :=
  bind (check_required record) (fun _ =>
  bind (check_prices record) (fun _ =>
  bind (check_volume cfg record) (fun _ =>
  bind (check_quality cfg record) (fun _ =>
  check_change cfg record)))).

(** [_validate_record]: [issues = []], the [try] block, and the handler
    that appends a [validation_error] to whatever was collected. *)
Definition _validate_record (cfg : config) (record : gmap string pyval)
    (frequency : string) : list issue :=
  match checks cfg record [] with
  | (issues, Ok _) => issues
  | (issues, Raise e) =>
      issues ++ [mk_issue "validation_error" None (get_trade_date record) (Some e)]
  end.

(** [_get_symbol_data]: the query, with any exception turned into []. *)
Definition _get_symbol_data (fetchall : result (list (gmap string pyval)))
  : list (gmap string pyval) :=
  try_except fetchall (fun _ => []).

Record quality_stats : Type := mk_quality_stats {
  avg_quality : F;
  min_quality : F;
  max_quality : F;
  median_quality : F;
  quality_count : Z
}.

Fixpoint quality_scores (data_records : list (gmap string pyval)) : result (list F) :=
  match data_records with
  | [] => Ok []
  | record :: rest =>
      if present record "quality_score" then
        rbind (rbind (getitem record "quality_score") float) (fun q =>
        rbind (quality_scores rest) (fun qs => Ok (q :: qs)))
      else quality_scores rest
  end.

(** [_calculate_quality_stats]; [None] is the empty dict. *)
Definition _calculate_quality_stats (data_records : list (gmap string pyval))
  : option quality_stats :=
  try_except
    (match data_records with
     | [] => Ok None
     | _ =>
         rbind (quality_scores data_records) (fun qs =>
         match qs with
         | [] => Ok None
         | _ =>
             rbind (mean qs) (fun a =>
             rbind (minimum qs) (fun mn =>
             rbind (maximum qs) (fun mx =>
             rbind (median qs) (fun md =>
             Ok (Some (mk_quality_stats a mn mx md (Z.of_nat (length qs))))))))
         end)
     end)
    (fun _ => None).

(** The dict [validate_symbol_data] returns.  [error] is absent ([None])
    in the result of the [try] block and set by the handler. *)
Record symbol_result : Type := mk_symbol_result {
  sr_symbol : string;
  sr_frequency : string;
  error : option exn;
  total_records : Z;
  valid_records : Z;
  invalid_records : Z;
  issues : list issue;
  data_quality_stats : option quality_stats
}.

Definition count_record (validate : gmap string pyval -> result (list issue))
    (acc : result (Z * Z * list issue)) (record : gmap string pyval)
  : result (Z * Z * list issue) :=
  rbind acc (fun '(valid, invalid, all_issues) =>
  rbind (validate record) (fun record_issues =>
  match record_issues with
  | [] => Ok (valid + 1, invalid, all_issues)
  | _ => Ok (valid, invalid + 1, all_issues ++ record_issues)
  end)).

(** [validate_symbol_data] over the three methods it calls on [self]:
    the [try] block, where any of them may raise, and the handler. *)
Definition validate_symbol_data_with
    (get_symbol_data : result (list (gmap string pyval)))
    (validate_record : gmap string pyval -> result (list issue))
    (calculate_quality_stats : list (gmap string pyval) -> result (option quality_stats))
    (symbol frequency : string) : symbol_result :=
  try_except
    (rbind get_symbol_data (fun data_records =>
     let total := Z.of_nat (length data_records) in
     match data_records with
     | [] => Ok (mk_symbol_result symbol frequency None total 0 0 [] None)
     | _ =>
         rbind (foldl (count_record validate_record) (Ok (0, 0, [])) data_records)
           (fun '(valid, invalid, all_issues) =>
         rbind (calculate_quality_stats data_records) (fun stats =>
         Ok (mk_symbol_result symbol frequency None total valid invalid
               all_issues stats)))
     end))
    (fun e => mk_symbol_result symbol frequency (Some e) 0 0 0 [] None).

(** [validate_symbol_data] of a [DataValidator]: the methods are the
    class's own. *)
Definition validate_symbol_data (cfg : config)
    (fetchall : result (list (gmap string pyval)))
    (symbol frequency : string) : symbol_result :=
  validate_symbol_data_with
    (Ok (_get_symbol_data fetchall))
    (fun record => Ok (_validate_record cfg record frequency))
    (fun data_records => Ok (_calculate_quality_stats data_records))
    symbol frequency.

(** [self._validate_record(record, frequency)] found no issue. *)
Definition clean (validate_record : gmap string pyval -> result (list issue))
    (record : gmap string pyval) : bool :=
  match validate_record record with
  | Ok [] => true
  | _ => false
  end.

Definition count_clean (validate_record : gmap string pyval -> result (list issue))
    (data_records : list (gmap string pyval)) : Z :=
  Z.of_nat (length (filter (fun r => clean validate_record r = true) data_records)).

Definition count_flagged (validate_record : gmap string pyval -> result (list issue))
    (data_records : list (gmap string pyval)) : Z :=
  Z.of_nat (length (filter (fun r => clean validate_record r = false) data_records)).

End Validator.

Arguments pyval F : clear implicits.
Arguments config F : clear implicits.
Arguments issue F : clear implicits.
Arguments quality_stats F : clear implicits.
Arguments symbol_result F : clear implicits.

(** Integer-valued numbers as an instance for the examples: every
    number is a whole number, text does not parse, division truncates. *)
#[global] Instance integer_floats : FloatOps Z := {|
  float_of_int z := Ok z;
  float_of_str s := Raise (ValueError "could not convert string to float");
  lt := Z.ltb;
  le := Z.leb;
  sub := Z.sub;
  mul := Z.mul;
  div a b := if b =? 0 then Raise ZeroDivisionError else Ok (a / b);
  abs := Z.abs;
  mean l := Ok (foldr Z.add 0 l / Z.of_nat (length l));
  median l := Ok (nth (length l / 2) (merge_sort Z.le l) 0);
  minimum l := Ok (foldr Z.min (hd 0 l) l);
  maximum l := Ok (foldr Z.max (hd 0 l) l)
|}.

Definition example_config : config Z := mk_config 60 20 100.

Definition bar (open_price high low close volume : pyval Z)
  : gmap string (pyval Z) :=
  <["symbol" := PStr "000001.SZ"]>
  (<["trade_date" := PStr "2025-01-24"]>
  (<["open" := open_price]> (<["high" := high]> (<["low" := low]>
  (<["close" := close]> (<["volume" := volume]> ∅)))))).

(** A regular bar, a bar whose high is below its low, and a bar whose
    open is text that is not a number. *)
Definition example_bars : list (gmap string (pyval Z)) :=
  [ bar (PInt 10) (PInt 12) (PInt 9) (PInt 11) (PInt 5000);
    bar (PInt 10) (PInt 8) (PInt 9) (PInt 10) (PInt 5000);
    bar (PStr "n/a") (PInt 12) (PInt 9) (PInt 11) (PInt 5000) ].

End Validator.

(** ** Sync manager (sync/manager.py) *)

Module SyncManager.

(** [datetime.date] with the fields the manager reads; dates compare as
    (year, month, day) triples. *)
Record date : Type := mk_date { year : Z; month : Z; day : Z }.

#[global] Instance date_eq_dec : EqDecision date.
Proof. solve_decision. Defined.

Definition date_ltb (a b : date) : bool :=
  (year a <? year b)
  || ((year a =? year b)
      && ((month a <? month b) || ((month a =? month b) && (day a <? day b)))).

Definition date_leb (a b : date) : bool := negb (date_ltb b a).

(** Rows of the ledger and of the three extended-data tables, with the
    columns the planning pass mentions.  A date column holds the date
    whose text the store keeps; [created_at] and [updated_at] are seconds
    on the store's clock. *)
Record status_row : Type := mk_status_row {
  ss_symbol : string;
  ss_sync_type : string;
  ss_target_date : date;
  ss_status : string;
  ss_records_count : Z;
  ss_session_id : string;
  ss_created_at : Z;
  ss_updated_at : Z
}.

Record financial_row : Type := mk_financial_row {
  fin_symbol : string;
  fin_report_date : date;
  fin_created_at : Z
}.

Record valuation_row : Type := mk_valuation_row {
  val_symbol : string;
  val_date : date
}.

Record indicator_row : Type := mk_indicator_row {
  ind_symbol : string;
  ind_date : date
}.

Record database : Type := mk_database {
  extended_sync_status : list status_row;
  financials : list financial_row;
  valuations : list valuation_row;
  technical_indicators : list indicator_row
}.

Definition seconds_per_day : Z := 86400.

(** [DELETE FROM extended_sync_status WHERE target_date = ? AND status =
    'pending'] *)
Definition delete_pending (db : database) (target_date : date) : database :=
  mk_database
    (filter (fun r => ~ (ss_target_date r = target_date /\ ss_status r = "pending"))
            (extended_sync_status db))
    (financials db) (valuations db) (technical_indicators db).

(** [SELECT DISTINCT symbol FROM extended_sync_status WHERE target_date = ?
    AND status = 'completed'], as a set. *)
Definition completed_symbols (db : database) (target_date : date) : gset string :=
  list_to_set
    (ss_symbol <$>
       filter (fun r => ss_target_date r = target_date /\ ss_status r = "completed")
              (extended_sync_status db)).

(** [SELECT DISTINCT symbol FROM financials WHERE symbol IN (...) AND
    report_date = ? AND created_at > datetime('now', '-30 days')] *)
Definition financial_symbols (db : database) (now : Z) (symbols : list string)
    (report_date : date) : gset string :=
  list_to_set
    (fin_symbol <$>
       filter (fun r => fin_symbol r ∈ symbols /\ fin_report_date r = report_date
                        /\ now - 30 * seconds_per_day < fin_created_at r)
              (financials db)).

(** [SELECT DISTINCT symbol FROM valuations WHERE symbol IN (...)] *)
Definition valuation_symbols (db : database) (symbols : list string) : gset string :=
  list_to_set (val_symbol <$> filter (fun r => val_symbol r ∈ symbols) (valuations db)).

(** [SELECT DISTINCT symbol FROM technical_indicators WHERE symbol IN (...)] *)
Definition indicator_symbols (db : database) (symbols : list string) : gset string :=
  list_to_set
    (ind_symbol <$> filter (fun r => ind_symbol r ∈ symbols) (technical_indicators db)).

(** The loop over [symbols] that fills [symbols_needing_processing]. *)
Definition plan_step (completed financial valuation indicator : gset string)
    (symbols_needing_processing : list string) (symbol : string) : list string :=
  if decide (symbol ∈ completed) then symbols_needing_processing
  else
    let needs_financial := bool_decide (symbol ∉ financial) in
    let needs_valuation := bool_decide (symbol ∉ valuation) in
    let needs_indicators := bool_decide (symbol ∉ indicator) in
    if needs_financial || needs_valuation || needs_indicators
    then symbols_needing_processing ++ [symbol]
    else symbols_needing_processing.

(** [_get_extended_data_symbols_to_process], run at store time [now]:
    the store it leaves and the list it returns. *)
Definition _get_extended_data_symbols_to_process (db : database) (now : Z)
    (symbols : list string) (target_date : date) : database * list string :=
  let db' := delete_pending db target_date in
  let completed := completed_symbols db' target_date in
  match symbols with
  | [] => (db', [])
  | _ =>
      let report_date := mk_date (year target_date) 12 31 in
      let financial := financial_symbols db' now symbols report_date in
      let valuation := valuation_symbols db' symbols in
      let indicator := indicator_symbols db' symbols in
      (db', foldl (plan_step completed financial valuation indicator) [] symbols)
  end.

(** *** The presence conditions, in the specification's words *)

Definition has_completed_row (db : database) (symbol : string) (target_date : date)
  : Prop :=
  exists r, r ∈ extended_sync_status db /\ ss_symbol r = symbol
            /\ ss_target_date r = target_date /\ ss_status r = "completed".

(** Financial statements for the relevant fiscal year. *)
Definition has_financials (db : database) (symbol : string) (target_date : date)
  : Prop :=
  exists r, r ∈ financials db /\ fin_symbol r = symbol
            /\ fin_report_date r = mk_date (year target_date) 12 31.

(** Financial statements for the relevant fiscal year written during the
    last 30 days. *)
Definition has_recent_financials (db : database) (now : Z) (symbol : string)
    (target_date : date) : Prop :=
  exists r, r ∈ financials db /\ fin_symbol r = symbol
            /\ fin_report_date r = mk_date (year target_date) 12 31
            /\ now - 30 * seconds_per_day < fin_created_at r.

Definition has_valuations (db : database) (symbol : string) : Prop :=
  exists r, r ∈ valuations db /\ val_symbol r = symbol.

Definition has_indicators (db : database) (symbol : string) : Prop :=
  exists r, r ∈ technical_indicators db /\ ind_symbol r = symbol.

(** The condition for processing as the specification words it, with
    the presence of financial statements not limited to recent rows. *)
Definition needs_processing_as_specified (db : database) (symbol : string)
    (target_date : date) : Prop :=
  ~ has_completed_row db symbol target_date
  /\ (~ has_financials db symbol target_date
      \/ ~ has_valuations db symbol \/ ~ has_indicators db symbol).

(** *** run_full_sync *)

(** Modelled from the spec: the decorator [unified_error_handler
    (return_dict=True)] (simtradedata/core is not part of the sources):
    the orchestrator's top-level wrapper converts any escaping exception
    into a structured failure result; a returned value is wrapped as the
    data of a success result. *)
Inductive handled (A : Type) : Type :=
| Success (data : A)
| Failure (e : exn).
Arguments Success {A} data.
Arguments Failure {A} e.

Definition unified_error_handler {A} (body : result A) : handled A :=
  match body with
  | Ok a => Success a
  | Raise e => Failure e
  end.

(** The date the manager falls back to. *)
Definition known_good_date : date := mk_date 2025 1 24.

Section RunFullSync.
(** The phases that follow the input checks (calendar and stock list,
    incremental sync, extended data, gap detection and repair,
    validation) run on the effective target date; an exception that
    escapes them is re-raised. *)
Context {P : Type}.
Variable run_phases : date -> list string -> option (list string) -> result P.

Record full_result : Type := mk_full_result {
  fr_target_date : date;
  fr_phases : P
}.

(** The body of [run_full_sync]; [today] is [datetime.now().date()]. *)
Definition run_full_sync_body (today : date) (target_date : option date)
    (symbols : list string) (frequencies : option (list string))
  : result full_result :=
  match target_date with
  | None => Raise (ValidationError "target date must not be empty")
  | Some target_date =>
      let target_date :=
        if date_ltb today target_date then known_good_date else target_date in
      rbind (run_phases target_date symbols frequencies) (fun phases =>
      Ok (mk_full_result target_date phases))
  end.

Definition run_full_sync (today : date) (target_date : option date)
    (symbols : list string) (frequencies : option (list string))
  : handled full_result :=
  unified_error_handler (run_full_sync_body today target_date symbols frequencies).

End RunFullSync.

(** *** Stores of the examples *)

(** Store time of the examples: 2025-01-24 12:00:00 UTC, in seconds. *)
Definition noon : Z := 1737720000.

Definition target_20250124 : date := mk_date 2025 1 24.

(** A ledger with one [pending] row for the target date, created 12
    hours before the planning pass. *)
Definition recent_pending_db : database :=
  mk_database
    [mk_status_row "000006.SZ" "processing" target_20250124 "pending" 0 "test"
       (noon - 12 * 3600) (noon - 12 * 3600)]
    [] [] [].

(** A symbol with valuations, indicators and the fiscal year's financial
    statements, the latter written 40 days before the planning pass; no
    ledger row. *)
Definition stale_financials_db : database :=
  mk_database
    []
    [mk_financial_row "000001.SZ" (mk_date 2025 12 31) (noon - 40 * seconds_per_day)]
    [mk_valuation_row "000001.SZ" target_20250124]
    [mk_indicator_row "000001.SZ" target_20250124].

Definition five_symbols : list string :=
  ["000001.SZ"; "000002.SZ"; "000003.SZ"; "000004.SZ"; "000005.SZ"].

Definition completed_row (s : string) : status_row :=
  mk_status_row s "processing" target_20250124 "completed" 10 "test"
    (noon - 3600) (noon - 3600).

(** Three of five symbols have a [completed] ledger row and all three
    tables populated; the other two have nothing. *)
Definition resume_db : database :=
  mk_database
    [completed_row "000001.SZ"; completed_row "000002.SZ"; completed_row "000003.SZ"]
    [mk_financial_row "000001.SZ" (mk_date 2025 12 31) (noon - 3600);
     mk_financial_row "000002.SZ" (mk_date 2025 12 31) (noon - 3600);
     mk_financial_row "000003.SZ" (mk_date 2025 12 31) (noon - 3600)]
    [mk_valuation_row "000001.SZ" target_20250124;
     mk_valuation_row "000002.SZ" target_20250124;
     mk_valuation_row "000003.SZ" target_20250124]
    [mk_indicator_row "000001.SZ" target_20250124;
     mk_indicator_row "000002.SZ" target_20250124;
     mk_indicator_row "000003.SZ" target_20250124].

(** Phases that complete without an outcome of interest. *)
Definition trivial_phases (d : date) (symbols : list string)
    (frequencies : option (list string)) : result unit := Ok tt.

End SyncManager.

(** ** Further methods of the same classes *)

(** [sum(...)] over integers. *)
Definition sum_Z (l : list Z) : Z := foldr Z.add 0 l.

(** *** Batched writer: buffer maintenance, scope exit, loading loops *)

Module BatchWriterOps.
Import Store BatchWriter.
Section BatchWriterOps.
Context {V : Type} `{EqDecision V}.

(** [get_buffer_size()] without a table:
    [sum(len(records) for records in self._buffer.values())] *)
Definition get_buffer_size_all (w : writer V) : Z :=
  sum_Z ((fun kv => Z.of_nat (length kv.2)) <$> _buffer w).

(** [clear_buffer(table)]: without a table the dict itself is cleared;
    with a table its list is cleared when the key exists. *)
Definition clear_buffer (w : writer V) (table : option string) : writer V :=
  match table with
  | None => mk_writer (batch_size w) (auto_flush w) [] (_stats w)
  | Some t =>
      match PyDict.get t (_buffer w) with
      | Some _ =>
          mk_writer (batch_size w) (auto_flush w)
            (PyDict.set t [] (_buffer w)) (_stats w)
      | None => w
      end
  end.

(** [__exit__]: when something is buffered, [flush_all] inside a
    [try] whose handler only logs; the returned [False] (first
    component) lets the block's own exception propagate. *)
Definition __exit__ (w : writer V) (st : gmap string (table V))
  : bool * writer V * gmap string (table V) :=
  if 0 <? get_buffer_size_all w then
    let '(_, w', st') := flush_all w st in (false, w', st')
  else (false, w, st).

(** [for record in records: writer.add_record(table, record)], the
    loading loop of the callers; it stops at the first exception. *)
Fixpoint add_records (w : writer V) (st : gmap string (table V)) (table : string)
    (records : list (gmap string V))
  : result unit * writer V * gmap string (Store.table V) :=
  match records with
  | [] => (Ok tt, w, st)
  | record :: records' =>
      match add_record w st table record with
      | (Ok _, w', st') => add_records w' st' table records'
      | (Raise e, w', st') => (Raise e, w', st')
      end
  end.

(** The writer after [n] more failed batches and nothing else. *)
Definition with_failures (w : writer V) (n : Z) : writer V :=
  mk_writer (batch_size w) (auto_flush w) (_buffer w)
    (mk_stats (total_records (_stats w)) (total_batches (_stats w))
              (failed_batches (_stats w) + n)).

(** A record whose keys are exactly [columns]. *)
Definition has_columns (columns : list string) (record : gmap string V) : Prop :=
  dom record = (list_to_set columns : gset string).

End BatchWriterOps.
End BatchWriterOps.

(** *** Gap detector: the scans over symbols and frequencies *)

Module GapScan.
Import GapDetector.

(** The dict [_detect_frequency_gaps] returns.  [symbols_with_gaps] is
    the set the loop fills; the code hands it out as [list(set)], whose
    order Python leaves open. *)
Record frequency_gaps : Type := mk_frequency_gaps {
  fg_frequency : string;
  fg_total_symbols : Z;
  fg_symbols_with_gaps : gset string;
  fg_gaps : list gap
}.

(** One round of the loop over [symbols]: a symbol whose detection
    raises is logged and skipped. *)
Definition frequency_step (detect : string -> result (list gap))
    (acc : gset string * list gap) (symbol : string) : gset string * list gap :=
  match detect symbol with
  | Ok [] => acc
  | Ok symbol_gaps => ({[symbol]} ∪ acc.1, acc.2 ++ symbol_gaps)
  | Raise _ => acc
  end.

(** [_detect_frequency_gaps] over the method it calls on [self]. *)
Definition _detect_frequency_gaps_with (detect : string -> result (list gap))
    (symbols : list string) (freq : string) : frequency_gaps :=
  let acc := foldl (frequency_step detect) (∅, []) symbols in
  mk_frequency_gaps freq (Z.of_nat (length symbols)) acc.1 acc.2.

(** [_detect_frequency_gaps] of a [GapDetector]. *)
Definition _detect_frequency_gaps (db : database) (symbols : list string)
    (start_date end_date : date) (freq : string) : frequency_gaps :=
  _detect_frequency_gaps_with
    (fun symbol => Ok (detect_symbol_gaps db symbol start_date end_date freq))
    symbols freq.

(** [detection_result["summary"]]; [gap_types] is the
    [defaultdict(int)]. *)
Record gap_summary : Type := mk_gap_summary {
  total_gaps : Z;
  symbols_with_gaps : Z;
  gap_types : gmap string Z
}.

Record detection_result : Type := mk_detection_result {
  dr_total_symbols : Z;
  dr_frequencies : list string;
  gaps_by_frequency : list (string * frequency_gaps);
  summary : gap_summary
}.

(** [gap_types[gap["gap_type"]] += 1] *)
Definition count_gap_type (types : gmap string Z) (g : gap) : gmap string Z :=
  <[gap_type g := default 0 (types !! gap_type g) + 1]> types.

(** One round of the loop over [frequencies]. *)
Definition all_gaps_step (detect : string -> frequency_gaps)
    (acc : list (string * frequency_gaps) * gap_summary) (freq : string)
  : list (string * frequency_gaps) * gap_summary :=
  let freq_gaps := detect freq in
  (PyDict.set freq freq_gaps acc.1,
   mk_gap_summary
     (total_gaps acc.2 + Z.of_nat (length (fg_gaps freq_gaps)))
     (symbols_with_gaps acc.2 + Z.of_nat (size (fg_symbols_with_gaps freq_gaps)))
     (foldl count_gap_type (gap_types acc.2) (fg_gaps freq_gaps))).

(** [detect_all_gaps] with its arguments given (the defaults only fill
    in absent ones). *)
Definition detect_all_gaps (db : database) (start_date end_date : date)
    (symbols : list string) (frequencies : list string) : detection_result :=
  let acc :=
    foldl (all_gaps_step (_detect_frequency_gaps db symbols start_date end_date))
          ([], mk_gap_summary 0 0 ∅) frequencies in
  mk_detection_result (Z.of_nat (length symbols)) frequencies acc.1 acc.2.

(** The week of Monday 2025-01-20 (ordinal 739271) in a store: the
    weekend rows are not trading days; one symbol has data for Monday and
    Friday, another for every trading day. *)
Definition week_db : database :=
  mk_database
    [ mk_calendar_row 739275 "CN" 1; mk_calendar_row 739271 "CN" 1;
      mk_calendar_row 739272 "CN" 1; mk_calendar_row 739273 "CN" 1;
      mk_calendar_row 739274 "CN" 1; mk_calendar_row 739276 "CN" 0;
      mk_calendar_row 739277 "CN" 0 ]
    [ mk_market_row "000001.SZ" 739271 "1d"; mk_market_row "000001.SZ" 739275 "1d";
      mk_market_row "000002.SZ" 739271 "1d"; mk_market_row "000002.SZ" 739272 "1d";
      mk_market_row "000002.SZ" 739273 "1d"; mk_market_row "000002.SZ" 739274 "1d";
      mk_market_row "000002.SZ" 739275 "1d" ].

End GapScan.

(** *** Validator: what a record's issue list looks like *)

Module ValidatorOps.
Import Validator.
Section ValidatorOps.
Context {F : Type} `{FloatOps F}.

(** The [missing_field] issues of the first check: one for each required
    field that is absent or [None], in the order of [required_fields]. *)
Definition missing_issues (record : gmap string (pyval F)) : list (issue F) :=
  (fun fld => new_issue record "missing_field" (Some fld))
  <$> filter (fun fld => present record fld = false) required_fields.

(** An issue as the four value checks append it: one of [types], no
    [field], the record's [trade_date], no exception. *)
Definition value_issue (record : gmap string (pyval F)) (types : list string)
    (i : issue F) : Prop :=
  issue_type i ∈ types /\ field i = None
  /\ trade_date i = get_trade_date record /\ cause i = None.

(** A computation of the [try] block that only appends issues
    satisfying [P]. *)
Definition appends {A} (P : issue F -> Prop) (m : check A) : Prop :=
  forall issues, exists extra, (m issues).1 = issues ++ extra /\ Forall P extra.

(** The keys of a row of [_get_symbol_data]: the names its [SELECT]
    gives the columns ([date as trade_date]). *)
Definition query_columns : list string :=
  ["symbol"; "trade_date"; "frequency"; "open"; "high"; "low"; "close";
   "volume"; "amount"; "prev_close"; "change_percent"; "turnover_rate";
   "quality_score"].

End ValidatorOps.
End ValidatorOps.

(** *** Validator: the scan over the symbols of one frequency *)

Module ValidatorScan.
Import Validator.
Section ValidatorScan.
Context {F : Type} `{FloatOps F}.

(** [quality_score >= n] of a statistic and an integer literal. *)
Variable ge_int : F -> Z -> bool.

(** [d[k] += 1] on a [defaultdict(int)] *)
Definition increment (k : string) (d : gmap string Z) : gmap string Z :=
  <[k := default 0 (d !! k) + 1]> d.

(** [_get_quality_range]; its argument is a statistic or the integer
    default of [.get("avg_quality", 0)]. *)
Definition _get_quality_range (quality_score : F + Z) : string :=
  let ge n := match quality_score with
              | inl f => ge_int f n
              | inr z => n <=? z
              end in
  if ge 90 then "excellent"
  else if ge 80 then "good"
  else if ge 70 then "fair"
  else if ge 60 then "poor"
  else "very_poor".

(** The dict [_validate_frequency_data] returns. *)
Record frequency_result : Type := mk_frequency_result {
  fr_frequency : string;
  fr_total_symbols : Z;
  fr_total_records : Z;
  fr_valid_records : Z;
  fr_invalid_records : Z;
  fr_issue_types : gmap string Z;
  fr_symbols_with_issues : list string;
  fr_quality_distribution : gmap string Z
}.

(** [symbol_result["data_quality_stats"].get("avg_quality", 0)] *)
Definition avg_quality_or_0 (sr : symbol_result F) : F + Z :=
  match data_quality_stats sr with
  | Some s => inl (avg_quality s)
  | None => inr 0
  end.

(** The range a symbol's result is tallied under. *)
Definition quality_range (sr : symbol_result F) : string :=
  _get_quality_range (avg_quality_or_0 sr).

(** One round of the loop over the symbols.  Of the two dicts
    [validate_symbol_data] can return, only the handler's (the one with
    [error]) lacks the key [data_quality_stats].  An exception of the call
    itself is caught and counted as one invalid record. *)
Definition frequency_step (validate : string -> result (symbol_result F))
    (acc : frequency_result) (symbol : string) : frequency_result :=
  match validate symbol with
  | Ok sr =>
      mk_frequency_result (fr_frequency acc) (fr_total_symbols acc)
        (fr_total_records acc + total_records sr)
        (fr_valid_records acc + valid_records sr)
        (fr_invalid_records acc + invalid_records sr)
        (foldl (fun d i => increment (issue_type i) d) (fr_issue_types acc) (issues sr))
        (match issues sr with
         | [] => fr_symbols_with_issues acc
         | _ => fr_symbols_with_issues acc ++ [symbol]
         end)
        (match error sr with
         | None => increment (quality_range sr) (fr_quality_distribution acc)
         | Some _ => fr_quality_distribution acc
         end)
  | Raise _ =>
      mk_frequency_result (fr_frequency acc) (fr_total_symbols acc)
        (fr_total_records acc) (fr_valid_records acc)
        (fr_invalid_records acc + 1)
        (fr_issue_types acc) (fr_symbols_with_issues acc)
        (fr_quality_distribution acc)
  end.

(** [_validate_frequency_data] over the method it calls on [self]. *)
Definition _validate_frequency_data_with
    (validate : string -> result (symbol_result F))
    (symbols : list string) (frequency : string) : frequency_result :=
  foldl (frequency_step validate)
    (mk_frequency_result frequency (Z.of_nat (length symbols)) 0 0 0 ∅ [] ∅)
    symbols.

(** [_validate_frequency_data] of a [DataValidator]; [fetchall symbol]
    is what the query for the symbol's rows gives. *)
Definition _validate_frequency_data (cfg : config F)
    (fetchall : string -> result (list (gmap string (pyval F))))
    (symbols : list string) (frequency : string) : frequency_result :=
  _validate_frequency_data_with
    (fun symbol => Ok (validate_symbol_data cfg (fetchall symbol) symbol frequency))
    symbols frequency.

(** The results of the symbols whose validation returned. *)
Definition returned (validate : string -> result (symbol_result F))
    (symbols : list string) : list (symbol_result F) :=
  omap (fun symbol => match validate symbol with
                      | Ok sr => Some sr
                      | Raise _ => None
                      end) symbols.

(** The validation of the symbol returned a result with issues. *)
Definition flagged (validate : string -> result (symbol_result F))
    (symbol : string) : bool :=
  match validate symbol with
  | Ok sr => match issues sr with [] => false | _ => true end
  | Raise _ => false
  end.

End ValidatorScan.
End ValidatorScan.

(** *** Gap detector: the scan over the supported tables *)

Module TableGaps.
Import GapDetector GapScan.

(** An entry of [supported_tables]; the free-text [description] is
    left out, as in a gap. *)
Record table_config : Type := mk_table_config {
  date_column : string;
  frequency_column : option string
}.

Definition supported_tables : list (string * table_config) :=
  [ ("market_data", mk_table_config "date" (Some "frequency"));
    ("valuations", mk_table_config "date" None);
    ("technical_indicators", mk_table_config "date" (Some "frequency"));
    ("financials", mk_table_config "report_date" None);
    ("corporate_actions", mk_table_config "ex_date" None) ].

(** A row of a supported table, with the columns the query mentions.
    [tr_date] is the value of the table's date column: the date whose ISO
    text the store keeps, or [None] for [NULL], the empty text and text
    that is no date, which the method passes over alike.  [tr_frequency]
    is the value of the frequency column of a table that has one. *)
Record table_row : Type := mk_table_row {
  tr_symbol : string;
  tr_date : option date;
  tr_frequency : string
}.

(** The gap dict with the key [table_name] added. *)
Record table_gap : Type := mk_table_gap {
  tg_gap : gap;
  tg_table_name : string
}.

(** The dict [_detect_table_gaps] returns. *)
Record table_gaps : Type := mk_table_gaps {
  tgs_table_name : string;
  tgs_symbols_with_gaps : list string;
  tgs_gaps : list table_gap
}.

(** An entry of [gaps_by_table]: a table's result or the dict of the
    handler, which holds the error. *)
Inductive table_entry : Type :=
| Detected (g : table_gaps)
| Failed (e : exn).

(** [entry["gaps"]]: the handler's dict holds an empty list. *)
Definition entry_gaps (entry : table_entry) : list table_gap :=
  match entry with
  | Detected g => tgs_gaps g
  | Failed _ => []
  end.

(** [detection_result["summary"]] of the scan over tables;
    [symbols_with_gaps] is the set the loop fills. *)
Record tables_summary : Type := mk_tables_summary {
  ts_total_gaps : Z;
  ts_tables_with_gaps : Z;
  ts_symbols_with_gaps : gset string;
  ts_gap_types : gmap string Z
}.

Record tables_result : Type := mk_tables_result {
  symbols_count : Z;
  tables_checked : Z;
  gaps_by_table : list (string * table_entry);
  tables_summary_of : tables_summary
}.

Section TableGaps.

(** [db_manager.fetchall] on a table: its rows, or the exception the
    query raises (a table or column that does not exist). *)
Variable fetchall : string -> result (list table_row).

(** [if frequency_column:] *)
Definition truthy (s : option string) : bool :=
  match s with
  | Some s => negb (String.eqb s "")
  | None => false
  end.

(** [frequency_column or "1d"] *)
Definition or_1d (s : option string) : string :=
  match s with
  | Some s => if String.eqb s "" then "1d" else s
  | None => "1d"
  end.

(** The [WHERE] clause of the two queries of [_get_existing_table_dates];
    with a frequency column the frequency compared is the literal [1d]. *)
Definition row_selected (symbol : string) (start_date end_date : date)
    (frequency_column : option string) (r : table_row) : bool :=
  String.eqb (tr_symbol r) symbol
  && (if truthy frequency_column then String.eqb (tr_frequency r) "1d" else true)
  && match tr_date r with
     | Some d => (start_date <=? d) && (d <=? end_date)
     | None => false
     end.

(** [_get_existing_table_dates]: [SELECT DISTINCT date_column ... ORDER BY
    date_column], the rows' dates parsed one by one; any exception of the
    query gives []. *)
Definition _get_existing_table_dates (table_name symbol : string)
    (start_date end_date : date) (date_column : string)
    (frequency_column : option string) : list date :=
  try_except
    (rbind (fetchall table_name) (fun rows =>
     Ok (sorted (remove_dups (omap tr_date
           (filter (fun r => row_selected symbol start_date end_date
                               frequency_column r = true) rows))))))
    (fun _ => []).

(** [_detect_symbol_table_gaps]; [self.supported_tables[table_name]] is a
    [KeyError] for another table. *)
Definition _detect_symbol_table_gaps (db : database) (table_name symbol : string)
    (start_date end_date : date) : result (list table_gap) :=
  match PyDict.get table_name supported_tables with
  | None => Raise (KeyError table_name)
  | Some table_config =>
      match _get_trading_days db start_date end_date with
      | [] => Ok []
      | trading_days =>
          let existing_dates :=
            _get_existing_table_dates table_name symbol start_date end_date
              (date_column table_config) (frequency_column table_config) in
          let gaps :=
            _detect_date_gaps symbol trading_days existing_dates
              (or_1d (frequency_column table_config)) in
          Ok ((fun g => mk_table_gap g table_name) <$> gaps)
      end
  end.

(** One round of the loop over [symbols]: an exception is logged and the
    symbol skipped. *)
Definition table_step (detect : string -> result (list table_gap))
    (acc : list string * list table_gap) (symbol : string)
  : list string * list table_gap :=
  match detect symbol with
  | Ok [] => acc
  | Ok symbol_gaps => (acc.1 ++ [symbol], acc.2 ++ symbol_gaps)
  | Raise _ => acc
  end.

(** [_detect_table_gaps] *)
Definition _detect_table_gaps (db : database) (table_name : string)
    (symbols : list string) (start_date end_date : date) : result table_gaps :=
  match PyDict.get table_name supported_tables with
  | None => Raise (KeyError table_name)
  | Some _ =>
      let acc :=
        foldl (table_step (fun symbol =>
                 _detect_symbol_table_gaps db table_name symbol start_date end_date))
              ([], []) symbols in
      Ok (mk_table_gaps table_name acc.1 acc.2)
  end.

(** [symbols_with_gaps.add(gap["symbol"])] and
    [gap_types[gap["gap_type"]] += 1] *)
Definition add_gap (acc : gset string * gmap string Z) (g : table_gap)
  : gset string * gmap string Z :=
  ({[symbol (tg_gap g)]} ∪ acc.1, count_gap_type acc.2 (tg_gap g)).

(** One round of the loop over [tables]: a table that is not supported
    is passed over; an exception is recorded as the table's entry. *)
Definition all_tables_step (db : database) (symbols : list string)
    (start_date end_date : date)
    (acc : list (string * table_entry) * tables_summary) (table_name : string)
  : list (string * table_entry) * tables_summary :=
  match PyDict.get table_name supported_tables with
  | None => acc
  | Some _ =>
      match _detect_table_gaps db table_name symbols start_date end_date with
      | Ok found =>
          (PyDict.set table_name (Detected found) acc.1,
           match tgs_gaps found with
           | [] => acc.2
           | gaps =>
               let filled :=
                 foldl add_gap (ts_symbols_with_gaps acc.2, ts_gap_types acc.2) gaps in
               mk_tables_summary
                 (ts_total_gaps acc.2 + Z.of_nat (length gaps))
                 (ts_tables_with_gaps acc.2 + 1)
                 filled.1 filled.2
           end)
      | Raise e => (PyDict.set table_name (Failed e) acc.1, acc.2)
      end
  end.

(** [detect_all_tables_gaps] with its arguments given. *)
Definition detect_all_tables_gaps (db : database) (start_date end_date : date)
    (symbols : list string) (tables : list string) : tables_result :=
  let acc :=
    foldl (all_tables_step db symbols start_date end_date)
          ([], mk_tables_summary 0 0 ∅ ∅) tables in
  mk_tables_result (Z.of_nat (length symbols)) (Z.of_nat (length tables))
    acc.1 acc.2.

End TableGaps.

(** Valuation rows for Monday and for Friday of the week of [week_db];
    every other table cannot be read. *)
Definition valuations_only (table_name : string) : result (list table_row) :=
  if String.eqb table_name "valuations" then
    Ok [ mk_table_row "000001.SZ" (Some 739271) "";
         mk_table_row "000001.SZ" (Some 739275) "" ]
  else Raise (OperationalError "no such table").

End TableGaps.

(** *** Sync manager: the repair of detected gaps *)

Module GapRepair.
Import GapDetector GapScan.
Section GapRepair.

(** The state of the store and of the data source, which the calls of
    the loop read and change. *)
Context {W : Type}.

(** [db_manager.fetchone("SELECT list_date, status FROM stocks WHERE
    symbol = ?")] and the parsing of a non-empty [list_date]: no row, a
    row without a listing date, or a row with one.  Either step may
    raise. *)
Variable stock_list_date : W -> string -> result (option (option date)) * W.

(** [data_source_manager.get_daily_data(symbol, gap_start, gap_end)],
    unwrapped: whether data came back ([daily_data is not None], has a
    length, [len(daily_data) > 0]). *)
Variable get_daily_data : W -> string -> date -> date -> result bool * W.

(** [processing_engine.process_symbol_data(...).get("records", 0)] *)
Variable process_symbol_data :
  W -> string -> date -> date -> string -> result Z * W.

Record fix_result : Type := mk_fix_result {
  fx_total_gaps : Z;
  attempted_fixes : Z;
  successful_fixes : Z;
  failed_fixes : Z;
  skipped_fixes : Z
}.

Definition max_fixes : Z := 10.

(** The gaps the loop does not pass over at once: [symbol] is not
    empty and [frequency] is ["1d"] (the two date strings of a gap are
    never empty). *)
Definition repairable (g : gap) : bool :=
  negb (String.eqb (symbol g) "") && String.eqb (frequency g) "1d".

(** The loop over [all_gaps]; [break] once [max_fixes] repairs were
    attempted.  An exception of the stock lookup or of the data source
    leaves the method; one of the processing engine is a failed fix. *)
Fixpoint fix_loop (gaps : list gap) (fixed : fix_result) (fixes_attempted : Z)
    (w : W) : result fix_result * W :=
  match gaps with
  | [] => (Ok fixed, w)
  | g :: gaps' =>
      if max_fixes <=? fixes_attempted then (Ok fixed, w)
      else if negb (repairable g) then fix_loop gaps' fixed fixes_attempted w
      else
        match stock_list_date w (symbol g) with
        | (Raise e, w1) => (Raise e, w1)
        | (Ok None, w1) => fix_loop gaps' fixed fixes_attempted w1
        | (Ok (Some list_date), w1) =>
            if match list_date with
               | Some d => start_date g <? d
               | None => false
               end
            then
              fix_loop gaps'
                (mk_fix_result (fx_total_gaps fixed) (attempted_fixes fixed)
                   (successful_fixes fixed) (failed_fixes fixed) (skipped_fixes fixed + 1))
                fixes_attempted w1
            else
              let succeeded (ok : bool) :=
                mk_fix_result (fx_total_gaps fixed) (attempted_fixes fixed + 1)
                  (successful_fixes fixed + (if ok then 1 else 0))
                  (failed_fixes fixed + (if ok then 0 else 1)) (skipped_fixes fixed) in
              match get_daily_data w1 (symbol g) (start_date g) (end_date g) with
              | (Raise e, w2) => (Raise e, w2)
              | (Ok false, w2) =>
                  fix_loop gaps' (succeeded false) (fixes_attempted + 1) w2
              | (Ok true, w2) =>
                  match process_symbol_data w2 (symbol g) (start_date g)
                          (end_date g) (frequency g) with
                  | (Ok records_inserted, w3) =>
                      fix_loop gaps' (succeeded (0 <? records_inserted))
                        (fixes_attempted + 1) w3
                  | (Raise _, w3) =>
                      fix_loop gaps' (succeeded false) (fixes_attempted + 1) w3
                  end
              end
        end
  end.

(** [all_gaps]: the gaps of every frequency, in the order of the dict. *)
Definition all_gaps (gap_result : detection_result) : list gap :=
  mjoin ((fun kv => fg_gaps kv.2) <$> gaps_by_frequency gap_result).

(** [_auto_fix_gaps] *)
Definition _auto_fix_gaps (gap_result : detection_result) (w : W)
  : result fix_result * W :=
  let fixed := mk_fix_result (total_gaps (summary gap_result)) 0 0 0 0 in
  match all_gaps gap_result with
  | [] => (Ok fixed, w)
  | gaps => fix_loop gaps fixed 0 w
  end.

End GapRepair.

(** Collaborators of the examples; the state counts their calls.
    Every stock is listed on day 739000, the source has data for every
    request, and processing inserts three records. *)
Definition listed_stock (w : Z) (symbol : string)
  : result (option (option date)) * Z :=
  (Ok (Some (Some 739000)), w + 1).

Definition source_with_data (w : Z) (symbol : string) (s e : date)
  : result bool * Z :=
  (Ok true, w + 1).

Definition three_records (w : Z) (symbol : string) (s e : date) (freq : string)
  : result Z * Z :=
  (Ok 3, w + 1).

End GapRepair.

(** * Properties *)

(** ** Insertion-ordered dictionaries *)

Section PyDictFacts.
Context {A : Type}.
Implicit Types (d : list (string * A)) (k : string) (a : A).

Lemma get_set_eq k a d : PyDict.get k (PyDict.set k a d) = Some a.
Proof.
  induction d as [|[k' a'] d IH]; simpl.
  - rewrite decide_True by reflexivity. reflexivity.
  - destruct (decide (k' = k)) as [->|Hne]; simpl.
    + rewrite decide_True by reflexivity. reflexivity.
    + rewrite decide_False by exact Hne. exact IH.
Qed.

Lemma get_set_ne k k' a d : k <> k' -> PyDict.get k' (PyDict.set k a d) = PyDict.get k' d.
Proof.
  intros Hkk. induction d as [|[k0 a0] d IH]; simpl.
  - rewrite decide_False by exact Hkk. reflexivity.
  - destruct (decide (k0 = k)) as [->|Hne]; simpl.
    + rewrite !decide_False by exact Hkk. reflexivity.
    + destruct (decide (k0 = k')); [reflexivity|exact IH].
Qed.

Lemma get_None_keys k d : PyDict.get k d = None <-> k ∉ PyDict.keys d.
Proof.
  unfold PyDict.keys. induction d as [|[k' a'] d IH]; simpl.
  - split; [intros _; apply not_elem_of_nil|reflexivity].
  - rewrite not_elem_of_cons. destruct (decide (k' = k)) as [->|Hne].
    + split; [discriminate|intros [Hk _]; congruence].
    + rewrite IH. split; [intros ?; split; [congruence|assumption]|intros [_ ?]; assumption].
Qed.

Lemma keys_set_present k a d :
  k ∈ PyDict.keys d -> PyDict.keys (PyDict.set k a d) = PyDict.keys d.
Proof.
  unfold PyDict.keys. induction d as [|[k' a'] d IH]; simpl; intros Hin.
  - apply elem_of_nil in Hin. contradiction.
  - destruct (decide (k' = k)) as [->|Hne]; simpl; [reflexivity|].
    f_equal. apply IH. apply elem_of_cons in Hin as [->|Hin]; [congruence|exact Hin].
Qed.

Lemma keys_set_absent k a d :
  k ∉ PyDict.keys d -> PyDict.keys (PyDict.set k a d) = PyDict.keys d ++ [k].
Proof.
  unfold PyDict.keys. induction d as [|[k' a'] d IH]; simpl; intros Hin.
  - reflexivity.
  - apply not_elem_of_cons in Hin as [Hne Hin].
    rewrite decide_False by congruence. simpl. f_equal. apply IH. exact Hin.
Qed.

End PyDictFacts.

(** ** Gap detector *)

Section GapDetectorFacts.
Import GapDetector.

Implicit Types (l : list date) (s e d : date) (sym freq : string).

Lemma severity_by_length s e :
  s <= e ->
  let n := e - s + 1 in
  (n = 1 -> _calculate_gap_severity s e = "low")
  /\ (2 <= n <= 3 -> _calculate_gap_severity s e = "medium")
  /\ (4 <= n <= 7 -> _calculate_gap_severity s e = "high")
  /\ (7 < n -> _calculate_gap_severity s e = "critical").
Proof.
  intros Hle n. unfold _calculate_gap_severity, days. fold n.
  repeat split; intros Hn;
    repeat match goal with
           | |- context [?a <=? ?b] => destruct (Z.leb_spec a b)
           end; solve [reflexivity | lia].
Qed.

(** C8: for dates with start <= end the severity is decided by the gap
    length in calendar days: 1 is low, 2-3 medium, 4-7 high, more than 7
    critical; lengths 1, 3, 7 and 8 give low, medium, high and critical. *)
Theorem C8_gap_severity_thresholds (start_date end_date : date) :
  start_date <= end_date ->
  let n := end_date - start_date + 1 in
  ((n = 1 -> _calculate_gap_severity start_date end_date = "low")
   /\ (2 <= n <= 3 -> _calculate_gap_severity start_date end_date = "medium")
   /\ (4 <= n <= 7 -> _calculate_gap_severity start_date end_date = "high")
   /\ (7 < n -> _calculate_gap_severity start_date end_date = "critical"))
  /\ _calculate_gap_severity start_date (start_date + 0) = "low"
  /\ _calculate_gap_severity start_date (start_date + 2) = "medium"
  /\ _calculate_gap_severity start_date (start_date + 6) = "high"
  /\ _calculate_gap_severity start_date (start_date + 7) = "critical".
Proof.
  intros Hle n. split; [exact (severity_by_length _ _ Hle)|].
  repeat split.
  - apply (severity_by_length start_date (start_date + 0)); lia.
  - apply (severity_by_length start_date (start_date + 2)); lia.
  - apply (severity_by_length start_date (start_date + 6)); lia.
  - apply (severity_by_length start_date (start_date + 7)); lia.
Qed.

Lemma C8_gap_severity_thresholds_witness :
  739271 <= 739273
  /\ _calculate_gap_severity 739271 739273 = "medium".
Proof.
  split; [lia|].
  destruct (C8_gap_severity_thresholds 739271 739273) as [[_ [Hmed _]] _]; [lia|].
  apply Hmed; lia.
Defined.

(** *** The loop computes the merge rule *)

Lemma loop_extend_gap sym freq l : forall gs s e,
  close_last sym freq (foldl (loop_body sym freq) (mk_loop gs (Some (s, e))) l)
  = gs ++ (gap_of_range sym freq <$> extend_gap s e l).
Proof.
  induction l as [|d l IH]; intros gs s e; simpl.
  - reflexivity.
  - unfold loop_body at 2; simpl. unfold plus_days.
    destruct (decide (d = e + 1)) as [->|Hne].
    + apply IH.
    + rewrite IH, <- app_assoc. reflexivity.
Qed.

Lemma loop_merge_adjacent sym freq l :
  close_last sym freq (foldl (loop_body sym freq) (mk_loop [] None) l)
  = gap_of_range sym freq <$> merge_adjacent l.
Proof.
  destruct l as [|d l]; [reflexivity|].
  simpl. unfold loop_body at 2; simpl. apply loop_extend_gap.
Qed.

Lemma sorted_perm l : sorted l ≡ₚ l.
Proof. apply merge_sort_Permutation. Qed.

Lemma sorted_nil_inv l : sorted l = [] -> l = [].
Proof.
  intros H. apply Permutation_nil_r. rewrite <- H. symmetry. apply sorted_perm.
Qed.

Lemma sorted_ascending l : StronglySorted Z.le (sorted l).
Proof. apply (StronglySorted_merge_sort Z.le). Qed.

Lemma sorted_id l : StronglySorted Z.le l -> sorted l = l.
Proof.
  intros H. apply (StronglySorted_unique Z.le); auto using sorted_ascending, sorted_perm.
Qed.

Lemma detect_date_gaps_merge sym freq tds ex :
  _detect_date_gaps sym tds ex freq
  = gap_of_range sym freq <$> merge_adjacent (sorted (missing_dates tds ex)).
Proof.
  unfold _detect_date_gaps.
  destruct (missing_dates tds ex) as [|d l] eqn:Hm.
  - reflexivity.
  - apply loop_merge_adjacent.
Qed.

(** The rule as the loop applies it: with the gap [s..e] open, the next
    missing date [d] extends it when [d] is the day after [e], and
    otherwise closes it and opens the gap [d..d]. *)
Lemma loop_body_rule sym freq (gs : list gap) s e d :
  (d = e + 1 ->
     loop_body sym freq (mk_loop gs (Some (s, e))) d = mk_loop gs (Some (s, d)))
  /\ (d <> e + 1 ->
       loop_body sym freq (mk_loop gs (Some (s, e))) d
       = mk_loop (gs ++ [new_gap sym freq s e]) (Some (d, d))).
Proof.
  unfold loop_body, plus_days. simpl.
  destruct (decide (d = e + 1)); split; intros; congruence.
Qed.

Lemma missing_dates_elem tds ex d :
  d ∈ missing_dates tds ex <-> d ∈ tds /\ d ∉ ex.
Proof.
  unfold missing_dates. rewrite list_elem_of_filter, elem_of_list_to_set. tauto.
Qed.

Ltac missing_step :=
  first
    [ rewrite filter_cons_True
        by (rewrite elem_of_list_to_set, !elem_of_cons, elem_of_nil; lia)
    | rewrite filter_cons_False
        by (intros Hn; apply Hn;
            rewrite elem_of_list_to_set, !elem_of_cons, elem_of_nil; lia) ].

Lemma missing_week mon :
  missing_dates [mon; mon + 1; mon + 2; mon + 3; mon + 4] [mon; mon + 4]
  = [mon + 1; mon + 2; mon + 3].
Proof. unfold missing_dates. do 5 missing_step. reflexivity. Qed.

Lemma filter_not_in_covered (S : gset date) l :
  (forall x, x ∈ l -> x ∈ S) -> filter (fun x => x ∉ S) l = [].
Proof.
  induction l as [|x l IH]; intros Hall; [reflexivity|].
  rewrite filter_cons_False.
  - apply IH. intros y Hy. apply Hall. right. exact Hy.
  - intros Hn. apply Hn, Hall. left.
Qed.

Lemma missing_none tds : missing_dates tds tds = [].
Proof.
  unfold missing_dates. apply filter_not_in_covered.
  intros x Hx. rewrite elem_of_list_to_set. exact Hx.
Qed.

Lemma week_gap sym freq mon :
  _detect_date_gaps sym [mon; mon + 1; mon + 2; mon + 3; mon + 4] [mon; mon + 4] freq
  = [mk_gap sym freq "date_missing" (mon + 1) (mon + 3) 3 "medium"].
Proof.
  rewrite detect_date_gaps_merge, missing_week.
  rewrite sorted_id by (repeat constructor; lia).
  simpl. repeat (case_decide; try lia). simpl.
  unfold gap_of_range, new_gap, days; simpl.
  replace (mon + 3 - (mon + 1) + 1) with 3 by lia.
  replace (_calculate_gap_severity (mon + 1) (mon + 3)) with "medium"; [reflexivity|].
  symmetry. apply (severity_by_length (mon + 1) (mon + 3)); lia.
Qed.

(** C3: the detector returns the gaps obtained by merging the sorted
    missing trading days by calendar-day adjacency (a missing date extends
    the open gap exactly when it is one day after its end, otherwise a new
    gap starts); for Monday..Friday with Monday and Friday stored it
    returns the single gap Tuesday..Thursday of 3 days and severity medium,
    and with all five days stored it returns no gap. *)
Theorem C3_gap_merge_by_calendar_adjacency (sym freq : string) :
  (forall (gs : list gap) (s e d : date),
     (d = e + 1 ->
        loop_body sym freq (mk_loop gs (Some (s, e))) d = mk_loop gs (Some (s, d)))
     /\ (d <> e + 1 ->
          loop_body sym freq (mk_loop gs (Some (s, e))) d
          = mk_loop (gs ++ [new_gap sym freq s e]) (Some (d, d))))
  /\ (forall (db : database) (start_date end_date : date),
     detect_symbol_gaps db sym start_date end_date freq
     = (gap_of_range sym freq <$>
         merge_adjacent
           (sorted (missing_dates
                      (_get_trading_days db start_date end_date)
                      (_get_existing_dates db sym start_date end_date freq)))))
  /\ (forall trading_days existing_dates : list date,
        _detect_date_gaps sym trading_days existing_dates freq
        = gap_of_range sym freq <$>
            merge_adjacent (sorted (missing_dates trading_days existing_dates)))
  /\ (forall mon : date,
        _detect_date_gaps sym [mon; mon + 1; mon + 2; mon + 3; mon + 4]
                          [mon; mon + 4] freq
        = [mk_gap sym freq "date_missing" (mon + 1) (mon + 3) 3 "medium"])
  /\ (forall mon : date,
        _detect_date_gaps sym [mon; mon + 1; mon + 2; mon + 3; mon + 4]
                          [mon; mon + 1; mon + 2; mon + 3; mon + 4] freq
        = []).
Proof.
  split; [|split; [|split; [|split]]].
  - intros gs s e d. apply loop_body_rule.
  - intros db s e. unfold detect_symbol_gaps. apply detect_date_gaps_merge.
  - intros tds ex. apply detect_date_gaps_merge.
  - intros mon. apply week_gap.
  - intros mon. unfold _detect_date_gaps. rewrite missing_none. reflexivity.
Qed.

(** The week of Monday 2025-01-20 (ordinal 739271) read from the store:
    the weekend rows are not trading days, Monday and Friday are stored. *)
Example detect_symbol_gaps_week :
  let db :=
    mk_database
      [ mk_calendar_row 739275 "CN" 1; mk_calendar_row 739271 "CN" 1;
        mk_calendar_row 739272 "CN" 1; mk_calendar_row 739273 "CN" 1;
        mk_calendar_row 739274 "CN" 1; mk_calendar_row 739276 "CN" 0;
        mk_calendar_row 739277 "CN" 0 ]
      [ mk_market_row "000001.SZ" 739271 "1d"; mk_market_row "000001.SZ" 739275 "1d";
        mk_market_row "000002.SZ" 739272 "1d" ] in
  detect_symbol_gaps db "000001.SZ" 739271 739277 "1d"
  = [mk_gap "000001.SZ" "1d" "date_missing" 739272 739274 3 "medium"].
Proof. vm_compute. reflexivity. Qed.

(** *** Structure of the produced gap list *)

Lemma extend_gap_ranges (P : date -> Prop) l : forall s e,
  s <= e ->
  (forall d, s <= d <= e -> P d) ->
  Forall P l ->
  StronglySorted Z.lt (e :: l) ->
  Forall (fun r => fst r <= snd r /\ s <= fst r
                   /\ forall d, fst r <= d <= snd r -> P d) (extend_gap s e l)
  /\ StronglySorted (fun r1 r2 => snd r1 + 2 <= fst r2) (extend_gap s e l).
Proof.
  induction l as [|d l IH]; intros s e Hse HP Hl Hs; simpl.
  - split; repeat constructor; simpl; auto with lia.
  - apply Forall_cons in Hl as [HPd Hl].
    apply StronglySorted_inv in Hs as [Hs He].
    apply Forall_cons in He as [Hed He].
    case_decide as Hd.
    + subst d. apply IH; auto with lia.
      intros d Hd. destruct (decide (d = e + 1)) as [->|]; [exact HPd|].
      apply HP. lia.
    + destruct (IH d d) as [IH1 IH2]; auto with lia.
      { intros d' Hd'. replace d' with d by lia. exact HPd. }
      split.
      * constructor; [simpl; auto with lia|].
        eapply Forall_impl; [exact IH1|]. simpl. intros r (? & ? & ?).
        repeat split; auto with lia.
      * constructor; [exact IH2|].
        eapply Forall_impl; [exact IH1|]. simpl. intros r (? & ? & ?). lia.
Qed.

Lemma ascending_nodup_strict l :
  StronglySorted Z.le l -> NoDup l -> StronglySorted Z.lt l.
Proof.
  induction 1 as [|x l Hs IH Hx]; intros Hnd; [constructor|].
  apply NoDup_cons in Hnd as [Hnx Hnd].
  constructor; [auto|].
  apply Forall_forall. intros y Hy.
  rewrite Forall_forall in Hx. specialize (Hx y Hy).
  assert (x <> y) by (intros ->; contradiction). lia.
Qed.

Lemma merge_adjacent_ranges (P : date -> Prop) l :
  Forall P l -> StronglySorted Z.lt l ->
  Forall (fun r => fst r <= snd r /\ forall d, fst r <= d <= snd r -> P d)
         (merge_adjacent l)
  /\ StronglySorted (fun r1 r2 => snd r1 + 2 <= fst r2) (merge_adjacent l).
Proof.
  intros HP Hs. destruct l as [|d l]; simpl.
  - split; constructor.
  - apply Forall_cons in HP as [HPd HP].
    destruct (extend_gap_ranges P l d d) as [H1 H2]; auto with lia.
    { intros d' Hd'. replace d' with d by lia. exact HPd. }
    split; [|exact H2].
    eapply Forall_impl; [exact H1|]. simpl. intros r (? & ? & ?). auto.
Qed.

Lemma extend_gap_consistent (P : date -> Prop) l : forall s e,
  s <= e ->
  (forall d, s <= d <= e -> P d) ->
  Forall P l ->
  Forall (fun r => fst r <= snd r /\ forall d, fst r <= d <= snd r -> P d)
         (extend_gap s e l).
Proof.
  induction l as [|d l IH]; intros s e Hse HP Hl; simpl.
  - repeat constructor; simpl; auto.
  - apply Forall_cons in Hl as [HPd Hl].
    case_decide as Hd.
    + subst d. apply IH; auto with lia.
      intros d Hd. destruct (decide (d = e + 1)) as [->|]; [exact HPd|].
      apply HP. lia.
    + constructor; [simpl; auto|].
      apply IH; auto with lia.
      intros d' Hd'. replace d' with d by lia. exact HPd.
Qed.

Lemma gap_of_range_consistent sym freq tds ex (r : date * date) :
  fst r <= snd r ->
  (forall d, fst r <= d <= snd r -> d ∈ tds /\ d ∉ ex) ->
  gap_consistent tds ex (gap_of_range sym freq r).
Proof.
  intros Hle HP. unfold gap_consistent, gap_of_range, new_gap, days; simpl.
  repeat split; try lia; apply HP; lia.
Qed.

Lemma sorted_missing_all tds ex :
  Forall (fun d => d ∈ tds /\ d ∉ ex) (sorted (missing_dates tds ex)).
Proof.
  apply Forall_forall. intros d Hd.
  rewrite sorted_perm in Hd. apply missing_dates_elem in Hd. exact Hd.
Qed.

(** Whatever the input, each reported gap is consistent: its fields agree
    and it covers missing trading days only. *)
Lemma detect_date_gaps_consistent sym freq tds ex :
  Forall (gap_consistent tds ex) (_detect_date_gaps sym tds ex freq).
Proof.
  rewrite detect_date_gaps_merge. apply Forall_fmap.
  pose proof (sorted_missing_all tds ex) as Hall.
  destruct (sorted (missing_dates tds ex)) as [|d l]; [constructor|].
  apply Forall_cons in Hall as [Hd Hl]. simpl.
  eapply Forall_impl.
  - apply (extend_gap_consistent (fun d => d ∈ tds /\ d ∉ ex)); eauto with lia.
    intros d' Hd'. replace d' with d by lia. exact Hd.
  - intros r [? ?]. simpl. apply gap_of_range_consistent; assumption.
Qed.

Lemma sorted_missing_strict tds ex :
  NoDup tds -> StronglySorted Z.lt (sorted (missing_dates tds ex)).
Proof.
  intros Hnd. apply ascending_nodup_strict; [apply sorted_ascending|].
  rewrite sorted_perm. unfold missing_dates. apply NoDup_filter. exact Hnd.
Qed.

Lemma separated_fmap sym freq (rs : list (date * date)) :
  StronglySorted (fun r1 r2 => snd r1 + 2 <= fst r2) rs ->
  gaps_separated (gap_of_range sym freq <$> rs).
Proof.
  unfold gaps_separated. induction 1 as [|r rs Hs IH Hr]; simpl; constructor; auto.
  apply Forall_fmap. eapply Forall_impl; [exact Hr|]. simpl. auto.
Qed.

Lemma gaps_invariant_distinct_days sym freq tds ex :
  NoDup tds -> gaps_invariant tds ex (_detect_date_gaps sym tds ex freq).
Proof.
  intros Hnd. split; [apply detect_date_gaps_consistent|].
  rewrite detect_date_gaps_merge. apply separated_fmap.
  eapply (merge_adjacent_ranges (fun _ => True)).
  - apply Forall_forall. auto.
  - apply sorted_missing_strict. exact Hnd.
Qed.

(** The calendar query returns no date twice when the table respects its
    primary key (date, market). *)
Lemma trading_days_distinct (db : database) (start_date end_date : date) :
  NoDup ((fun r => (cal_date r, cal_market r)) <$> trading_calendar db) ->
  NoDup (_get_trading_days db start_date end_date).
Proof.
  intros Hpk. unfold _get_trading_days. rewrite sorted_perm.
  induction (trading_calendar db) as [|r rows IH]; [constructor|].
  rewrite fmap_cons in Hpk. apply NoDup_cons in Hpk as [Hr Hpk].
  rewrite filter_cons. case_decide as Hsel; [|auto].
  rewrite fmap_cons. apply NoDup_cons. split; [|auto].
  intros Hin. apply Hr. apply list_elem_of_fmap in Hin as (r' & Hd & Hr').
  apply list_elem_of_filter in Hr' as [(_ & _ & Hm & _) Hr'].
  apply list_elem_of_fmap. exists r'. split; [|exact Hr'].
  destruct Hsel as (_ & _ & Hm' & _). congruence.
Qed.

(** Hence the gap lists the detector computes from the store satisfy the
    invariant. *)
Corollary detect_symbol_gaps_invariant (db : database) sym
    (start_date end_date : date) freq :
  NoDup ((fun r => (cal_date r, cal_market r)) <$> trading_calendar db) ->
  gaps_invariant (_get_trading_days db start_date end_date)
    (_get_existing_dates db sym start_date end_date freq)
    (detect_symbol_gaps db sym start_date end_date freq).
Proof.
  intros Hpk. apply gaps_invariant_distinct_days.
  apply trading_days_distinct. exact Hpk.
Qed.

(** C10 (as amended): for any input, each gap has start <= end,
    gap_days = end - start + 1 >= 1, the severity of its endpoints, and
    covers missing trading days only; and when no date is repeated in
    [trading_days], the gap list satisfies the whole invariant: it is also
    ascending, with consecutive gaps at least two calendar days apart. *)
Theorem C10_gap_list_invariant (sym freq : string)
    (trading_days existing_dates : list date) :
  Forall (gap_consistent trading_days existing_dates)
    (_detect_date_gaps sym trading_days existing_dates freq)
  /\ (NoDup trading_days ->
      gaps_invariant trading_days existing_dates
        (_detect_date_gaps sym trading_days existing_dates freq)).
Proof.
  split; [apply detect_date_gaps_consistent|].
  intros Hnd. split.
  - apply detect_date_gaps_consistent.
  - apply (gaps_invariant_distinct_days sym freq trading_days existing_dates Hnd).
Qed.

Lemma C10_gap_list_invariant_witness :
  NoDup [739271; 739272; 739273; 739274; 739275]
  /\ gaps_invariant [739271; 739272; 739273; 739274; 739275] [739271; 739275]
       (_detect_date_gaps "000001.SZ" [739271; 739272; 739273; 739274; 739275]
          [739271; 739275] "1d").
Proof.
  assert (Hnd : NoDup [739271; 739272; 739273; 739274; 739275]).
  { repeat constructor; rewrite ?elem_of_cons, ?elem_of_nil; lia. }
  split; [exact Hnd|].
  apply (proj2 (C10_gap_list_invariant _ _ _ _) Hnd).
Defined.

(** C10 as stated fails on a repeated trading day: the repeated date is
    not one day after the open gap's end, so a second gap with the same
    dates is reported. *)
Lemma C10_counterexample_repeated_day :
  _detect_date_gaps "000001.SZ" [739271; 739271] [] "1d"
  = [mk_gap "000001.SZ" "1d" "date_missing" 739271 739271 1 "low";
     mk_gap "000001.SZ" "1d" "date_missing" 739271 739271 1 "low"]
  /\ ~ gaps_invariant [739271; 739271] []
        (_detect_date_gaps "000001.SZ" [739271; 739271] [] "1d").
Proof.
  assert (Heq : _detect_date_gaps "000001.SZ" [739271; 739271] [] "1d"
    = [mk_gap "000001.SZ" "1d" "date_missing" 739271 739271 1 "low";
       mk_gap "000001.SZ" "1d" "date_missing" 739271 739271 1 "low"])
    by (vm_compute; reflexivity).
  split; [exact Heq|].
  rewrite Heq. intros [_ Hsep].
  apply StronglySorted_inv in Hsep as [_ Hfa].
  apply Forall_cons in Hfa as [Hbad _]. simpl in Hbad. lia.
Qed.

End GapDetectorFacts.

(** ** Batched writer *)

Section BatchWriterFacts.
Import Store BatchWriter.
Context {V : Type} `{EqDecision V}.
Implicit Types (w : writer V) (st : gmap string (table V)) (t : string).
Implicit Types (r : gmap string V) (cols : list string).

(** *** Parameter tuples and stored rows *)

Lemma params_of_Ok_inv cols r c ps :
  params_of (c :: cols) r = Ok ps ->
  exists v ps', r !! c = Some v /\ params_of cols r = Ok ps' /\ ps = v :: ps'.
Proof.
  simpl. destruct (r !! c) as [v|]; [|discriminate].
  destruct (params_of cols r) as [ps'|e]; simpl; [|discriminate].
  intros [= <-]. eauto.
Qed.

Lemma params_of_length cols r : forall ps,
  params_of cols r = Ok ps -> length ps = length cols.
Proof.
  induction cols as [|c cols IH]; intros ps Hps.
  - simpl in Hps. injection Hps as <-. reflexivity.
  - apply params_of_Ok_inv in Hps as (v & ps' & _ & Hps' & ->).
    simpl. f_equal. apply IH. exact Hps'.
Qed.

Lemma params_of_complete cols r :
  (forall c, c ∈ cols -> is_Some (r !! c)) -> exists ps, params_of cols r = Ok ps.
Proof.
  induction cols as [|c cols IH]; intros Hall; simpl; [eauto|].
  destruct (Hall c) as [v Hv]; [left|]. rewrite Hv.
  destruct IH as [ps Hps]; [intros c' Hc'; apply Hall; right; exact Hc'|].
  rewrite Hps. simpl. eauto.
Qed.

Lemma params_of_missing cols r :
  (exists c, c ∈ cols /\ r !! c = None) -> exists c, params_of cols r = Raise (KeyError c).
Proof.
  induction cols as [|c cols IH]; intros (c0 & Hin & Hc0); simpl.
  - apply elem_of_nil in Hin. contradiction.
  - destruct (r !! c) as [v|] eqn:Hv; [|eauto].
    apply elem_of_cons in Hin as [->|Hin]; [congruence|].
    destruct IH as [c1 Hc1]; [eauto|]. rewrite Hc1. simpl. eauto.
Qed.

Lemma lookup_row_of cols r : forall ps k,
  params_of cols r = Ok ps ->
  row_of cols ps !! k = if decide (k ∈ cols) then r !! k else None.
Proof.
  unfold row_of. induction cols as [|c cols IH]; intros ps k Hps.
  - change (zip [] ps) with (@nil (string * V)).
    rewrite list_to_map_nil, lookup_empty. case_decide as Hin; [|reflexivity].
    apply elem_of_nil in Hin. contradiction.
  - apply params_of_Ok_inv in Hps as (v & ps' & Hv & Hps' & ->).
    change (zip (c :: cols) (v :: ps')) with ((c, v) :: zip cols ps').
    rewrite list_to_map_cons.
    destruct (decide (c = k)) as [->|Hne].
    + rewrite lookup_insert_eq. rewrite decide_True by left. congruence.
    + rewrite lookup_insert_ne by exact Hne. rewrite (IH _ _ Hps').
      destruct (decide (k ∈ cols)) as [Hin|Hin].
      * rewrite decide_True by (right; exact Hin). reflexivity.
      * rewrite decide_False; [reflexivity|].
        rewrite elem_of_cons. intros [?|?]; [congruence|contradiction].
Qed.

Lemma lookup_stored_row cols r k :
  stored_row cols r !! k = if decide (k ∈ cols) then r !! k else None.
Proof.
  unfold stored_row. destruct (decide (k ∈ cols)) as [Hin|Hin].
  - destruct (r !! k) as [v|] eqn:Hv.
    + apply map_lookup_filter_Some. auto.
    + apply map_lookup_filter_None. left. exact Hv.
  - apply map_lookup_filter_None. right. intros v _. exact Hin.
Qed.

Lemma row_of_params cols r ps :
  params_of cols r = Ok ps -> row_of cols ps = stored_row cols r.
Proof.
  intros Hps. apply map_eq. intros k.
  rewrite (lookup_row_of _ _ _ _ Hps), lookup_stored_row. reflexivity.
Qed.

Lemma elem_of_columns_of r c : c ∈ columns_of r <-> is_Some (r !! c).
Proof.
  unfold columns_of. rewrite list_elem_of_fmap. split.
  - intros ([k v] & -> & Hin). apply elem_of_map_to_list in Hin. simpl. eauto.
  - intros [v Hv]. exists (c, v). split; [reflexivity|].
    apply elem_of_map_to_list. exact Hv.
Qed.

Lemma stored_row_covering cols r :
  (forall c, is_Some (r !! c) -> c ∈ cols) -> stored_row cols r = r.
Proof.
  intros Hcov. apply map_eq. intros k. rewrite lookup_stored_row.
  destruct (decide (k ∈ cols)) as [Hin|Hin]; [reflexivity|].
  destruct (r !! k) as [v|] eqn:Hv; [|reflexivity].
  exfalso. apply Hin, Hcov. eauto.
Qed.

Lemma stored_row_self r : stored_row (columns_of r) r = r.
Proof. apply stored_row_covering. intros c. apply elem_of_columns_of. Qed.

Lemma params_list_of_rows cols (records : list (gmap string V)) : forall pss,
  params_list_of cols records = Ok pss ->
  row_of cols <$> pss = stored_row cols <$> records
  /\ Forall (fun ps => length ps = length cols) pss.
Proof.
  induction records as [|r records IH]; intros pss Hpss; simpl in Hpss.
  - injection Hpss as <-. split; [reflexivity|constructor].
  - destruct (params_of cols r) as [ps|e] eqn:Hps; simpl in Hpss; [|discriminate].
    destruct (params_list_of cols records) as [pss'|e]; simpl in Hpss; [|discriminate].
    injection Hpss as <-. destruct (IH _ eq_refl) as [IH1 IH2].
    split.
    + simpl. f_equal; [apply row_of_params; exact Hps|exact IH1].
    + constructor; [eapply params_of_length; exact Hps|exact IH2].
Qed.

(** *** One flush *)

Lemma buffered_nil w t :
  buffered w t = [] <->
  PyDict.get t (_buffer w) = None \/ PyDict.get t (_buffer w) = Some [].
Proof.
  unfold buffered. destruct (PyDict.get t (_buffer w)) as [l|]; simpl.
  - split; [intros ->; auto|intros [?|?]; congruence].
  - split; auto.
Qed.

Lemma flush_empty w st t : buffered w t = [] -> flush w st t = (Ok 0, w, st).
Proof.
  intros Hb. apply buffered_nil in Hb. unfold flush.
  destruct Hb as [-> | ->]; reflexivity.
Qed.

Lemma flush_Ok_inv w st t n w' st' :
  flush w st t = (Ok n, w', st') ->
  n = get_buffer_size w t
  /\ ((buffered w t = [] /\ w' = w /\ st' = st)
      \/ exists rec0 rest tbl,
           PyDict.get t (_buffer w) = Some (rec0 :: rest)
           /\ st !! t = Some tbl
           /\ w' = count_success w t n
           /\ st' = <[t := foldl insert_or_replace tbl
                             (stored_row (columns_of rec0) <$> rec0 :: rest)]> st).
Proof.
  unfold flush, get_buffer_size, buffered.
  destruct (PyDict.get t (_buffer w)) as [[|rec0 rest]|] eqn:Hget.
  - intros [= <- <- <-]. simpl. auto.
  - destruct (params_list_of (columns_of rec0) (rec0 :: rest)) as [pss|e] eqn:Hpss;
      [|simpl; discriminate].
    cbn [rbind]. unfold executemany, run_on_table.
    destruct (st !! t) as [tbl|] eqn:Htbl; [|discriminate].
    repeat (case_decide; [|discriminate || idtac]); try discriminate.
    intros [= <- <- <-]. split; [reflexivity|]. right.
    exists rec0, rest, tbl. repeat split; try reflexivity.
    apply params_list_of_rows in Hpss as [-> _]. reflexivity.
  - intros [= <- <- <-]. simpl. auto.
Qed.

Lemma flush_Raise_inv w st t e w' st' :
  flush w st t = (Raise e, w', st') ->
  w' = count_failure w /\ st' = st
  /\ exists rec0 rest, PyDict.get t (_buffer w) = Some (rec0 :: rest).
Proof.
  unfold flush.
  destruct (PyDict.get t (_buffer w)) as [[|rec0 rest]|] eqn:Hget; try discriminate.
  destruct (rbind _ _); [discriminate|].
  intros [= <- <- <-]. eauto.
Qed.

(** A flush succeeds exactly when the store accepts the statement built
    from the first record and every record has the first record's columns. *)
Lemma flush_accepts w st t rec0 rest tbl :
  PyDict.get t (_buffer w) = Some (rec0 :: rest) ->
  st !! t = Some tbl ->
  rec0 <> ∅ ->
  (forall c, is_Some (rec0 !! c) -> c ∈ tbl_columns tbl) ->
  Forall (fun r => forall c, is_Some (rec0 !! c) -> is_Some (r !! c)) rest ->
  let n := Z.of_nat (length (rec0 :: rest)) in
  flush w st t
  = (Ok n, count_success w t n,
     <[t := foldl insert_or_replace tbl
              (stored_row (columns_of rec0) <$> rec0 :: rest)]> st).
Proof.
  intros Hget Htbl Hne Hcols Hrest n. unfold flush. rewrite Hget.
  assert (Hpss : exists pss, params_list_of (columns_of rec0) (rec0 :: rest) = Ok pss).
  { assert (Hall : Forall (fun r => forall c, is_Some (rec0 !! c) -> is_Some (r !! c))
                          (rec0 :: rest)) by (constructor; auto).
    clear Hget. induction Hall as [|r rs Hr _ IH]; simpl; [eauto|].
    destruct (params_of_complete (columns_of rec0) r) as [ps ->].
    { intros c Hc. apply Hr, elem_of_columns_of, Hc. }
    destruct IH as [pss ->]. simpl. eauto. }
  destruct Hpss as [pss Hpss]. rewrite Hpss. cbn [rbind].
  unfold executemany, run_on_table. rewrite Htbl.
  destruct (params_list_of_rows _ _ _ Hpss) as [Hrows Hlen].
  rewrite decide_False.
  2:{ unfold columns_of. intros Hnil. apply fmap_nil_inv in Hnil.
      apply map_to_list_empty_iff in Hnil. contradiction. }
  rewrite decide_True.
  2:{ apply Forall_forall. intros c Hc. apply Hcols, elem_of_columns_of, Hc. }
  rewrite decide_True by exact Hlen.
  rewrite Hrows. reflexivity.
Qed.

Lemma params_list_of_missing cols (records : list (gmap string V)) :
  Exists (fun r => exists c, c ∈ cols /\ r !! c = None) records ->
  exists c, params_list_of cols records = Raise (KeyError c).
Proof.
  induction records as [|r records IH]; intros Hex.
  - apply Exists_nil in Hex. contradiction.
  - simpl. destruct (params_of cols r) as [ps|e] eqn:Hps.
    + apply Exists_cons in Hex as [Hr|Hex].
      * apply params_of_missing in Hr as [c Hc]. congruence.
      * destruct (IH Hex) as [c ->]. simpl. eauto.
    + simpl. destruct (decide (Exists (fun c => r !! c = None) cols)) as [Hm|Hm].
      * apply Exists_exists in Hm as (c & Hc & Hn).
        destruct (params_of_missing cols r) as [c' Hc']; [eauto|].
        rewrite Hc' in Hps. injection Hps as <-. eauto.
      * destruct (params_of_complete cols r) as [ps Hok]; [|congruence].
        intros c Hc. destruct (r !! c) eqn:Hrc; [eauto|].
        exfalso. apply Hm. apply Exists_exists. eauto.
Qed.

(** A buffered record that lacks a column of the first record makes the
    flush fail with a [KeyError], before the store is touched. *)
Lemma flush_missing_column w st t rec0 rest :
  PyDict.get t (_buffer w) = Some (rec0 :: rest) ->
  Exists (fun r => exists c, is_Some (rec0 !! c) /\ r !! c = None) rest ->
  exists c, flush w st t = (Raise (KeyError c), count_failure w, st).
Proof.
  intros Hget Hex. unfold flush. rewrite Hget.
  destruct (params_list_of_missing (columns_of rec0) (rec0 :: rest)) as [c ->].
  - apply Exists_cons. right. eapply Exists_impl; [exact Hex|].
    intros r (c & Hc & Hn). exists c. split; [apply elem_of_columns_of, Hc|exact Hn].
  - simpl. eauto.
Qed.

(** A flush reads and writes only its own table's buffer and rows. *)
Lemma flush_other w st t t' :
  t <> t' ->
  PyDict.get t' (_buffer (flush w st t).1.2) = PyDict.get t' (_buffer w)
  /\ (flush w st t).2 !! t' = st !! t'.
Proof.
  intros Hne. destruct (flush w st t) as [[[n|e] w'] st'] eqn:Hf; simpl.
  - apply flush_Ok_inv in Hf as [_ [(_ & -> & ->)|(f & rs & tbl & _ & _ & -> & ->)]].
    + auto.
    + simpl. rewrite get_set_ne by exact Hne. rewrite lookup_insert_ne by exact Hne. auto.
  - apply flush_Raise_inv in Hf as (-> & -> & _). auto.
Qed.

Lemma flush_local w1 st1 w2 st2 t :
  PyDict.get t (_buffer w1) = PyDict.get t (_buffer w2) ->
  st1 !! t = st2 !! t ->
  (flush w1 st1 t).1.1 = (flush w2 st2 t).1.1
  /\ PyDict.get t (_buffer (flush w1 st1 t).1.2)
     = PyDict.get t (_buffer (flush w2 st2 t).1.2)
  /\ (flush w1 st1 t).2 !! t = (flush w2 st2 t).2 !! t.
Proof.
  intros Hb Hs. unfold flush. rewrite <- Hb.
  destruct (PyDict.get t (_buffer w1)) as [[|rec0 rest]|] eqn:Hget.
  - simpl. rewrite Hget. auto.
  - destruct (params_list_of (columns_of rec0) (rec0 :: rest)) as [pss|e];
      cbn [rbind]; [|simpl; rewrite Hget; auto].
    unfold executemany. rewrite <- Hs.
    destruct (run_on_table (st1 !! t) (columns_of rec0) pss) as [t'|e]; simpl.
    + rewrite !get_set_eq, !lookup_insert_eq. auto.
    + rewrite Hget. auto.
  - simpl. rewrite Hget. auto.
Qed.

Lemma flush_failed_batches w st t :
  failed_batches (_stats (flush w st t).1.2)
  = failed_batches (_stats w) + (if is_ok (flush w st t).1.1 then 0 else 1).
Proof.
  destruct (flush w st t) as [[[n|e] w'] st'] eqn:Hf; simpl.
  - apply flush_Ok_inv in Hf as [_ [(_ & -> & _)|(f & rs & tbl & _ & _ & -> & _)]];
      simpl; lia.
  - apply flush_Raise_inv in Hf as (-> & _ & _). reflexivity.
Qed.

(** *** flush_all *)

Lemma failing_tables_local w1 st1 w2 st2 ks :
  (forall t, t ∈ ks ->
     PyDict.get t (_buffer w1) = PyDict.get t (_buffer w2) /\ st1 !! t = st2 !! t) ->
  failing_tables w1 st1 ks = failing_tables w2 st2 ks.
Proof.
  unfold failing_tables. induction ks as [|k ks IH]; intros Hloc; [reflexivity|].
  destruct (Hloc k) as [Hb Hs]; [left|].
  destruct (flush_local w1 st1 w2 st2 k Hb Hs) as [Hr _].
  rewrite !filter_cons, Hr, IH; [reflexivity|].
  intros t Ht. apply Hloc. right. exact Ht.
Qed.

Lemma flush_all_loop (ks : list string) :
  forall (results : list (string * Z)) w st,
  NoDup ks ->
  let out := foldl flush_all_step (results, w, st) ks in
  (forall t, t ∈ ks ->
     PyDict.get t out.1.1 = Some (try_except (flush w st t).1.1 (fun _ => 0))
     /\ PyDict.get t (_buffer out.1.2) = PyDict.get t (_buffer (flush w st t).1.2)
     /\ out.2 !! t = (flush w st t).2 !! t)
  /\ (forall t, t ∉ ks ->
        PyDict.get t out.1.1 = PyDict.get t results
        /\ PyDict.get t (_buffer out.1.2) = PyDict.get t (_buffer w)
        /\ out.2 !! t = st !! t)
  /\ failed_batches (_stats out.1.2)
     = failed_batches (_stats w) + Z.of_nat (length (failing_tables w st ks)).
Proof.
  induction ks as [|k ks IH]; intros results w st Hnd out.
  - subst out. simpl. split; [|split].
    + intros t Ht. apply elem_of_nil in Ht. contradiction.
    + auto.
    + unfold failing_tables. simpl. lia.
  - apply NoDup_cons in Hnd as [Hk Hnd].
    subst out. cbn [foldl].
    destruct (flush w st k) as [[rk wk] stk] eqn:Hfk.
    assert (Hstep : flush_all_step (results, w, st) k
                    = (PyDict.set k (try_except rk (fun _ => 0)) results, wk, stk))
      by (unfold flush_all_step; rewrite Hfk; reflexivity).
    rewrite Hstep. clear Hstep.
    specialize (IH (PyDict.set k (try_except rk (fun _ => 0)) results) wk stk Hnd).
    cbv zeta in IH. destruct IH as (IHin & IHout & IHfail).
    assert (Hoth : forall t, t <> k ->
              PyDict.get t (_buffer wk) = PyDict.get t (_buffer w) /\ stk !! t = st !! t).
    { intros t Hne. pose proof (flush_other w st k t) as Ho. rewrite Hfk in Ho.
      apply Ho. congruence. }
    split; [|split].
    + intros t Ht. apply elem_of_cons in Ht as [->|Ht].
      * destruct (IHout k Hk) as (-> & -> & ->).
        rewrite get_set_eq, Hfk. auto.
      * assert (t <> k) by (intros ->; contradiction).
        destruct (IHin t Ht) as (-> & -> & ->).
        destruct (Hoth t) as [Hb Hs]; [assumption|].
        destruct (flush_local wk stk w st t Hb Hs) as (-> & -> & ->). auto.
    + intros t Ht. apply not_elem_of_cons in Ht as [Hne Ht].
      destruct (IHout t Ht) as (-> & -> & ->).
      rewrite get_set_ne by congruence.
      destruct (Hoth t Hne) as [-> ->]. auto.
    + rewrite IHfail. pose proof (flush_failed_batches w st k) as Hfb.
      rewrite Hfk in Hfb. simpl in Hfb. rewrite Hfb.
      rewrite (failing_tables_local wk stk w st ks).
      2:{ intros t Ht. apply Hoth. intros ->. contradiction. }
      unfold failing_tables. destruct rk as [n|e].
      * rewrite (filter_cons_False _ k) by (rewrite Hfk; simpl; discriminate).
        simpl. lia.
      * rewrite (filter_cons_True _ k) by (rewrite Hfk; reflexivity).
        rewrite length_cons. simpl is_ok. cbv iota. lia.
Qed.

(** What [flush_all] leaves for one buffered table is what flushing that
    table alone would leave. *)
Lemma flush_all_table w st t :
  NoDup (PyDict.keys (_buffer w)) ->
  t ∈ PyDict.keys (_buffer w) ->
  PyDict.get t (flush_all w st).1.1 = Some (try_except (flush w st t).1.1 (fun _ => 0))
  /\ PyDict.get t (_buffer (flush_all w st).1.2)
     = PyDict.get t (_buffer (flush w st t).1.2)
  /\ (flush_all w st).2 !! t = (flush w st t).2 !! t.
Proof.
  intros Hnd Hin. unfold flush_all.
  destruct (flush_all_loop (PyDict.keys (_buffer w)) [] w st Hnd) as (Hk & _ & _).
  apply Hk. exact Hin.
Qed.

Lemma flush_all_failed_batches w st :
  NoDup (PyDict.keys (_buffer w)) ->
  failed_batches (_stats (flush_all w st).1.2)
  = failed_batches (_stats w)
    + Z.of_nat (length (failing_tables w st (PyDict.keys (_buffer w)))).
Proof.
  intros Hnd. unfold flush_all.
  destruct (flush_all_loop (PyDict.keys (_buffer w)) [] w st Hnd) as (_ & _ & Hf).
  exact Hf.
Qed.

Lemma get_Some_keys {A} t (d : list (string * A)) a :
  PyDict.get t d = Some a -> t ∈ PyDict.keys d.
Proof.
  intros Hget. destruct (decide (t ∈ PyDict.keys d)) as [|Hn]; [assumption|].
  apply get_None_keys in Hn. congruence.
Qed.

(** C2: when the flush of table A fails and the flush of table B succeeds,
    [flush_all] returns (it is a total function: nothing is raised) a
    mapping with A at 0 and B at B's record count; A's buffer is kept, the
    failure is counted in [failed_batches], the store's table A is
    untouched, B's buffer is cleared and B's records are all written. *)
Theorem C2_flush_all_isolates_failing_table w st (A B : string) (e : exn) :
  NoDup (PyDict.keys (_buffer w)) ->
  B ∈ PyDict.keys (_buffer w) ->
  (flush w st A).1.1 = Raise e ->
  is_ok (flush w st B).1.1 = true ->
  let results := (flush_all w st).1.1 in
  let w' := (flush_all w st).1.2 in
  let st' := (flush_all w st).2 in
  PyDict.get A results = Some 0
  /\ PyDict.get B results = Some (get_buffer_size w B)
  /\ PyDict.get A (_buffer w') = PyDict.get A (_buffer w)
  /\ buffered w A <> []
  /\ failed_batches (_stats w')
     = failed_batches (_stats w)
       + Z.of_nat (length (failing_tables w st (PyDict.keys (_buffer w))))
  /\ A ∈ failing_tables w st (PyDict.keys (_buffer w))
  /\ st' !! A = st !! A
  /\ buffered w' B = []
  /\ (forall rec0 rest,
        PyDict.get B (_buffer w) = Some (rec0 :: rest) ->
        exists tbl,
          st !! B = Some tbl
          /\ st' !! B
             = Some (foldl insert_or_replace tbl
                       (stored_row (columns_of rec0) <$> rec0 :: rest))).
Proof.
  intros Hnd HB HA HBok results w' st'. subst results w' st'.
  destruct (flush w st A) as [[rA wA] stA] eqn:HfA. simpl in HA. subst rA.
  destruct (flush_Raise_inv _ _ _ _ _ _ HfA) as (-> & -> & rec0 & rest & HgetA).
  assert (HAin : A ∈ PyDict.keys (_buffer w)) by (eapply get_Some_keys; eauto).
  destruct (flush_all_table w st A Hnd HAin) as (HrA & HbA & HsA).
  destruct (flush_all_table w st B Hnd HB) as (HrB & HbB & HsB).
  rewrite HfA in HrA, HbA, HsA. simpl in HrA, HbA, HsA.
  destruct (flush w st B) as [[rB wB] stB] eqn:HfB. simpl in HBok, HrB, HbB, HsB.
  destruct rB as [n|]; [|discriminate].
  destruct (flush_Ok_inv _ _ _ _ _ _ HfB) as [Hn Hcases].
  repeat split.
  - exact HrA.
  - rewrite HrB. simpl. congruence.
  - exact HbA.
  - unfold buffered. rewrite HgetA. discriminate.
  - apply flush_all_failed_batches. exact Hnd.
  - unfold failing_tables. apply list_elem_of_filter. split; [|exact HAin].
    rewrite HfA. reflexivity.
  - exact HsA.
  - unfold buffered. rewrite HbB.
    destruct Hcases as [(Hb & -> & _)|(r0 & rs & tbl & _ & _ & -> & _)].
    + exact Hb.
    + simpl. rewrite get_set_eq. reflexivity.
  - intros r0 rs HgetB. rewrite HsB.
    destruct Hcases as [(Hb & _ & _)|(r0' & rs' & tbl & HgetB' & Htbl & _ & ->)].
    + unfold buffered in Hb. rewrite HgetB in Hb. discriminate.
    + rewrite HgetB in HgetB'. injection HgetB' as <- <-.
      exists tbl. split; [exact Htbl|]. apply lookup_insert_eq.
Qed.

(** *** add_record *)

Lemma add_record_unfold w st t r :
  t <> "" ->
  let records := buffered w t ++ [r] in
  let w1 := mk_writer (batch_size w) (auto_flush w)
              (PyDict.set t records (_buffer w)) (_stats w) in
  let n := get_buffer_size w t + 1 in
  (auto_flush w = true /\ batch_size w <= n ->
     add_record w st t r
     = (rbind (flush w1 st t).1.1 (fun _ => Ok 0), (flush w1 st t).1.2, (flush w1 st t).2))
  /\ (~ (auto_flush w = true /\ batch_size w <= n) ->
       add_record w st t r = (Ok n, w1, st))
  /\ buffered w1 t = records
  /\ get_buffer_size w1 t = n.
Proof.
  intros Ht records w1 n.
  assert (Hb1 : buffered w1 t = records).
  { unfold buffered at 1. subst w1. simpl. rewrite get_set_eq. reflexivity. }
  assert (Hn : Z.of_nat (length records) = n).
  { subst records n. unfold get_buffer_size. rewrite length_app. simpl. lia. }
  unfold add_record. rewrite decide_False by exact Ht.
  fold records. fold w1. rewrite Hn.
  repeat split.
  - intros [-> Hle]. simpl. destruct (Z.leb_spec (batch_size w) n); [|lia].
    destruct (flush w1 st t) as [[r0 w2] st2]. reflexivity.
  - intros Hno. destruct (auto_flush w); simpl; [|reflexivity].
    destruct (Z.leb_spec (batch_size w) n); [|reflexivity].
    exfalso. apply Hno. auto.
  - exact Hb1.
  - unfold get_buffer_size. rewrite Hb1. exact Hn.
Qed.

Lemma add_record_keep w st t r :
  t <> "" ->
  ~ (auto_flush w = true /\ batch_size w <= get_buffer_size w t + 1) ->
  let s := add_record w st t r in
  s.1.1 = Ok (get_buffer_size w t + 1)
  /\ buffered s.1.2 t = buffered w t ++ [r]
  /\ s.2 = st
  /\ batch_size s.1.2 = batch_size w
  /\ auto_flush s.1.2 = auto_flush w
  /\ get_buffer_size s.1.2 t = get_buffer_size w t + 1.
Proof.
  intros Ht Hno s.
  destruct (add_record_unfold w st t r Ht) as (_ & Hkeep & Hb1 & Hn1).
  subst s. rewrite (Hkeep Hno). simpl. repeat split; assumption || reflexivity.
Qed.

Lemma add_record_flush w st t r :
  t <> "" ->
  auto_flush w = true /\ batch_size w <= get_buffer_size w t + 1 ->
  exists w1,
    buffered w1 t = buffered w t ++ [r]
    /\ add_record w st t r
       = (rbind (flush w1 st t).1.1 (fun _ => Ok 0), (flush w1 st t).1.2, (flush w1 st t).2).
Proof.
  intros Ht Hyes.
  destruct (add_record_unfold w st t r Ht) as (Hflush & _ & Hb1 & _).
  eexists. split; [exact Hb1|]. apply Hflush. exact Hyes.
Qed.

Lemma flush_buffered_Ok w st t n :
  (flush w st t).1.1 = Ok n ->
  n = get_buffer_size w t /\ buffered (flush w st t).1.2 t = [].
Proof.
  destruct (flush w st t) as [[r0 w'] st'] eqn:Hf. simpl. intros ->.
  apply flush_Ok_inv in Hf as [Hn [(Hb & -> & _)|(r1 & rs & tbl & _ & _ & -> & _)]].
  - auto.
  - split; [exact Hn|]. unfold buffered. simpl. rewrite get_set_eq. reflexivity.
Qed.

(** Adding one record to an empty buffer and flushing the table upserts
    exactly that record, whether or not the addition already flushed. *)
Lemma add_record_then_flush w st t r tbl :
  t <> "" ->
  buffered w t = [] ->
  st !! t = Some tbl ->
  r <> ∅ ->
  (forall c, is_Some (r !! c) -> c ∈ tbl_columns tbl) ->
  let a := add_record w st t r in
  let f := flush a.1.2 a.2 t in
  is_ok a.1.1 = true /\ is_ok f.1.1 = true
  /\ buffered f.1.2 t = []
  /\ f.2 = <[t := insert_or_replace tbl r]> st.
Proof.
  intros Ht Hb Htbl Hr Hcols a f.
  destruct (add_record_unfold w st t r Ht) as (Hflush & Hkeep & Hb1 & _).
  rewrite Hb in Hb1, Hflush, Hkeep. simpl in Hb1, Hflush, Hkeep.
  set (w1 := mk_writer (batch_size w) (auto_flush w)
               (PyDict.set t [r] (_buffer w)) (_stats w)) in *.
  assert (Hf1 : flush w1 st t
                = (Ok 1, count_success w1 t 1, <[t := insert_or_replace tbl r]> st)).
  { rewrite (flush_accepts w1 st t r [] tbl); auto.
    - simpl. rewrite stored_row_self. reflexivity.
    - subst w1. simpl. apply get_set_eq. }
  destruct (decide (auto_flush w = true /\ batch_size w <= get_buffer_size w t + 1))
    as [Hyes|Hno].
  - subst a f. rewrite (Hflush Hyes), Hf1. simpl.
    rewrite flush_empty.
    + simpl. repeat split; try reflexivity.
      unfold buffered. simpl. rewrite get_set_eq. reflexivity.
    + unfold buffered. simpl. rewrite get_set_eq. reflexivity.
  - subst a f. rewrite (Hkeep Hno). simpl. rewrite Hf1. simpl.
    repeat split; try reflexivity.
    unfold buffered. simpl. rewrite get_set_eq. reflexivity.
Qed.

Lemma filter_excluded {A} (P : A -> Prop) `{forall x, Decision (P x)} (l : list A) :
  filter P (filter (fun x => ~ P x) l) = [].
Proof.
  induction l as [|x l IH]; [reflexivity|].
  destruct (decide (P x)) as [Hx|Hx].
  - rewrite (filter_cons_False (fun x => ~ P x)) by auto. exact IH.
  - rewrite (filter_cons_True (fun x => ~ P x)) by exact Hx.
    rewrite filter_cons_False by exact Hx. exact IH.
Qed.

Lemma rows_with_key_upsert (tbl : table V) r r' :
  key_of (tbl_primary_key tbl) r' = key_of (tbl_primary_key tbl) r ->
  rows_with_key (insert_or_replace tbl r) r' = [r].
Proof.
  intros Hkey. unfold rows_with_key, insert_or_replace. simpl.
  rewrite Hkey, filter_app.
  rewrite (filter_excluded
             (fun x => key_of (tbl_primary_key tbl) x = key_of (tbl_primary_key tbl) r)).
  rewrite filter_cons_True by reflexivity. reflexivity.
Qed.

Lemma key_columns_nonempty (tbl : table V) r :
  tbl_primary_key tbl <> [] ->
  (forall c, c ∈ tbl_primary_key tbl -> is_Some (r !! c)) ->
  r <> ∅.
Proof.
  intros Hpk Hkey ->. destruct (tbl_primary_key tbl) as [|c pk]; [congruence|].
  destruct (Hkey c) as [v Hv]; [left|]. rewrite lookup_empty in Hv. discriminate.
Qed.

(** C5: on a table with a declared primary key, adding and flushing a
    record and then adding and flushing a second record with the same key
    leaves exactly one stored row for that key, the second record. *)
Theorem C5_upsert_last_write_wins w st t (tbl : table V) r1 r2 :
  t <> "" ->
  buffered w t = [] ->
  st !! t = Some tbl ->
  tbl_primary_key tbl <> [] ->
  (forall c, c ∈ tbl_primary_key tbl -> is_Some (r1 !! c)) ->
  key_of (tbl_primary_key tbl) r1 = key_of (tbl_primary_key tbl) r2 ->
  (forall c, is_Some (r1 !! c) -> c ∈ tbl_columns tbl) ->
  (forall c, is_Some (r2 !! c) -> c ∈ tbl_columns tbl) ->
  let s1 := add_record w st t r1 in
  let s2 := flush s1.1.2 s1.2 t in
  let s3 := add_record s2.1.2 s2.2 t r2 in
  let s4 := flush s3.1.2 s3.2 t in
  is_ok s1.1.1 = true /\ is_ok s2.1.1 = true
  /\ is_ok s3.1.1 = true /\ is_ok s4.1.1 = true
  /\ exists tbl',
       s4.2 !! t = Some tbl'
       /\ rows_with_key tbl' r1 = [r2]
       /\ rows_with_key tbl' r2 = [r2].
Proof.
  intros Ht Hb Htbl Hpk Hk1 Hkey Hc1 Hc2 s1 s2 s3 s4.
  assert (Hr1 : r1 <> ∅) by (eapply key_columns_nonempty; eauto).
  assert (Hr2 : r2 <> ∅).
  { apply (key_columns_nonempty tbl); [exact Hpk|].
    intros c Hc. destruct (Hk1 c Hc) as [v Hv].
    apply list_elem_of_lookup in Hc as [i Hi].
    assert (Hl : key_of (tbl_primary_key tbl) r1 !! i = Some (Some v)).
    { unfold key_of. rewrite list_lookup_fmap, Hi. simpl. congruence. }
    rewrite Hkey in Hl. unfold key_of in Hl. rewrite list_lookup_fmap, Hi in Hl.
    simpl in Hl. injection Hl as Hl. eauto. }
  destruct (add_record_then_flush w st t r1 tbl Ht Hb Htbl Hr1 Hc1)
    as (Ho1 & Ho2 & Hb2 & Hst2).
  fold s1 in Ho1, Ho2, Hb2, Hst2. fold s2 in Ho2, Hb2, Hst2.
  assert (Htbl2 : s2.2 !! t = Some (insert_or_replace tbl r1))
    by (rewrite Hst2; apply lookup_insert_eq).
  destruct (add_record_then_flush s2.1.2 s2.2 t r2 (insert_or_replace tbl r1)
              Ht Hb2 Htbl2 Hr2 Hc2) as (Ho3 & Ho4 & _ & Hst4).
  fold s3 in Ho3, Ho4, Hst4. fold s4 in Ho4, Hst4.
  repeat split; try assumption.
  exists (insert_or_replace (insert_or_replace tbl r1) r2).
  split; [rewrite Hst4; apply lookup_insert_eq|].
  split; apply rows_with_key_upsert; simpl; congruence.
Qed.

(** C7 (as amended): with [batch_size = 3] and [auto_flush] on, the
    first and second [add_record] on a table return 1 and 2, keep the
    records buffered and leave the store as it was; the third runs
    [flush] on the three records at once.  When that flush succeeds the
    call returns 0 with the buffer cleared and the rows written; when it
    raises, the call raises the same exception, the three records stay
    buffered and the store is as it was.  In general [add_record] flushes
    exactly when [auto_flush] is on and the count has reached
    [batch_size], and otherwise returns the buffered count. *)
Theorem C7_auto_flush_at_batch_size w st t r1 r2 r3 :
  batch_size w = 3 ->
  auto_flush w = true ->
  t <> "" ->
  buffered w t = [] ->
  let s1 := add_record w st t r1 in
  let s2 := add_record s1.1.2 s1.2 t r2 in
  let s3 := add_record s2.1.2 s2.2 t r3 in
  (s1.1.1 = Ok 1 /\ buffered s1.1.2 t = [r1] /\ s1.2 = st)
  /\ (s2.1.1 = Ok 2 /\ buffered s2.1.2 t = [r1; r2] /\ s2.2 = st)
  /\ (exists w3,
        buffered w3 t = [r1; r2; r3]
        /\ s3 = (rbind (flush w3 st t).1.1 (fun _ => Ok 0),
                 (flush w3 st t).1.2, (flush w3 st t).2))
  /\ (is_ok s3.1.1 = true ->
        s3.1.1 = Ok 0 /\ buffered s3.1.2 t = []
        /\ exists tbl,
             st !! t = Some tbl
             /\ s3.2 !! t
                = Some (foldl insert_or_replace tbl
                          (stored_row (columns_of r1) <$> [r1; r2; r3])))
  /\ (forall e, s3.1.1 = Raise e ->
        buffered s3.1.2 t = [r1; r2; r3] /\ s3.2 = st)
  /\ (forall (w0 : writer V) (st0 : gmap string (table V)) (data : gmap string V),
        let n := get_buffer_size w0 t + 1 in
        let w1 := mk_writer (batch_size w0) (auto_flush w0)
                    (PyDict.set t (buffered w0 t ++ [data]) (_buffer w0)) (_stats w0) in
        (auto_flush w0 = true /\ batch_size w0 <= n ->
           add_record w0 st0 t data
           = (rbind (flush w1 st0 t).1.1 (fun _ => Ok 0),
              (flush w1 st0 t).1.2, (flush w1 st0 t).2))
        /\ (~ (auto_flush w0 = true /\ batch_size w0 <= n) ->
             add_record w0 st0 t data = (Ok n, w1, st0))).
Proof.
  intros Hbs Haf Ht Hb s1 s2 s3.
  assert (Hsz0 : get_buffer_size w t = 0)
    by (unfold get_buffer_size; rewrite Hb; reflexivity).
  destruct (add_record_keep w st t r1 Ht) as (Hr1 & Hb1 & Hst1 & Hbs1 & Haf1 & Hn1);
    [intros [_ ?]; lia|].
  fold s1 in Hr1, Hb1, Hst1, Hbs1, Haf1, Hn1.
  rewrite Hb in Hb1. rewrite Hsz0 in Hr1, Hn1. simpl in Hb1, Hr1, Hn1.
  destruct (add_record_keep s1.1.2 s1.2 t r2 Ht) as (Hr2 & Hb2 & Hst2 & Hbs2 & Haf2 & Hn2);
    [intros [_ ?]; lia|].
  fold s2 in Hr2, Hb2, Hst2, Hbs2, Haf2, Hn2.
  rewrite Hb1 in Hb2. rewrite Hn1 in Hr2, Hn2. simpl in Hb2, Hr2, Hn2.
  destruct (add_record_flush s2.1.2 s2.2 t r3 Ht) as (w3 & Hb3 & Hs3);
    [split; [congruence|lia]|].
  fold s3 in Hs3. rewrite Hb2 in Hb3. simpl in Hb3.
  rewrite Hst2, Hst1 in Hs3.
  assert (Hget3 : PyDict.get t (_buffer w3) = Some [r1; r2; r3]).
  { unfold buffered in Hb3. destruct (PyDict.get t (_buffer w3)); simpl in Hb3;
      [congruence|discriminate]. }
  split; [auto|].
  split; [rewrite Hst2; auto|].
  split; [exists w3; auto|].
  split; [|split].
  - rewrite Hs3. simpl.
    destruct (flush w3 st t) as [[[n|e] w4] st4] eqn:Hfl; simpl; [intros _|discriminate].
    split; [reflexivity|].
    pose proof (flush_buffered_Ok w3 st t n) as Hbo. rewrite Hfl in Hbo.
    destruct (Hbo eq_refl) as [_ Hbe]. split; [exact Hbe|].
    apply flush_Ok_inv in Hfl as [_ [(Hbad & _)|(r0 & rs & tbl & Hg & Htbl & _ & ->)]].
    + rewrite Hb3 in Hbad. discriminate.
    + rewrite Hget3 in Hg. injection Hg as <- <-.
      exists tbl. split; [exact Htbl|]. apply lookup_insert_eq.
  - intros e. rewrite Hs3. simpl.
    destruct (flush w3 st t) as [[[n|e'] w4] st4] eqn:Hfl; simpl; [discriminate|].
    intros _. apply flush_Raise_inv in Hfl as (-> & -> & _).
    split; [|reflexivity]. unfold buffered. simpl. rewrite Hget3. reflexivity.
  - intros w0 st0 data n w1'.
    destruct (add_record_unfold w0 st0 t data Ht) as (Hyes & Hno & _). split; assumption.
Qed.

End BatchWriterFacts.

Section BatchWriterExamples.
Import Store BatchWriter.

Lemma test_store_table_a : test_store !! "test_table_a" = Some table_a.
Proof. reflexivity. Defined.

Lemma record_id_name_columns id name c :
  is_Some (record_id_name id name !! c) -> c ∈ tbl_columns table_a.
Proof.
  revert c. unfold record_id_name, table_a. simpl.
  intros c [v Hv].
  destruct (decide ("id" = c)) as [<-|Hid]; [left|].
  rewrite lookup_insert_ne in Hv by exact Hid.
  destruct (decide ("name" = c)) as [<-|Hname]; [right; left|].
  rewrite lookup_insert_ne, lookup_empty in Hv by exact Hname. discriminate.
Defined.

Lemma C2_flush_all_isolates_failing_table_witness :
  (flush isolation_writer test_store "test_table_a").1.1 = Raise (KeyError "id")
  /\ is_ok (flush isolation_writer test_store "test_table_b").1.1 = true
  /\ PyDict.get "test_table_a" (flush_all isolation_writer test_store).1.1 = Some 0
  /\ PyDict.get "test_table_b" (flush_all isolation_writer test_store).1.1 = Some 2
  /\ PyDict.get "test_table_a" (_buffer (flush_all isolation_writer test_store).1.2)
     = PyDict.get "test_table_a" (_buffer isolation_writer)
  /\ failed_batches (_stats (flush_all isolation_writer test_store).1.2) = 1
  /\ buffered (flush_all isolation_writer test_store).1.2 "test_table_b" = [].
Proof.
  assert (Hnd : NoDup (PyDict.keys (_buffer isolation_writer)))
    by (apply (bool_decide_unpack _); vm_compute; exact I).
  assert (HB : "test_table_b" ∈ PyDict.keys (_buffer isolation_writer))
    by (apply (bool_decide_unpack _); vm_compute; exact I).
  assert (HA : (flush isolation_writer test_store "test_table_a").1.1
               = Raise (KeyError "id")) by (vm_compute; reflexivity).
  assert (HBok : is_ok (flush isolation_writer test_store "test_table_b").1.1 = true)
    by (vm_compute; reflexivity).
  destruct (C2_flush_all_isolates_failing_table isolation_writer test_store
              "test_table_a" "test_table_b" (KeyError "id") Hnd HB HA HBok)
    as (H1 & H2 & H3 & _ & H5 & _ & _ & H8 & _).
  split; [exact HA|]. split; [exact HBok|]. split; [exact H1|].
  split; [exact H2|]. split; [exact H3|]. split; [|exact H8].
  rewrite H5. vm_compute. reflexivity.
Defined.

(** Writing [{id: 1, name: "a"}], flushing, writing [{id: 1, name: "b"}]
    and flushing leaves the single row [{id: 1, name: "b"}]. *)
Example upsert_same_id :
  let w0 := new_writer 3 true in
  let s1 := add_record w0 test_store "test_table_a" (record_id_name 1 "a") in
  let s2 := flush s1.1.2 s1.2 "test_table_a" in
  let s3 := add_record s2.1.2 s2.2 "test_table_a" (record_id_name 1 "b") in
  let s4 := flush s3.1.2 s3.2 "test_table_a" in
  tbl_rows <$> (s4.2 !! "test_table_a") = Some [record_id_name 1 "b"].
Proof. vm_compute. reflexivity. Qed.

Lemma C5_upsert_last_write_wins_witness :
  let w0 := new_writer 3 true in
  let s1 := add_record w0 test_store "test_table_a" (record_id_name 1 "a") in
  let s2 := flush s1.1.2 s1.2 "test_table_a" in
  let s3 := add_record s2.1.2 s2.2 "test_table_a" (record_id_name 1 "b") in
  let s4 := flush s3.1.2 s3.2 "test_table_a" in
  exists tbl',
    s4.2 !! "test_table_a" = Some tbl'
    /\ rows_with_key tbl' (record_id_name 1 "a") = [record_id_name 1 "b"].
Proof.
  intros w0 s1 s2 s3 s4.
  destruct (C5_upsert_last_write_wins w0 test_store "test_table_a" table_a
              (record_id_name 1 "a") (record_id_name 1 "b"))
    as (_ & _ & _ & _ & tbl' & Htbl' & Hrows & _).
  - discriminate.
  - reflexivity.
  - exact test_store_table_a.
  - discriminate.
  - intros c Hc. apply list_elem_of_singleton in Hc as ->. eexists. reflexivity.
  - reflexivity.
  - apply record_id_name_columns.
  - apply record_id_name_columns.
  - exists tbl'. split; [exact Htbl'|exact Hrows].
Defined.

Lemma C7_auto_flush_at_batch_size_witness :
  let w0 := new_writer 3 true in
  let s1 := add_record w0 test_store "test_table_a" (record_a 1 "test1" 100) in
  let s2 := add_record s1.1.2 s1.2 "test_table_a" (record_a 2 "test2" 200) in
  let s3 := add_record s2.1.2 s2.2 "test_table_a" (record_a 3 "test3" 300) in
  s1.1.1 = Ok 1 /\ s1.2 = test_store
  /\ s2.1.1 = Ok 2 /\ s2.2 = test_store
  /\ s3.1.1 = Ok 0 /\ buffered s3.1.2 "test_table_a" = [].
Proof.
  intros w0 s1 s2 s3.
  destruct (C7_auto_flush_at_batch_size w0 test_store "test_table_a"
              (record_a 1 "test1" 100) (record_a 2 "test2" 200) (record_a 3 "test3" 300))
    as ((H1 & _ & H1s) & (H2 & _ & H2s) & _ & H3 & _).
  - reflexivity.
  - reflexivity.
  - discriminate.
  - reflexivity.
  - destruct H3 as (H3r & H3b & _); [vm_compute; reflexivity|].
    split; [exact H1|]. split; [exact H1s|]. split; [exact H2|].
    split; [exact H2s|]. split; [exact H3r|exact H3b].
Defined.

(** C7 as stated fails when the flush raises: the third record lacks
    columns of the first, so building its parameter tuple is a [KeyError];
    the third call raises instead of returning 0, and the three records
    stay buffered. *)
Lemma C7_counterexample_flush_raises :
  let w0 := new_writer 3 true in
  let r1 := record_a 1 "test1" 100 in
  let r2 := record_a 2 "test2" 200 in
  let r3 : gmap string cell := <["name" := CText "test3"]> ∅ in
  let s1 := add_record w0 test_store "test_table_a" r1 in
  let s2 := add_record s1.1.2 s1.2 "test_table_a" r2 in
  let s3 := add_record s2.1.2 s2.2 "test_table_a" r3 in
  s1.1.1 = Ok 1 /\ s2.1.1 = Ok 2
  /\ (exists c, s3.1.1 = Raise (KeyError c))
  /\ buffered s3.1.2 "test_table_a" = [r1; r2; r3]
  /\ s3.2 = test_store
  /\ ~ (s3.1.1 = Ok 0 /\ buffered s3.1.2 "test_table_a" = []).
Proof.
  intros w0 r1 r2 r3 s1 s2 s3.
  assert (Hraise : exists c, s3.1.1 = Raise (KeyError c))
    by (vm_compute; eexists; reflexivity).
  split; [reflexivity|]. split; [reflexivity|]. split; [exact Hraise|].
  split; [vm_compute; reflexivity|]. split; [vm_compute; reflexivity|].
  intros [Hok _]. destruct Hraise as [c Hc]. rewrite Hc in Hok. discriminate.
Qed.

Example auto_flush_writes_three_rows :
  let w0 := new_writer 3 true in
  let s1 := add_record w0 test_store "test_table_a" (record_a 1 "test1" 100) in
  let s2 := add_record s1.1.2 s1.2 "test_table_a" (record_a 2 "test2" 200) in
  let s3 := add_record s2.1.2 s2.2 "test_table_a" (record_a 3 "test3" 300) in
  tbl_rows <$> (s3.2 !! "test_table_a")
  = Some [record_a 1 "test1" 100; record_a 2 "test2" 200; record_a 3 "test3" 300]
  /\ total_records (_stats s3.1.2) = 3 /\ total_batches (_stats s3.1.2) = 1.
Proof. vm_compute. repeat split; reflexivity. Qed.

End BatchWriterExamples.

(** ** Sync manager: the planning pass *)

Section PlanningFacts.
Import SyncManager.

Implicit Types (db : database) (symbols : list string) (target_date : date).

Lemma plan_step_filter (C Fi Va In : gset string) symbols : forall acc,
  foldl (plan_step C Fi Va In) acc symbols
  = acc ++ filter (fun s => (s ∉ C) /\ ((s ∉ Fi) \/ (s ∉ Va) \/ (s ∉ In))) symbols.
Proof.
  induction symbols as [|s symbols IH]; intros acc; simpl.
  - rewrite app_nil_r. reflexivity.
  - rewrite IH. unfold plan_step.
    destruct (decide (s ∈ C)) as [HC|HC].
    + rewrite filter_cons_False by tauto. reflexivity.
    + destruct (decide (s ∉ Fi \/ s ∉ Va \/ s ∉ In)) as [Hl|Hl].
      * rewrite filter_cons_True by tauto.
        replace (bool_decide (s ∉ Fi) || bool_decide (s ∉ Va) || bool_decide (s ∉ In))
          with true.
        { rewrite <- app_assoc. reflexivity. }
        symmetry. rewrite !orb_true_iff, !bool_decide_eq_true. tauto.
      * rewrite filter_cons_False by tauto.
        replace (bool_decide (s ∉ Fi) || bool_decide (s ∉ Va) || bool_decide (s ∉ In))
          with false; [reflexivity|].
        symmetry. rewrite !orb_false_iff, !bool_decide_eq_false. tauto.
Qed.

Lemma delete_pending_rows db target_date (r : status_row) :
  r ∈ extended_sync_status (delete_pending db target_date)
  <-> r ∈ extended_sync_status db
      /\ ~ (ss_target_date r = target_date /\ ss_status r = "pending").
Proof. unfold delete_pending. simpl. rewrite list_elem_of_filter. tauto. Qed.

Lemma completed_symbols_spec db target_date s :
  s ∈ completed_symbols (delete_pending db target_date) target_date
  <-> has_completed_row db s target_date.
Proof.
  unfold completed_symbols, has_completed_row.
  rewrite elem_of_list_to_set, list_elem_of_fmap. split.
  - intros (r & -> & Hr). apply list_elem_of_filter in Hr as [[Htd Hst] Hr].
    apply delete_pending_rows in Hr as [Hr _]. eauto.
  - intros (r & Hr & <- & Htd & Hst). exists r. split; [reflexivity|].
    apply list_elem_of_filter. split; [auto|].
    apply delete_pending_rows. split; [exact Hr|].
    intros [_ Hp]. rewrite Hst in Hp. discriminate.
Qed.

Lemma financial_symbols_spec db now symbols target_date s :
  s ∈ symbols ->
  (s ∈ financial_symbols (delete_pending db target_date) now symbols
         (mk_date (year target_date) 12 31)
   <-> has_recent_financials db now s target_date).
Proof.
  intros Hs. unfold financial_symbols, has_recent_financials. simpl.
  rewrite elem_of_list_to_set, list_elem_of_fmap. split.
  - intros (r & -> & Hr). apply list_elem_of_filter in Hr as [(_ & Hrd & Hc) Hr]. eauto.
  - intros (r & Hr & <- & Hrd & Hc). exists r. split; [reflexivity|].
    apply list_elem_of_filter. auto.
Qed.

Lemma valuation_symbols_spec db symbols target_date s :
  s ∈ symbols ->
  (s ∈ valuation_symbols (delete_pending db target_date) symbols <-> has_valuations db s).
Proof.
  intros Hs. unfold valuation_symbols, has_valuations. simpl.
  rewrite elem_of_list_to_set, list_elem_of_fmap. split.
  - intros (r & -> & Hr). apply list_elem_of_filter in Hr as [_ Hr]. eauto.
  - intros (r & Hr & <-). exists r. split; [reflexivity|].
    apply list_elem_of_filter. auto.
Qed.

Lemma indicator_symbols_spec db symbols target_date s :
  s ∈ symbols ->
  (s ∈ indicator_symbols (delete_pending db target_date) symbols <-> has_indicators db s).
Proof.
  intros Hs. unfold indicator_symbols, has_indicators. simpl.
  rewrite elem_of_list_to_set, list_elem_of_fmap. split.
  - intros (r & -> & Hr). apply list_elem_of_filter in Hr as [_ Hr]. eauto.
  - intros (r & Hr & <-). exists r. split; [reflexivity|].
    apply list_elem_of_filter. auto.
Qed.

(** The returned list is [symbols] filtered, in order. *)
Lemma plan_filter db now symbols target_date :
  (_get_extended_data_symbols_to_process db now symbols target_date).2
  = let db' := delete_pending db target_date in
    filter (fun s =>
              (s ∉ completed_symbols db' target_date)
              /\ ((s ∉ financial_symbols db' now symbols (mk_date (year target_date) 12 31))
                  \/ (s ∉ valuation_symbols db' symbols)
                  \/ (s ∉ indicator_symbols db' symbols)))
           symbols.
Proof.
  unfold _get_extended_data_symbols_to_process.
  destruct symbols as [|s symbols]; [reflexivity|].
  cbv zeta. cbn [snd]. apply (plan_step_filter _ _ _ _ (s :: symbols) []).
Qed.

Lemma plan_elem db now symbols target_date s :
  s ∈ (_get_extended_data_symbols_to_process db now symbols target_date).2
  <-> s ∈ symbols
      /\ ~ has_completed_row db s target_date
      /\ (~ has_recent_financials db now s target_date
          \/ ~ has_valuations db s \/ ~ has_indicators db s).
Proof.
  rewrite plan_filter. cbv zeta. rewrite list_elem_of_filter.
  split.
  - intros [[Hc Hl] Hs]. split; [exact Hs|].
    rewrite <- completed_symbols_spec.
    rewrite <- (financial_symbols_spec db now symbols target_date s Hs).
    rewrite <- (valuation_symbols_spec db symbols target_date s Hs).
    rewrite <- (indicator_symbols_spec db symbols target_date s Hs).
    split; assumption.
  - intros (Hs & Hc & Hl).
    rewrite <- completed_symbols_spec in Hc.
    rewrite <- (financial_symbols_spec db now symbols target_date s Hs) in Hl.
    rewrite <- (valuation_symbols_spec db symbols target_date s Hs) in Hl.
    rewrite <- (indicator_symbols_spec db symbols target_date s Hs) in Hl.
    split; [split; assumption|exact Hs].
Qed.

(** C1 (what the code does): the planning pass deletes every [pending]
    ledger row of the target date, whatever its age, and no other row.
    The row created 12 hours before the pass is deleted; its symbol is
    returned. *)
Theorem C1_pending_rows_deleted_at_any_age :
  (forall db now symbols target_date (r : status_row),
     r ∈ extended_sync_status
           (_get_extended_data_symbols_to_process db now symbols target_date).1
     <-> r ∈ extended_sync_status db
         /\ ~ (ss_target_date r = target_date /\ ss_status r = "pending"))
  /\ extended_sync_status
       (_get_extended_data_symbols_to_process recent_pending_db noon
          ["000006.SZ"] target_20250124).1 = []
  /\ (_get_extended_data_symbols_to_process recent_pending_db noon
        ["000006.SZ"] target_20250124).2 = ["000006.SZ"].
Proof.
  split; [|split].
  - intros db now symbols target_date r.
    unfold _get_extended_data_symbols_to_process.
    destruct symbols; cbn [fst]; apply delete_pending_rows.
  - vm_compute. reflexivity.
  - vm_compute. reflexivity.
Qed.

Lemma filter_five {A} (P : A -> Prop) `{forall x, Decision (P x)} (a b c d e : A) :
  ~ P a -> ~ P b -> ~ P c -> P d -> P e ->
  filter P [a; b; c; d; e] = [d; e].
Proof.
  intros Ha Hb Hc Hd He.
  rewrite !filter_cons_False by assumption.
  rewrite !filter_cons_True by assumption. reflexivity.
Qed.

(** C4 (as amended): the planning pass returns a symbol of the list
    exactly when the symbol has no [completed] ledger row for the target
    date and lacks financial statements of the target date's fiscal year
    written within the last 30 days, or valuation records, or indicator
    records.  Given five symbols of which three have a [completed] row
    and the other two have none and lack one of the three kinds, it
    returns exactly the other two. *)
Theorem C4_planning_pass_selection db now target_date :
  (forall symbols s,
     s ∈ (_get_extended_data_symbols_to_process db now symbols target_date).2
     <-> s ∈ symbols
         /\ ~ has_completed_row db s target_date
         /\ (~ has_recent_financials db now s target_date
             \/ ~ has_valuations db s \/ ~ has_indicators db s))
  /\ (forall s1 s2 s3 s4 s5,
        has_completed_row db s1 target_date ->
        has_completed_row db s2 target_date ->
        has_completed_row db s3 target_date ->
        (forall s, s = s4 \/ s = s5 ->
           ~ has_completed_row db s target_date
           /\ (~ has_recent_financials db now s target_date
               \/ ~ has_valuations db s \/ ~ has_indicators db s)) ->
        (_get_extended_data_symbols_to_process db now [s1; s2; s3; s4; s5]
           target_date).2 = [s4; s5]).
Proof.
  split; [intros symbols s; apply plan_elem|].
  intros s1 s2 s3 s4 s5 H1 H2 H3 H45.
  rewrite plan_filter. cbv zeta.
  set (symbols := [s1; s2; s3; s4; s5]).
  assert (Hdone : forall s, has_completed_row db s target_date ->
            ~ ((s ∉ completed_symbols (delete_pending db target_date) target_date)
               /\ ((s ∉ financial_symbols (delete_pending db target_date) now symbols
                           (mk_date (year target_date) 12 31))
                   \/ (s ∉ valuation_symbols (delete_pending db target_date) symbols)
                   \/ (s ∉ indicator_symbols (delete_pending db target_date) symbols)))).
  { intros s Hs [Hn _]. apply Hn. apply completed_symbols_spec. exact Hs. }
  assert (Htodo : forall s, s ∈ symbols -> (s = s4 \/ s = s5) ->
            (s ∉ completed_symbols (delete_pending db target_date) target_date)
            /\ ((s ∉ financial_symbols (delete_pending db target_date) now symbols
                        (mk_date (year target_date) 12 31))
                \/ (s ∉ valuation_symbols (delete_pending db target_date) symbols)
                \/ (s ∉ indicator_symbols (delete_pending db target_date) symbols))).
  { intros s Hin Hs. destruct (H45 s Hs) as [Hc Hl].
    rewrite completed_symbols_spec.
    rewrite (financial_symbols_spec db now symbols target_date s Hin).
    rewrite (valuation_symbols_spec db symbols target_date s Hin).
    rewrite (indicator_symbols_spec db symbols target_date s Hin).
    split; assumption. }
  apply filter_five; auto.
  - apply Htodo; [|auto]. subst symbols. do 3 right. left.
  - apply Htodo; [|auto]. subst symbols. do 4 right. left.
Qed.

Lemma resume_db_completed s :
  completed_row s ∈ extended_sync_status resume_db ->
  has_completed_row resume_db s target_20250124.
Proof. intros Hin. exists (completed_row s). repeat split. exact Hin. Qed.

Lemma resume_db_todo s :
  s = "000004.SZ" \/ s = "000005.SZ" ->
  ~ has_completed_row resume_db s target_20250124
  /\ (~ has_recent_financials resume_db noon s target_20250124
      \/ ~ has_valuations resume_db s \/ ~ has_indicators resume_db s).
Proof.
  intros Hs. split.
  - intros (r & Hr & Hsym & _). simpl in Hr.
    repeat (apply elem_of_cons in Hr as [->|Hr];
            [simpl in Hsym; destruct Hs; subst; discriminate|]).
    apply elem_of_nil in Hr. contradiction.
  - right. left. intros (r & Hr & Hsym). simpl in Hr.
    repeat (apply elem_of_cons in Hr as [->|Hr];
            [simpl in Hsym; destruct Hs; subst; discriminate|]).
    apply elem_of_nil in Hr. contradiction.
Qed.

Lemma C4_planning_pass_selection_witness :
  (_get_extended_data_symbols_to_process resume_db noon five_symbols
     target_20250124).2 = ["000004.SZ"; "000005.SZ"].
Proof.
  destruct (C4_planning_pass_selection resume_db noon target_20250124) as [_ Hfive].
  apply (Hfive "000001.SZ" "000002.SZ" "000003.SZ" "000004.SZ" "000005.SZ").
  - apply resume_db_completed. simpl. left.
  - apply resume_db_completed. simpl. right. left.
  - apply resume_db_completed. simpl. right. right. left.
  - exact resume_db_todo.
Defined.

(** C4 as stated fails when the fiscal year's financial statements were
    written more than 30 days ago: the symbol has all three kinds of
    data and no [completed] row, and is returned all the same. *)
Lemma C4_counterexample_stale_financials :
  ~ ("000001.SZ" ∈ (_get_extended_data_symbols_to_process stale_financials_db noon
                      ["000001.SZ"] target_20250124).2
     <-> needs_processing_as_specified stale_financials_db "000001.SZ" target_20250124).
Proof.
  intros [Hto _].
  assert (Hin : "000001.SZ" ∈ (_get_extended_data_symbols_to_process stale_financials_db
                                 noon ["000001.SZ"] target_20250124).2).
  { assert (Heq : (_get_extended_data_symbols_to_process stale_financials_db noon
                     ["000001.SZ"] target_20250124).2 = ["000001.SZ"])
      by (vm_compute; reflexivity).
    rewrite Heq. left. }
  destruct (Hto Hin) as [_ [Hf|[Hv|Hi]]].
  - apply Hf. eexists. split; [left|]. split; reflexivity.
  - apply Hv. eexists. split; [left|]. reflexivity.
  - apply Hi. eexists. split; [left|]. reflexivity.
Qed.

End PlanningFacts.

(** ** Sync manager: the target date of a full sync *)

Section RunFullSyncFacts.
Import SyncManager.

(** C6: a null target date is rejected with a [ValidationError],
    surfaced to the caller as a failure result, and never defaulted.  A
    target date after today passes the check and the run processes the
    literal date 2025-01-24 instead, whatever today is: a result carries
    that date, and a failure is an exception of the phases.  The literal
    differs from the requested date and is not after today only while
    today is not before 2025-01-24.  Before that day the rule breaks: a
    request for 2025-01-24 is a request for a future date, and it is
    processed for 2025-01-24, the requested date itself, still after
    today; so on 2025-01-10. *)
Theorem C6_target_date_checks {P : Type}
    (run_phases : date -> list string -> option (list string) -> result P)
    (today : date) (symbols : list string) (frequencies : option (list string)) :
  (exists msg,
     run_full_sync run_phases today None symbols frequencies
     = Failure (ValidationError msg))
  /\ (forall target_date,
        date_ltb today target_date = true ->
        run_full_sync run_phases today (Some target_date) symbols frequencies
        = unified_error_handler
            (rbind (run_phases known_good_date symbols frequencies) (fun phases =>
             Ok (mk_full_result known_good_date phases)))
        /\ (forall r,
              run_full_sync run_phases today (Some target_date) symbols frequencies
              = Success r -> fr_target_date r = known_good_date)
        /\ (forall e,
              run_full_sync run_phases today (Some target_date) symbols frequencies
              = Failure e ->
              run_phases known_good_date symbols frequencies = Raise e)
        /\ (date_leb known_good_date today = true ->
              known_good_date <> target_date
              /\ date_ltb today known_good_date = false))
  /\ (forall phases,
        date_ltb today known_good_date = true ->
        run_phases known_good_date symbols frequencies = Ok phases ->
        exists r,
          run_full_sync run_phases today (Some known_good_date) symbols frequencies
          = Success r
          /\ fr_target_date r = known_good_date
          /\ date_ltb today (fr_target_date r) = true)
  /\ (let clock := mk_date 2025 1 10 in
      let requested := mk_date 2025 1 24 in
      date_ltb clock requested = true
      /\ exists r,
           run_full_sync trivial_phases clock (Some requested) symbols frequencies
           = Success r
           /\ fr_target_date r = requested
           /\ date_ltb clock (fr_target_date r) = true).
Proof.
  split; [eexists; reflexivity|]. split; [|split].
  - intros target_date Hfut.
    unfold run_full_sync, run_full_sync_body. rewrite Hfut.
    split; [reflexivity|]. split; [|split].
    + intros r. destruct (run_phases known_good_date symbols frequencies); simpl.
      * intros [= <-]. reflexivity.
      * discriminate.
    + intros e. destruct (run_phases known_good_date symbols frequencies); simpl.
      * discriminate.
      * intros [= <-]. reflexivity.
    + unfold date_leb. intros Hle. apply negb_true_iff in Hle.
      split; [|exact Hle]. intros <-. congruence.
  - intros phases Hbefore Hrun.
    exists (mk_full_result known_good_date phases).
    unfold run_full_sync, run_full_sync_body. rewrite Hbefore, Hrun.
    split; [reflexivity|]. split; [reflexivity|exact Hbefore].
  - split; [reflexivity|].
    eexists. split; [reflexivity|]. split; reflexivity.
Qed.

Lemma C6_target_date_checks_witness :
  date_ltb (mk_date 2026 11 4) (mk_date 2026 12 31) = true
  /\ run_full_sync trivial_phases (mk_date 2026 11 4) (Some (mk_date 2026 12 31)) [] None
     = Success (mk_full_result known_good_date tt)
  /\ known_good_date <> mk_date 2026 12 31.
Proof.
  destruct (C6_target_date_checks trivial_phases (mk_date 2026 11 4) [] None)
    as (_ & Hfut & _).
  destruct (Hfut (mk_date 2026 12 31) eq_refl) as (Heq & _ & _ & Hhist).
  split; [reflexivity|]. split; [exact Heq|].
  destruct (Hhist eq_refl) as [Hne _]. exact Hne.
Defined.

End RunFullSyncFacts.

(** ** Data validator *)

Section ValidatorFacts.
Import Validator.
Context {F : Type} `{FloatOps F}.

Implicit Types (record : gmap string (pyval F)).
Implicit Types (validate : gmap string (pyval F) -> result (list (issue F))).

Lemma count_record_raise validate e (data : list (gmap string (pyval F))) :
  foldl (count_record validate) (Raise e) data = Raise e.
Proof. induction data as [|r data IH]; simpl; [reflexivity|exact IH]. Qed.

Lemma count_record_loop validate (data : list (gmap string (pyval F))) :
  forall valid invalid all_issues valid' invalid' all_issues',
  foldl (count_record validate) (Ok (valid, invalid, all_issues)) data
  = Ok (valid', invalid', all_issues') ->
  valid' = valid + count_clean validate data
  /\ invalid' = invalid + count_flagged validate data
  /\ valid' + invalid' = valid + invalid + Z.of_nat (length data).
Proof.
  unfold count_clean, count_flagged.
  induction data as [|r data IH]; intros v i a v' i' a'.
  - simpl. intros [= <- <- <-]. lia.
  - cbn [foldl].
    assert (Hstep : count_record validate (Ok (v, i, a)) r
                    = match validate r with
                      | Ok [] => Ok (v + 1, i, a)
                      | Ok (x :: xs) => Ok (v, i + 1, a ++ x :: xs)
                      | Raise e => Raise e
                      end).
    { unfold count_record. simpl. destruct (validate r) as [[|x xs]|e]; reflexivity. }
    rewrite Hstep. clear Hstep.
    destruct (validate r) as [[|x xs]|e] eqn:Hv.
    + intros Hf. apply IH in Hf as (-> & -> & Hsum).
      rewrite (filter_cons_True (fun r => clean validate r = true))
        by (unfold clean; rewrite Hv; reflexivity).
      rewrite (filter_cons_False (fun r => clean validate r = false))
        by (unfold clean; rewrite Hv; discriminate).
      rewrite !length_cons. lia.
    + intros Hf. apply IH in Hf as (-> & -> & Hsum).
      rewrite (filter_cons_False (fun r => clean validate r = true))
        by (unfold clean; rewrite Hv; discriminate).
      rewrite (filter_cons_True (fun r => clean validate r = false))
        by (unfold clean; rewrite Hv; reflexivity).
      rewrite !length_cons. lia.
    + rewrite count_record_raise. discriminate.
Qed.

(** Whatever the three methods do, the result is the handler's dict or
    the dict of the [try] block with its counts. *)
Lemma validate_symbol_data_with_cases
    (get_symbol_data : result (list (gmap string (pyval F)))) validate
    (calculate_quality_stats :
       list (gmap string (pyval F)) -> result (option (quality_stats F)))
    (symbol frequency : string) :
  let r := validate_symbol_data_with get_symbol_data validate
             calculate_quality_stats symbol frequency in
  (exists e, r = mk_symbol_result symbol frequency (Some e) 0 0 0 [] None)
  \/ (exists data,
        get_symbol_data = Ok data
        /\ error r = None
        /\ total_records r = Z.of_nat (length data)
        /\ valid_records r = count_clean validate data
        /\ invalid_records r = count_flagged validate data
        /\ total_records r = valid_records r + invalid_records r).
Proof.
  unfold validate_symbol_data_with.
  destruct get_symbol_data as [data|e]; simpl; [|left; eauto].
  destruct data as [|r0 data].
  - right. exists []. simpl. unfold count_clean, count_flagged. simpl. auto 10.
  - set (recs := r0 :: data).
    destruct (foldl (count_record validate) (Ok (0, 0, [])) recs)
      as [[[v i] a]|e] eqn:Hloop; simpl; [|left; eauto].
    destruct (calculate_quality_stats recs) as [st|e]; simpl; [|left; eauto].
    right. exists recs. apply count_record_loop in Hloop as (-> & -> & Hsum).
    cbn [error total_records valid_records invalid_records].
    split; [reflexivity|]. split; [reflexivity|]. split; [reflexivity|].
    subst recs. rewrite length_cons in Hsum.
    split; [lia|]. split; lia.
Qed.

Lemma count_record_total validate (data : list (gmap string (pyval F))) :
  (forall r, is_ok (validate r) = true) ->
  forall acc, exists acc',
    foldl (count_record validate) (Ok acc) data = Ok acc'.
Proof.
  intros Hv. induction data as [|r data IH]; intros [[v i] a]; cbn [foldl]; [eauto|].
  unfold count_record at 2. simpl. specialize (Hv r).
  destruct (validate r) as [[|x xs]|e]; [apply IH|apply IH|discriminate].
Qed.

(** With the validator's own methods the handler is never reached. *)
Lemma validate_symbol_data_no_error (cfg : config F)
    (fetchall : result (list (gmap string (pyval F)))) (symbol frequency : string) :
  error (validate_symbol_data cfg fetchall symbol frequency) = None.
Proof.
  unfold validate_symbol_data, validate_symbol_data_with. simpl.
  destruct (_get_symbol_data fetchall) as [|r0 data]; [reflexivity|].
  destruct (count_record_total
              (fun record => Ok (_validate_record cfg record frequency)) (r0 :: data)
              (fun _ => eq_refl) (0, 0, [])) as [[[v i] a] ->].
  reflexivity.
Qed.

(** C9: [validate_symbol_data] never raises.  An exception inside the
    checks of one record becomes a [validation_error] issue appended to
    the issues that record had collected; any exception in the method
    itself yields the error dict; and in every result without [error]
    each fetched record is counted once, as valid when it has no issue
    and as invalid otherwise, so that total = valid + invalid. *)
Theorem C9_validate_symbol_data_never_raises (cfg : config F)
    (fetchall get_symbol_data : result (list (gmap string (pyval F))))
    validate
    (calculate_quality_stats :
       list (gmap string (pyval F)) -> result (option (quality_stats F)))
    (symbol frequency : string) :
  (forall record,
     match checks cfg record [] with
     | (collected, Ok _) => _validate_record cfg record frequency = collected
     | (collected, Raise e) =>
         _validate_record cfg record frequency
         = collected ++ [mk_issue "validation_error" None (get_trade_date record) (Some e)]
     end)
  /\ (let r := validate_symbol_data_with get_symbol_data validate
                 calculate_quality_stats symbol frequency in
      (exists e, r = mk_symbol_result symbol frequency (Some e) 0 0 0 [] None)
      \/ (exists data,
            get_symbol_data = Ok data
            /\ error r = None
            /\ total_records r = Z.of_nat (length data)
            /\ valid_records r = count_clean validate data
            /\ invalid_records r = count_flagged validate data
            /\ total_records r = valid_records r + invalid_records r))
  /\ (let r := validate_symbol_data cfg fetchall symbol frequency in
      let data := _get_symbol_data fetchall in
      let validate_record := fun record => Ok (_validate_record cfg record frequency) in
      error r = None
      /\ total_records r = Z.of_nat (length data)
      /\ valid_records r = count_clean validate_record data
      /\ invalid_records r = count_flagged validate_record data
      /\ total_records r = valid_records r + invalid_records r).
Proof.
  split; [|split].
  - intros record. unfold _validate_record.
    destruct (checks cfg record []) as [collected [[]|e]]; reflexivity.
  - apply validate_symbol_data_with_cases.
  - intros r data validate_record.
    pose proof (validate_symbol_data_no_error cfg fetchall symbol frequency) as Hne.
    fold r in Hne.
    destruct (validate_symbol_data_with_cases (Ok data) validate_record
                (fun data_records => Ok (_calculate_quality_stats data_records))
                symbol frequency) as [[e He]|(data' & Hd & _ & Ht & Hv & Hi & Hs)].
    + change (r = mk_symbol_result symbol frequency (Some e) 0 0 0 [] None) in He.
      rewrite He in Hne. discriminate.
    + injection Hd as <-. auto.
Qed.

End ValidatorFacts.

Section ValidatorExamples.
Import Validator.

(** Of the three example bars the first is valid; the second has its
    high below its low, which also puts open and close outside the
    range; converting the third bar's open raises. *)
Example validate_example_bars :
  let r := validate_symbol_data example_config (Ok example_bars) "000001.SZ" "1d" in
  error r = None
  /\ (total_records r, valid_records r, invalid_records r) = (3, 1, 2)
  /\ issue_type <$> issues r
     = ["price_logic_error"; "price_logic_error"; "price_logic_error";
        "validation_error"]
  /\ cause <$> issues r
     = [None; None; None;
        Some (ValueError "could not convert string to float")].
Proof. vm_compute. repeat split; reflexivity. Qed.

(** A failing query is an empty result, not an error. *)
Example validate_failed_fetch :
  let r := validate_symbol_data example_config
             (Raise (OperationalError "database is locked")) "000001.SZ" "1d" in
  error r = None
  /\ (total_records r, valid_records r, invalid_records r) = (0, 0, 0).
Proof. vm_compute. repeat split; reflexivity. Qed.

(** A method of the validator that raises inside the loop ends in the
    handler's dict. *)
Example validate_with_raising_method :
  validate_symbol_data_with (Ok example_bars)
    (fun _ => Raise (KeyError "trade_date")) (fun _ => Ok None) "000001.SZ" "1d"
  = mk_symbol_result "000001.SZ" "1d" (Some (KeyError "trade_date")) 0 0 0 [] None.
Proof. reflexivity. Qed.

End ValidatorExamples.

(** * Further properties *)

(** ** Gap detector: what the gap list covers *)

Section GapCoverFacts.
Import GapDetector.

Implicit Types (l : list date) (s e d : date) (sym freq : string).

Lemma extend_gap_covers l : forall s e x,
  s <= e ->
  (s <= x <= e \/ x ∈ l) ->
  exists r, r ∈ extend_gap s e l /\ fst r <= x <= snd r.
Proof.
  induction l as [|d l IH]; intros s e x Hse Hx; simpl.
  - destruct Hx as [Hx|Hx]; [|apply elem_of_nil in Hx; contradiction].
    exists (s, e). split; [left|exact Hx].
  - case_decide as Hd.
    + subst d. apply IH; [lia|].
      destruct Hx as [Hx|Hx]; [left; lia|].
      apply elem_of_cons in Hx as [->|Hx]; [left; lia|right; exact Hx].
    + destruct Hx as [Hx|Hx].
      * exists (s, e). split; [left|exact Hx].
      * destruct (IH d d x) as (r & Hr & Hin); [lia| |].
        { apply elem_of_cons in Hx as [->|Hx]; [left; lia|right; exact Hx]. }
        exists r. split; [right; exact Hr|exact Hin].
Qed.

Lemma merge_adjacent_covers l x :
  x ∈ l -> exists r, r ∈ merge_adjacent l /\ fst r <= x <= snd r.
Proof.
  destruct l as [|d l]; intros Hx; [apply elem_of_nil in Hx; contradiction|].
  simpl. apply extend_gap_covers; [lia|].
  apply elem_of_cons in Hx as [->|Hx]; [left; lia|right; exact Hx].
Qed.

(** X1: A calendar date lies inside a reported gap exactly when it is a
    trading day without stored data; no gap is reported exactly when
    every trading day has data. *)
Theorem gaps_cover_exactly_the_missing_days sym freq
    (trading_days existing_dates : list date) :
  (forall d,
     (exists g, g ∈ _detect_date_gaps sym trading_days existing_dates freq
                /\ start_date g <= d <= end_date g)
     <-> d ∈ trading_days /\ d ∉ existing_dates)
  /\ (_detect_date_gaps sym trading_days existing_dates freq = []
      <-> forall d, d ∈ trading_days -> d ∈ existing_dates).
Proof.
  assert (Hcover : forall d,
    (exists g, g ∈ _detect_date_gaps sym trading_days existing_dates freq
               /\ start_date g <= d <= end_date g)
    <-> d ∈ trading_days /\ d ∉ existing_dates).
  { intros d. split.
    - intros (g & Hg & Hd).
      pose proof (detect_date_gaps_consistent sym freq trading_days existing_dates) as Hc.
      rewrite Forall_forall in Hc. destruct (Hc g Hg) as (_ & _ & _ & _ & Hall).
      apply Hall. exact Hd.
    - intros Hd. apply missing_dates_elem in Hd.
      rewrite <- sorted_perm in Hd.
      destruct (merge_adjacent_covers _ _ Hd) as (r & Hr & Hin).
      exists (gap_of_range sym freq r). split; [|exact Hin].
      rewrite detect_date_gaps_merge. apply list_elem_of_fmap. eauto. }
  split; [exact Hcover|]. split.
  - intros Hnil d Hd. destruct (decide (d ∈ existing_dates)) as [|Hn]; [assumption|].
    destruct (proj2 (Hcover d) (conj Hd Hn)) as (g & Hg & _).
    rewrite Hnil in Hg. apply elem_of_nil in Hg. contradiction.
  - intros Hall. unfold _detect_date_gaps.
    replace (missing_dates trading_days existing_dates) with (@nil date); [reflexivity|].
    symmetry. unfold missing_dates. apply filter_not_in_covered.
    intros x Hx. rewrite elem_of_list_to_set. auto.
Qed.

Lemma extend_gap_days l : forall s e,
  sum_Z ((fun r => snd r - fst r + 1) <$> extend_gap s e l)
  = (e - s + 1) + Z.of_nat (length l).
Proof.
  induction l as [|d l IH]; intros s e; simpl.
  - lia.
  - case_decide as Hd.
    + rewrite IH. lia.
    + simpl. rewrite IH. lia.
Qed.

(** X2: The [gap_days] of the reported gaps add up to the number of missing
    trading days. *)
Theorem gap_days_add_up_to_missing_days sym freq
    (trading_days existing_dates : list date) :
  sum_Z (gap_days <$> _detect_date_gaps sym trading_days existing_dates freq)
  = Z.of_nat (length (missing_dates trading_days existing_dates)).
Proof.
  rewrite detect_date_gaps_merge.
  rewrite <- (Permutation_length (sorted_perm (missing_dates trading_days existing_dates))).
  rewrite <- list_fmap_compose.
  destruct (sorted (missing_dates trading_days existing_dates)) as [|d l]; [reflexivity|].
  simpl merge_adjacent.
  change (gap_days ∘ gap_of_range sym freq) with (fun r : date * date => snd r - fst r + 1).
  rewrite extend_gap_days. simpl. lia.
Qed.

(** X3: The result depends on the trading days and on the existing dates as
    sets only: neither their order nor repetitions among the existing
    dates matter. *)
Theorem detect_date_gaps_order_independent sym freq
    (trading_days trading_days' existing_dates existing_dates' : list date) :
  trading_days ≡ₚ trading_days' ->
  (forall d, d ∈ existing_dates <-> d ∈ existing_dates') ->
  _detect_date_gaps sym trading_days existing_dates freq
  = _detect_date_gaps sym trading_days' existing_dates' freq.
Proof.
  intros Hperm Hex. rewrite !detect_date_gaps_merge. do 2 f_equal.
  assert (Hset : (list_to_set existing_dates : gset date) = list_to_set existing_dates').
  { apply set_eq. intros d. rewrite !elem_of_list_to_set. apply Hex. }
  apply (StronglySorted_unique Z.le); try apply sorted_ascending.
  rewrite !sorted_perm. unfold missing_dates. rewrite Hset.
  apply filter_Permutation. exact Hperm.
Qed.

Lemma detect_date_gaps_order_independent_witness :
  _detect_date_gaps "000001.SZ" [739273; 739271; 739272] [739271; 739271] "1d"
  = _detect_date_gaps "000001.SZ" [739271; 739272; 739273] [739271] "1d".
Proof.
  apply detect_date_gaps_order_independent.
  - apply (bool_decide_unpack _). vm_compute. exact I.
  - intros d. rewrite !elem_of_cons, !elem_of_nil. tauto.
Defined.

End GapCoverFacts.

(** ** Gap detector: scans over the store *)

Section GapScanFacts.
Import GapDetector GapScan.

Implicit Types (db : database) (sym freq : string) (symbols : list string).

Lemma trading_days_in_range db (start_date end_date d : date) :
  d ∈ _get_trading_days db start_date end_date -> start_date <= d <= end_date.
Proof.
  unfold _get_trading_days. rewrite sorted_perm, list_elem_of_fmap.
  intros (r & -> & Hr). apply list_elem_of_filter in Hr as [(? & ? & _) _]. lia.
Qed.

(** X4: On a calendar that respects its primary key (date, market), the gaps
    of a symbol lie within the requested range, ascending and at least
    two calendar days apart, and each consists of trading days of the
    range without stored data. *)
Theorem detect_symbol_gaps_in_range db sym (start_date end_date : date) freq :
  NoDup ((fun r => (cal_date r, cal_market r)) <$> trading_calendar db) ->
  let gs := detect_symbol_gaps db sym start_date end_date freq in
  gaps_invariant (_get_trading_days db start_date end_date)
    (_get_existing_dates db sym start_date end_date freq) gs
  /\ Forall (fun g => symbol g = sym /\ frequency g = freq
                      /\ start_date <= GapDetector.start_date g
                      /\ GapDetector.end_date g <= end_date) gs.
Proof.
  intros Hpk gs.
  assert (Hinv : gaps_invariant (_get_trading_days db start_date end_date)
                   (_get_existing_dates db sym start_date end_date freq) gs).
  { apply gaps_invariant_distinct_days, trading_days_distinct, Hpk. }
  split; [exact Hinv|].
  destruct Hinv as [Hcons _]. rewrite Forall_forall in Hcons.
  apply Forall_forall. intros g Hg.
  destruct (Hcons g Hg) as (Hle & _ & _ & _ & Hall).
  assert (Hs : symbol g = sym /\ frequency g = freq).
  { subst gs. unfold detect_symbol_gaps in Hg. rewrite detect_date_gaps_merge in Hg.
    apply list_elem_of_fmap in Hg as (r & -> & _). split; reflexivity. }
  destruct Hs as [Hs Hf]. split; [exact Hs|]. split; [exact Hf|].
  destruct (Hall (GapDetector.start_date g)) as [H1 _]; [lia|].
  destruct (Hall (GapDetector.end_date g)) as [H2 _]; [lia|].
  apply trading_days_in_range in H1, H2. lia.
Qed.

Lemma detect_symbol_gaps_in_range_witness :
  Forall (fun g => symbol g = "000001.SZ" /\ frequency g = "1d"
                   /\ 739271 <= GapDetector.start_date g
                   /\ GapDetector.end_date g <= 739277)
         (detect_symbol_gaps week_db "000001.SZ" 739271 739277 "1d").
Proof.
  apply (detect_symbol_gaps_in_range week_db "000001.SZ" 739271 739277 "1d").
  apply (bool_decide_unpack _). vm_compute. exact I.
Defined.

(** The gaps a (possibly raising) detection contributes. *)
Lemma frequency_loop (detect : string -> result (list gap)) symbols :
  forall (S : gset string) (G : list gap),
  (foldl (frequency_step detect) (S, G) symbols).2
  = G ++ mjoin ((fun s => try_except (detect s) (fun _ => [])) <$> symbols)
  /\ forall s,
      s ∈ (foldl (frequency_step detect) (S, G) symbols).1
      <-> s ∈ S \/ (s ∈ symbols /\ try_except (detect s) (fun _ => []) <> []).
Proof.
  induction symbols as [|x symbols IH]; intros S G.
  - simpl. rewrite app_nil_r. split; [reflexivity|].
    intros s. rewrite elem_of_nil. tauto.
  - cbn [foldl fmap list_fmap mjoin list_join].
    change (list_fmap _ _ ?f symbols) with (f <$> symbols).
    unfold frequency_step at 2 4.
    destruct (detect x) as [[|g gs]|e] eqn:Hx; cbn [try_except app fst snd].
    + destruct (IH S G) as [-> IHs]. split; [reflexivity|].
      intros s. rewrite IHs, elem_of_cons. split; [tauto|].
      intros [?|[[->|?] Hne]]; auto. rewrite Hx in Hne. contradiction.
    + destruct (IH ({[x]} ∪ S) (G ++ g :: gs)) as [-> IHs].
      split; [rewrite <- app_assoc; reflexivity|].
      intros s. rewrite IHs, elem_of_union, elem_of_singleton, elem_of_cons.
      split; [|tauto].
      intros [[->|?]|[? ?]]; auto. right. split; [auto|]. rewrite Hx. discriminate.
    + destruct (IH S G) as [-> IHs]. split; [reflexivity|].
      intros s. rewrite IHs, elem_of_cons. split; [tauto|].
      intros [?|[[->|?] Hne]]; auto. rewrite Hx in Hne. contradiction.
Qed.

(** X5: [_detect_frequency_gaps] collects the gaps of the symbols in order; a
    symbol whose detection raises contributes nothing and stops nothing;
    [symbols_with_gaps] holds exactly the symbols that contributed a
    gap. *)
Theorem frequency_scan_isolates_failures (detect : string -> result (list gap))
    symbols freq :
  let r := _detect_frequency_gaps_with detect symbols freq in
  fg_gaps r = mjoin ((fun s => try_except (detect s) (fun _ => [])) <$> symbols)
  /\ (forall s, s ∈ fg_symbols_with_gaps r
                <-> s ∈ symbols /\ exists g gs, detect s = Ok (g :: gs))
  /\ fg_total_symbols r = Z.of_nat (length symbols).
Proof.
  intros r. subst r. unfold _detect_frequency_gaps_with. cbn.
  destruct (frequency_loop detect symbols ∅ []) as [Hg Hs].
  split; [exact Hg|]. split; [|reflexivity].
  intros s. rewrite Hs. split.
  - intros [Hin|[Hin Hne]]; [apply not_elem_of_empty in Hin; contradiction|].
    split; [exact Hin|].
    destruct (detect s) as [[|g gs]|e]; simpl in Hne; try contradiction; eauto.
  - intros [Hin (g & gs & Hd)]. right. split; [exact Hin|]. rewrite Hd. discriminate.
Qed.

Lemma detect_symbol_gaps_symbol db sym (start_date end_date : date) freq g :
  g ∈ detect_symbol_gaps db sym start_date end_date freq ->
  symbol g = sym /\ gap_type g = "date_missing".
Proof.
  unfold detect_symbol_gaps. rewrite detect_date_gaps_merge.
  intros Hg. apply list_elem_of_fmap in Hg as (r & -> & _). split; reflexivity.
Qed.

(** X6: In the result of a detector's own scan, [symbols_with_gaps] is the
    set of the symbols of the listed gaps, and every listed gap belongs to
    a requested symbol. *)
Theorem frequency_scan_symbols_are_gap_symbols db symbols
    (start_date end_date : date) freq :
  let r := _detect_frequency_gaps db symbols start_date end_date freq in
  (forall s, s ∈ fg_symbols_with_gaps r <-> exists g, g ∈ fg_gaps r /\ symbol g = s)
  /\ (forall g, g ∈ fg_gaps r -> symbol g ∈ symbols).
Proof.
  intros r.
  destruct (frequency_scan_isolates_failures
              (fun s => Ok (detect_symbol_gaps db s start_date end_date freq))
              symbols freq) as (Hg & Hs & _).
  fold (_detect_frequency_gaps db symbols start_date end_date freq) in Hg, Hs.
  fold r in Hg, Hs.
  assert (Hmem : forall g, g ∈ fg_gaps r ->
            symbol g ∈ symbols
            /\ g ∈ detect_symbol_gaps db (symbol g) start_date end_date freq).
  { intros g. rewrite Hg, list_elem_of_join.
    intros (l & Hgl & Hl). apply list_elem_of_fmap in Hl as (s & -> & Hsin).
    simpl in Hgl. destruct (detect_symbol_gaps_symbol _ _ _ _ _ _ Hgl) as [<- _].
    auto. }
  split.
  - intros s. rewrite Hs. split.
    + intros (Hin & g & gs & Hd). injection Hd as Hd.
      exists g. split.
      * rewrite Hg, list_elem_of_join. eexists. split; [|apply list_elem_of_fmap; eauto].
        simpl. rewrite Hd. left.
      * destruct (detect_symbol_gaps_symbol db s start_date end_date freq g)
          as [Hsym _]; [rewrite Hd; left|exact Hsym].
    + intros (g & Hgin & <-). destruct (Hmem g Hgin) as [Hin Hgd].
      split; [exact Hin|].
      destruct (detect_symbol_gaps db (symbol g) start_date end_date freq) as [|g0 gs0];
        [apply elem_of_nil in Hgd; contradiction|eauto].
  - intros g Hgin. apply Hmem. exact Hgin.
Qed.

Lemma frequency_scan_gap_type db symbols (start_date end_date : date) freq g :
  g ∈ fg_gaps (_detect_frequency_gaps db symbols start_date end_date freq) ->
  gap_type g = "date_missing".
Proof.
  destruct (frequency_scan_isolates_failures
              (fun s => Ok (detect_symbol_gaps db s start_date end_date freq))
              symbols freq) as (Hg & _ & _).
  unfold _detect_frequency_gaps. rewrite Hg, list_elem_of_join.
  intros (l & Hgl & Hl). apply list_elem_of_fmap in Hl as (s & -> & _).
  simpl in Hgl. eapply detect_symbol_gaps_symbol. exact Hgl.
Qed.

(** The [gap_types] tally after [n] gaps of type [date_missing]. *)
Lemma count_gap_type_date_missing (gs : list gap) : forall n,
  0 <= n ->
  Forall (fun g => gap_type g = "date_missing") gs ->
  foldl count_gap_type
    (if decide (n = 0) then ∅ else {["date_missing" := n]}) gs
  = (if decide (n + Z.of_nat (length gs) = 0) then ∅
     else {["date_missing" := n + Z.of_nat (length gs)]}).
Proof.
  induction gs as [|g gs IH]; intros n Hn Hall.
  - simpl. rewrite Z.add_0_r. reflexivity.
  - apply Forall_cons in Hall as [Hg Hall]. cbn [foldl].
    assert (Hstep : count_gap_type
                      (if decide (n = 0) then ∅ else {["date_missing" := n]}) g
                    = (if decide (n + 1 = 0) then ∅ else {["date_missing" := n + 1]})).
    { unfold count_gap_type. rewrite Hg.
      rewrite (decide_False (P := n + 1 = 0)) by lia.
      destruct (decide (n = 0)) as [->|Hne].
      - rewrite lookup_empty. simpl. apply insert_empty.
      - rewrite lookup_singleton_eq. simpl. apply insert_singleton_eq. }
    rewrite Hstep, IH by (auto; lia).
    rewrite length_cons.
    replace (n + 1 + Z.of_nat (length gs)) with (n + Z.of_nat (S (length gs))) by lia.
    reflexivity.
Qed.

Lemma dict_set_fresh {A} (k : string) (a : A) (d : list (string * A)) :
  k ∉ PyDict.keys d -> PyDict.set k a d = d ++ [(k, a)].
Proof.
  unfold PyDict.keys. induction d as [|[k' a'] d IH]; simpl; intros Hk; [reflexivity|].
  apply not_elem_of_cons in Hk as [Hne Hk].
  rewrite decide_False by congruence. f_equal. apply IH. exact Hk.
Qed.

Lemma all_gaps_loop (detect : string -> frequency_gaps) (freqs : list string) :
  (forall f g, g ∈ fg_gaps (detect f) -> gap_type g = "date_missing") ->
  forall (D : list (string * frequency_gaps)) (T S : Z),
  0 <= T ->
  NoDup (PyDict.keys D ++ freqs) ->
  foldl (all_gaps_step detect)
    (D, mk_gap_summary T S (if decide (T = 0) then ∅ else {["date_missing" := T]}))
    freqs
  = (D ++ ((fun f => (f, detect f)) <$> freqs),
     let T' := T + sum_Z ((fun f => Z.of_nat (length (fg_gaps (detect f)))) <$> freqs) in
     mk_gap_summary T'
       (S + sum_Z ((fun f => Z.of_nat (size (fg_symbols_with_gaps (detect f)))) <$> freqs))
       (if decide (T' = 0) then ∅ else {["date_missing" := T']})).
Proof.
  intros Htype. induction freqs as [|f freqs IH]; intros D T S HT Hnd.
  - cbn. rewrite app_nil_r, !Z.add_0_r. reflexivity.
  - cbn [foldl]. unfold all_gaps_step at 2. cbn [fst snd total_gaps symbols_with_gaps gap_types].
    rewrite count_gap_type_date_missing;
      [|exact HT|apply Forall_forall; intros g Hg; eapply Htype; exact Hg].
    apply NoDup_app in Hnd as (HD & Hdisj & Hf).
    apply NoDup_cons in Hf as [Hf Hfs].
    rewrite dict_set_fresh by (intros Hin; apply (Hdisj f Hin); left).
    rewrite IH.
    + cbn [fmap list_fmap sum_Z foldr].
      change (list_fmap _ _ ?g freqs) with (g <$> freqs).
      rewrite <- app_assoc. cbn [app]. f_equal.
      fold (sum_Z ((fun f0 => Z.of_nat (length (fg_gaps (detect f0)))) <$> freqs)).
      fold (sum_Z ((fun f0 => Z.of_nat (size (fg_symbols_with_gaps (detect f0)))) <$> freqs)).
      cbv zeta. rewrite !Z.add_assoc. reflexivity.
    + lia.
    + unfold PyDict.keys. rewrite fmap_app. cbn [fmap list_fmap fst].
      apply NoDup_app. split; [|split].
      * apply NoDup_app. split; [exact HD|]. split; [|apply NoDup_singleton].
        intros x Hx Hx'. apply list_elem_of_singleton in Hx' as ->.
        apply (Hdisj f Hx). left.
      * intros x Hx Hx'. apply elem_of_app in Hx as [Hx|Hx].
        -- apply (Hdisj x Hx). right. exact Hx'.
        -- apply list_elem_of_singleton in Hx as ->. contradiction.
      * exact Hfs.
Qed.

(** X7: When no frequency is requested twice, [detect_all_gaps] lists one
    entry per frequency, in order; [total_gaps] is the number of gaps the
    entries list, [symbols_with_gaps] adds up the entries' symbol counts,
    and [gap_types] is empty or maps [date_missing] to [total_gaps]. *)
Theorem detect_all_gaps_totals db (start_date end_date : date) symbols
    (frequencies : list string) :
  NoDup frequencies ->
  let r := detect_all_gaps db start_date end_date symbols frequencies in
  gaps_by_frequency r
  = ((fun f => (f, _detect_frequency_gaps db symbols start_date end_date f))
       <$> frequencies)
  /\ total_gaps (summary r)
     = sum_Z ((fun kv => Z.of_nat (length (fg_gaps kv.2))) <$> gaps_by_frequency r)
  /\ symbols_with_gaps (summary r)
     = sum_Z ((fun kv => Z.of_nat (size (fg_symbols_with_gaps kv.2)))
                <$> gaps_by_frequency r)
  /\ gap_types (summary r)
     = (if decide (total_gaps (summary r) = 0) then ∅
        else {["date_missing" := total_gaps (summary r)]}).
Proof.
  intros Hnd r. subst r. unfold detect_all_gaps.
  pose proof (all_gaps_loop (_detect_frequency_gaps db symbols start_date end_date)
                frequencies (frequency_scan_gap_type db symbols start_date end_date)
                [] 0 0) as Hloop.
  rewrite (decide_True (P := 0 = 0)) in Hloop by reflexivity.
  rewrite Hloop by (simpl; auto; lia). clear Hloop.
  cbn [fst snd gaps_by_frequency summary total_gaps symbols_with_gaps gap_types app].
  rewrite <- !list_fmap_compose. cbv zeta.
  rewrite !Z.add_0_l. auto.
Qed.

Lemma detect_all_gaps_totals_witness :
  let r := detect_all_gaps week_db 739271 739277 ["000001.SZ"; "000002.SZ"] ["1d"] in
  total_gaps (summary r) = 1
  /\ gap_types (summary r) = {["date_missing" := 1]}.
Proof.
  intros r.
  destruct (detect_all_gaps_totals week_db 739271 739277 ["000001.SZ"; "000002.SZ"] ["1d"])
    as (Hd & Ht & _ & Hty).
  - apply NoDup_singleton.
  - fold r in Hd, Ht, Hty.
    assert (H1 : total_gaps (summary r) = 1) by (rewrite Ht, Hd; vm_compute; reflexivity).
    split; [exact H1|]. rewrite Hty, H1. reflexivity.
Defined.

End GapScanFacts.

(** ** Batched writer: retries, loading loops, scope exit *)

Section BatchWriterOpsFacts.
Import Store BatchWriter BatchWriterOps.
Context {V : Type} `{EqDecision V}.
Implicit Types (w : writer V) (st : gmap string (table V)) (t : string).
Implicit Types (r : gmap string V) (cols : list string).

Lemma with_failures_0 w : with_failures w 0 = w.
Proof.
  destruct w as [bs af buf [tr tb fb]]. unfold with_failures. simpl.
  rewrite Z.add_0_r. reflexivity.
Qed.

Lemma with_failures_add w a b :
  with_failures (with_failures w a) b = with_failures w (a + b).
Proof. unfold with_failures. simpl. rewrite Z.add_assoc. reflexivity. Qed.

(** A flush on an empty buffer, or one that raises, leaves buffer and
    store as they are and reports no record. *)
Lemma flush_inert w st t :
  buffered w t = [] \/ is_ok (flush w st t).1.1 = false ->
  (flush w st t).1.2 = with_failures w (if is_ok (flush w st t).1.1 then 0 else 1)
  /\ (flush w st t).2 = st
  /\ try_except (flush w st t).1.1 (fun _ => 0) = 0.
Proof.
  intros [Hb|Hf].
  - rewrite (flush_empty w st t Hb). simpl. rewrite with_failures_0. auto.
  - destruct (flush w st t) as [[[n|e] w'] st'] eqn:Hfl; simpl in Hf; [discriminate|].
    apply flush_Raise_inv in Hfl as (-> & -> & _). simpl. auto.
Qed.

Lemma inert_loop (ks : list string) : forall (results : list (string * Z)) w st,
  (forall t, t ∈ ks -> buffered w t = [] \/ is_ok (flush w st t).1.1 = false) ->
  foldl flush_all_step (results, w, st) ks
  = (foldl (fun res k => PyDict.set k 0 res) results ks,
     with_failures w (Z.of_nat (length (failing_tables w st ks))), st).
Proof.
  induction ks as [|k ks IH]; intros results w st Hin.
  - simpl. rewrite with_failures_0. reflexivity.
  - cbn [foldl].
    destruct (flush_inert w st k) as (Hw & Hs & Hr); [apply Hin; left|].
    assert (Hstep : flush_all_step (results, w, st) k
              = (PyDict.set k 0 results,
                 with_failures w (if is_ok (flush w st k).1.1 then 0 else 1), st)).
    { unfold flush_all_step. destruct (flush w st k) as [[rk wk] stk].
      simpl in Hw, Hs, Hr. rewrite Hr, Hw, Hs. reflexivity. }
    rewrite Hstep. clear Hstep.
    set (i := if is_ok (flush w st k).1.1 then 0 else 1).
    assert (Hloc : forall t,
              PyDict.get t (_buffer (with_failures w i)) = PyDict.get t (_buffer w)
              /\ st !! t = st !! t) by (intros t; split; reflexivity).
    rewrite IH.
    + rewrite with_failures_add.
      rewrite (failing_tables_local (with_failures w i) st w st ks) by (intros; apply Hloc).
      assert (Hlen : i + Z.of_nat (length (failing_tables w st ks))
                     = Z.of_nat (length (failing_tables w st (k :: ks)))).
      { unfold failing_tables. subst i.
        destruct (is_ok (flush w st k).1.1) eqn:Hok.
        - rewrite filter_cons_False by (rewrite Hok; discriminate). lia.
        - rewrite filter_cons_True by (rewrite Hok; reflexivity).
          rewrite length_cons. lia. }
      rewrite Hlen. reflexivity.
    + intros t Ht. destruct (Hin t) as [Hb|Hf]; [right; exact Ht|left; exact Hb|right].
      destruct (flush_local (with_failures w i) st w st t) as [-> _]; auto.
Qed.

Lemma flush_keys w st t :
  PyDict.keys (_buffer (flush w st t).1.2) = PyDict.keys (_buffer w).
Proof.
  destruct (flush w st t) as [[[n|e] w'] st'] eqn:Hfl; simpl.
  - apply flush_Ok_inv in Hfl as (_ & [(_ & -> & _)|(rec0 & rest & tbl & Hg & _ & -> & _)]).
    + reflexivity.
    + simpl. apply keys_set_present. eapply get_Some_keys. exact Hg.
  - apply flush_Raise_inv in Hfl as (-> & _). reflexivity.
Qed.

Lemma flush_all_loop_keys (ks : list string) :
  forall (results : list (string * Z)) w st,
  PyDict.keys (_buffer (foldl flush_all_step (results, w, st) ks).1.2)
  = PyDict.keys (_buffer w).
Proof.
  induction ks as [|k ks IH]; intros results w st; [reflexivity|].
  cbn [foldl].
  assert (Hstep : flush_all_step (results, w, st) k
            = (PyDict.set k (try_except (flush w st k).1.1 (fun _ => 0)) results,
               (flush w st k).1.2, (flush w st k).2)).
  { unfold flush_all_step. destruct (flush w st k) as [[rk wk] stk]. reflexivity. }
  rewrite Hstep, IH. apply flush_keys.
Qed.

Lemma set_fresh {A} k (a : A) d :
  k ∉ PyDict.keys d -> PyDict.set k a d = d ++ [(k, a)].
Proof.
  unfold PyDict.keys. induction d as [|[k' a'] d IH]; simpl; intros Hk; [reflexivity|].
  apply not_elem_of_cons in Hk as [Hne Hk].
  rewrite decide_False by congruence. rewrite IH by exact Hk. reflexivity.
Qed.

Lemma buffer_sum_clear t (d : list (string * list (gmap string V))) l :
  PyDict.get t d = Some l ->
  sum_Z ((fun kv => Z.of_nat (length kv.2)) <$> PyDict.set t [] d)
  = sum_Z ((fun kv => Z.of_nat (length kv.2)) <$> d) - Z.of_nat (length l).
Proof.
  induction d as [|[k' a'] d IH]; cbn [PyDict.get PyDict.set]; [discriminate|].
  destruct (decide (k' = t)) as [->|Hne]; intros Hg.
  - injection Hg as ->. rewrite !fmap_cons. cbn [sum_Z foldr snd length]. lia.
  - rewrite !fmap_cons. cbn [sum_Z foldr snd]. fold (sum_Z).
    unfold sum_Z in IH. rewrite IH by exact Hg. lia.
Qed.

(** What one flush does to the counters: the records it reports are
    added to [total_records] and leave the buffers. *)
Lemma flush_accounts w st t :
  let n := try_except (flush w st t).1.1 (fun _ => 0) in
  total_records (_stats (flush w st t).1.2) = total_records (_stats w) + n
  /\ get_buffer_size_all (flush w st t).1.2 = get_buffer_size_all w - n
  /\ n = (if is_ok (flush w st t).1.1 then get_buffer_size w t else 0).
Proof.
  destruct (flush w st t) as [[[n|e] w'] st'] eqn:Hfl; simpl.
  - apply flush_Ok_inv in Hfl as (Hn & [(Hb & -> & _)|(rec0 & rest & tbl & Hg & _ & -> & _)]).
    + assert (n = 0) as -> by (subst n; unfold get_buffer_size; rewrite Hb; reflexivity).
      rewrite !Z.add_0_r, Z.sub_0_r. auto.
    + split; [reflexivity|]. split; [|exact Hn].
      unfold get_buffer_size_all. cbn [count_success _buffer].
      rewrite (buffer_sum_clear _ _ _ Hg).
      subst n. unfold get_buffer_size, buffered. rewrite Hg. reflexivity.
  - apply flush_Raise_inv in Hfl as (-> & _). simpl.
    rewrite Z.add_0_r, Z.sub_0_r. auto.
Qed.

Lemma flush_all_loop_counts (ks : list string) :
  forall (results : list (string * Z)) w st,
  NoDup ks ->
  (forall k, k ∈ ks -> k ∉ PyDict.keys results) ->
  let count := fun k => try_except (flush w st k).1.1 (fun _ => 0) in
  let out := foldl flush_all_step (results, w, st) ks in
  out.1.1 = results ++ ((fun k => (k, count k)) <$> ks)
  /\ total_records (_stats out.1.2)
     = total_records (_stats w) + sum_Z (count <$> ks)
  /\ get_buffer_size_all out.1.2 = get_buffer_size_all w - sum_Z (count <$> ks).
Proof.
  induction ks as [|k ks IH]; intros results w st Hnd Hfresh count out.
  - subst out. simpl. rewrite app_nil_r. split; [reflexivity|]. split; lia.
  - apply NoDup_cons in Hnd as [Hk Hnd].
    subst out. cbn [foldl].
    assert (Hstep : flush_all_step (results, w, st) k
              = (PyDict.set k (count k) results, (flush w st k).1.2, (flush w st k).2)).
    { unfold flush_all_step, count. destruct (flush w st k) as [[rk wk] stk]. reflexivity. }
    rewrite Hstep. clear Hstep.
    rewrite set_fresh by (apply Hfresh; left).
    assert (Hsame : (fun k' => try_except
                       (flush (flush w st k).1.2 (flush w st k).2 k').1.1 (fun _ => 0))
                    <$> ks = count <$> ks).
    { apply Forall_fmap_ext_1, Forall_forall. intros k' Hk'. unfold count.
      assert (Hne : k <> k') by (intros ->; contradiction).
      destruct (flush_other w st k k' Hne) as [Hb Hs].
      destruct (flush_local (flush w st k).1.2 (flush w st k).2 w st k' Hb Hs)
        as [-> _]. reflexivity. }
    destruct (IH (results ++ [(k, count k)]) (flush w st k).1.2 (flush w st k).2 Hnd)
      as (Hres & Htot & Hbuf).
    { intros k' Hk'. unfold PyDict.keys. rewrite fmap_app. simpl.
      rewrite elem_of_app, list_elem_of_singleton. intros [Hin| ->].
      - apply (Hfresh k'); [right; exact Hk'|exact Hin].
      - contradiction. }
    destruct (flush_accounts w st k) as (Ht & Hb & _). fold (count k) in Ht, Hb.
    rewrite Hres, Htot, Hbuf, Ht, Hb.
    rewrite !fmap_cons. cbn [sum_Z foldr]. fold sum_Z.
    rewrite Hsame. rewrite <- app_assoc. simpl.
    split; [|split; unfold sum_Z; lia].
    f_equal. f_equal.
    apply Forall_fmap_ext_1, Forall_forall. intros k' Hk'.
    f_equal.
    assert (Hne : k <> k') by (intros ->; contradiction).
    destruct (flush_other w st k k' Hne) as [Hb' Hs'].
    destruct (flush_local (flush w st k).1.2 (flush w st k).2 w st k' Hb' Hs')
      as [-> _]. reflexivity.
Qed.

(** X8: [flush_all] answers with one entry per buffered table, in the
    order of the buffer's keys: the number of buffered records where the
    table's flush succeeds, 0 where it raises.  The counts add up to the
    growth of [total_records], and to what has left the buffers: every
    record is either written or still buffered. *)
Theorem flush_all_accounts_for_every_record
    (w : writer V) (st : gmap string (table V)) :
  NoDup (PyDict.keys (_buffer w)) ->
  let out := flush_all w st in
  out.1.1 = (fun t => (t, if is_ok (flush w st t).1.1 then get_buffer_size w t else 0))
            <$> PyDict.keys (_buffer w)
  /\ total_records (_stats out.1.2) = total_records (_stats w) + sum_Z (out.1.1.*2)
  /\ get_buffer_size_all w = get_buffer_size_all out.1.2 + sum_Z (out.1.1.*2)
  /\ PyDict.keys (_buffer out.1.2) = PyDict.keys (_buffer w).
Proof.
  intros Hnd out. subst out. unfold flush_all.
  destruct (flush_all_loop_counts (PyDict.keys (_buffer w)) [] w st Hnd)
    as (Hres & Htot & Hbuf).
  { intros k _. apply not_elem_of_nil. }
  rewrite Hres, Htot, Hbuf, flush_all_loop_keys. clear Hres Htot Hbuf.
  rewrite app_nil_l.
  rewrite <- !list_fmap_compose.
  split; [|split; [|split]]; try reflexivity.
  - apply Forall_fmap_ext_1, Forall_forall. intros t _.
    f_equal. apply (flush_accounts w st t).
  - unfold compose. simpl. lia.
Qed.

Lemma filter_ext_in {A} (P Q : A -> Prop) `{!forall x, Decision (P x)}
    `{!forall x, Decision (Q x)} (l : list A) :
  (forall x, x ∈ l -> P x <-> Q x) -> filter P l = filter Q l.
Proof.
  induction l as [|x l IH]; intros Hpq; [reflexivity|].
  assert (Hl : filter P l = filter Q l)
    by (apply IH; intros y Hy; apply Hpq; right; exact Hy).
  destruct (decide (P x)) as [Hp|Hp].
  - rewrite !filter_cons_True; [rewrite Hl; reflexivity| |exact Hp].
    apply (Hpq x); [left|exact Hp].
  - rewrite !filter_cons_False; [exact Hl| |exact Hp].
    intros Hq. apply Hp, (Hpq x); [left|exact Hq].
Qed.

Lemma set_zero_loop (ks : list string) : forall results : list (string * Z),
  NoDup ks -> (forall k, k ∈ ks -> k ∉ PyDict.keys results) ->
  foldl (fun res k => PyDict.set k 0 res) results ks
  = results ++ ((fun k => (k, 0)) <$> ks).
Proof.
  induction ks as [|k ks IH]; intros results Hnd Hfresh; simpl.
  - rewrite app_nil_r. reflexivity.
  - apply NoDup_cons in Hnd as [Hk Hnd].
    rewrite set_fresh by (apply Hfresh; left).
    rewrite IH; [rewrite <- app_assoc; reflexivity|exact Hnd|].
    intros k' Hk'. unfold PyDict.keys. rewrite fmap_app. simpl.
    rewrite elem_of_app, list_elem_of_singleton. intros [Hin| ->].
    + apply (Hfresh k'); [right; exact Hk'|exact Hin].
    + contradiction.
Qed.

(** After [flush_all] a table is either empty or its flush fails as it
    did before. *)
Lemma flush_all_leaves_inert w st t :
  NoDup (PyDict.keys (_buffer w)) ->
  t ∈ PyDict.keys (_buffer w) ->
  let out := flush_all w st in
  (is_ok (flush w st t).1.1 = true /\ buffered out.1.2 t = [])
  \/ (is_ok (flush w st t).1.1 = false
      /\ (flush out.1.2 out.2 t).1.1 = (flush w st t).1.1
      /\ buffered out.1.2 t = buffered w t
      /\ out.2 !! t = st !! t).
Proof.
  intros Hnd Ht out.
  destruct (flush_all_table w st t Hnd Ht) as (_ & Hb & Hs). fold out in Hb, Hs.
  destruct (flush w st t) as [[[n|e] w'] st'] eqn:Hfl.
  - left. split; [reflexivity|].
    destruct (flush_buffered_Ok w st t n) as [_ Hempty]; [rewrite Hfl; reflexivity|].
    rewrite Hfl in Hempty. simpl in Hempty, Hb.
    unfold buffered in *. rewrite Hb. exact Hempty.
  - right. apply flush_Raise_inv in Hfl as Hinv. destruct Hinv as (-> & -> & _).
    simpl in Hb, Hs. split; [reflexivity|].
    destruct (flush_local out.1.2 out.2 w st t Hb Hs) as [Hr _].
    rewrite Hr, Hfl. split; [reflexivity|]. split; [|exact Hs].
    unfold buffered. rewrite Hb. reflexivity.
Qed.

(** X9: a second [flush_all] right after the first writes nothing: the
    store and the buffers stay as the first call left them, every table
    is reported with 0, no record is counted, and each table whose flush
    raised the first time raises again (one more failed batch each). *)
Theorem flush_all_again_writes_nothing
    (w : writer V) (st : gmap string (table V)) :
  NoDup (PyDict.keys (_buffer w)) ->
  let once := flush_all w st in
  let twice := flush_all once.1.2 once.2 in
  twice.2 = once.2
  /\ _buffer twice.1.2 = _buffer once.1.2
  /\ twice.1.1 = (fun t => (t, 0)) <$> PyDict.keys (_buffer w)
  /\ total_records (_stats twice.1.2) = total_records (_stats once.1.2)
  /\ failed_batches (_stats twice.1.2)
     = failed_batches (_stats once.1.2)
       + Z.of_nat (length (failing_tables w st (PyDict.keys (_buffer w)))).
Proof.
  intros Hnd once twice.
  assert (Hkeys : PyDict.keys (_buffer once.1.2) = PyDict.keys (_buffer w))
    by apply flush_all_loop_keys.
  assert (Hin : forall t, t ∈ PyDict.keys (_buffer w) ->
            buffered once.1.2 t = [] \/ is_ok (flush once.1.2 once.2 t).1.1 = false).
  { intros t Ht. destruct (flush_all_leaves_inert w st t Hnd Ht) as [[_ Hb]|(Hf & Hr & _)].
    - left. exact Hb.
    - right. fold once in Hr. rewrite Hr. exact Hf. }
  assert (Hfail : failing_tables once.1.2 once.2 (PyDict.keys (_buffer w))
                  = failing_tables w st (PyDict.keys (_buffer w))).
  { unfold failing_tables. apply filter_ext_in. intros t Ht.
    destruct (flush_all_leaves_inert w st t Hnd Ht) as [[Hok Hb]|(Hf & Hr & _)].
    - fold once in Hb. rewrite (flush_empty _ once.2 t Hb), Hok. reflexivity.
    - fold once in Hr. rewrite Hr. reflexivity. }
  assert (Htwice : twice
            = ((fun t => (t, 0)) <$> PyDict.keys (_buffer w),
               with_failures once.1.2
                 (Z.of_nat (length (failing_tables w st (PyDict.keys (_buffer w))))),
               once.2)).
  { subst twice. unfold flush_all at 1. rewrite Hkeys.
    rewrite (inert_loop _ [] once.1.2 once.2 Hin), Hfail.
    rewrite set_zero_loop; [|exact Hnd|intros k _; apply not_elem_of_nil].
    reflexivity. }
  rewrite Htwice. simpl. auto.
Qed.

Lemma buffer_sum_nonneg (d : list (string * list (gmap string V))) :
  0 <= sum_Z ((fun kv => Z.of_nat (length kv.2)) <$> d).
Proof.
  induction d as [|[k l] d IH]; [reflexivity|].
  rewrite fmap_cons. cbn [sum_Z foldr snd]. unfold sum_Z in IH. lia.
Qed.

Lemma buffer_sum_zero (d : list (string * list (gmap string V))) t :
  sum_Z ((fun kv => Z.of_nat (length kv.2)) <$> d) <= 0 ->
  default [] (PyDict.get t d) = [].
Proof.
  induction d as [|[k l] d IH]; [reflexivity|].
  rewrite fmap_cons. cbn [sum_Z foldr snd PyDict.get]. fold sum_Z.
  pose proof (buffer_sum_nonneg d) as Hnn. unfold sum_Z in Hnn, IH.
  intros Hle. destruct (decide (k = t)) as [_|_].
  - destruct l; [reflexivity|]. simpl in Hle. lia.
  - apply IH. lia.
Qed.

(** X10: leaving the [with] block always leaves the writer and the store
    as [flush_all] leaves them, whether or not anything is buffered, and
    answers [False]: a flush that raises inside is swallowed, its records
    stay buffered and nothing tells the caller. *)
Theorem exit_is_flush_all (w : writer V) (st : gmap string (table V)) :
  __exit__ w st = (false, (flush_all w st).1.2, (flush_all w st).2).
Proof.
  unfold __exit__. destruct (Z.ltb_spec 0 (get_buffer_size_all w)) as [Hpos|Hzero].
  - destruct (flush_all w st) as [[res w'] st']. reflexivity.
  - assert (Hempty : forall t, buffered w t = [])
      by (intros t; apply buffer_sum_zero; exact Hzero).
    unfold flush_all. rewrite inert_loop by (intros t _; left; apply Hempty).
    assert (Hnone : failing_tables w st (PyDict.keys (_buffer w)) = []).
    { unfold failing_tables. induction (PyDict.keys (_buffer w)) as [|k ks IH];
        [reflexivity|].
      rewrite filter_cons_False; [exact IH|].
      rewrite (flush_empty w st k (Hempty k)). discriminate. }
    rewrite Hnone. simpl. rewrite with_failures_0. reflexivity.
Qed.

Lemma has_columns_spec cols r c :
  has_columns cols r -> is_Some (r !! c) <-> c ∈ cols.
Proof.
  unfold has_columns. intros Hdom.
  rewrite <- elem_of_dom, Hdom, elem_of_list_to_set. reflexivity.
Qed.

Lemma params_list_of_app_raise cols (l l' : list (gmap string V)) e :
  params_list_of cols l = Raise e -> params_list_of cols (l ++ l') = Raise e.
Proof.
  induction l as [|r l IH]; simpl; [discriminate|].
  destruct (params_of cols r) as [ps|e0]; simpl; [|auto].
  destruct (params_list_of cols l) as [pss|e1]; simpl; [discriminate|].
  intros Hr. rewrite (IH Hr). reflexivity.
Qed.

Lemma params_list_of_snoc cols (l : list (gmap string V)) r pss :
  params_list_of cols l = Ok pss ->
  params_list_of cols (l ++ [r])
  = rbind (params_of cols r) (fun ps => Ok (pss ++ [ps])).
Proof.
  revert pss. induction l as [|r0 l IH]; intros pss; simpl.
  - intros [= <-]. destruct (params_of cols r); reflexivity.
  - destruct (params_of cols r0) as [ps0|e0]; simpl; [|discriminate].
    destruct (params_list_of cols l) as [pss0|e1]; simpl; [|discriminate].
    intros [= <-]. rewrite (IH pss0 eq_refl).
    destruct (params_of cols r); reflexivity.
Qed.

Lemma run_on_table_raise_grows (tb : option (table V)) cols pss pss' e :
  run_on_table tb cols pss = Raise e -> run_on_table tb cols (pss ++ pss') = Raise e.
Proof.
  unfold run_on_table. destruct tb as [tb|]; [|auto].
  destruct (decide (cols = [])); [auto|].
  destruct (decide (Forall (fun c => c ∈ tbl_columns tb) cols)); [|auto].
  destruct (decide (Forall (fun ps => length ps = length cols) pss)) as [|Hbad];
    [discriminate|].
  intros He. rewrite decide_False; [exact He|].
  intros Hall. apply Hbad. apply Forall_app in Hall. tauto.
Qed.

(** A flush that raises keeps raising when one more record joins the
    table's buffer. *)
Lemma flush_raise_grows w st t w1 data :
  is_ok (flush w st t).1.1 = false ->
  PyDict.get t (_buffer w1) = Some (buffered w t ++ [data]) ->
  exists e', flush w1 st t = (Raise e', count_failure w1, st).
Proof.
  unfold flush at 1, buffered.
  destruct (PyDict.get t (_buffer w)) as [[|rec0 rest]|]; [discriminate| |discriminate].
  change (default [] (Some (rec0 :: rest))) with (rec0 :: rest).
  cbv zeta. intros Hfail Hg1.
  assert (Hraise : exists e',
            rbind (params_list_of (columns_of rec0) ((rec0 :: rest) ++ [data]))
                  (executemany st (InsertOrReplace t (columns_of rec0))) = Raise e').
  { destruct (params_list_of (columns_of rec0) (rec0 :: rest)) as [pss|e0] eqn:Hp.
    - rewrite (params_list_of_snoc _ _ data pss Hp).
      destruct (params_of (columns_of rec0) data) as [ps|e1]; cbn [rbind]; [|eauto].
      cbn [rbind] in Hfail. unfold executemany in *.
      destruct (run_on_table (st !! t) (columns_of rec0) pss) as [tb'|e] eqn:Hrun;
        [discriminate|].
      rewrite (run_on_table_raise_grows _ _ _ [ps] _ Hrun). eauto.
    - rewrite (params_list_of_app_raise _ _ [data] _ Hp). cbn [rbind]. eauto. }
  destruct Hraise as [e' Hraise]. exists e'.
  unfold flush. rewrite Hg1.
  change ((rec0 :: rest) ++ [data]) with (rec0 :: (rest ++ [data])) in *.
  cbv beta iota zeta. rewrite Hraise. reflexivity.
Qed.

(** X11: a table whose flush raises stays blocked.  Flushing it again
    raises the same exception; and once the automatic flush is due, every
    further [add_record] for the table raises as well: the record is
    appended to the buffer all the same, the store is left alone, one
    more failed batch is counted, and the table's flush still raises. *)
Theorem failed_flush_blocks_the_table
    (w : writer V) (st : gmap string (table V)) (t : string) (data : gmap string V) :
  t <> "" ->
  is_ok (flush w st t).1.1 = false ->
  (flush (flush w st t).1.2 (flush w st t).2 t).1.1 = (flush w st t).1.1
  /\ (auto_flush w = true -> batch_size w <= get_buffer_size w t + 1 ->
      let s := add_record w st t data in
      is_ok s.1.1 = false
      /\ buffered s.1.2 t = buffered w t ++ [data]
      /\ s.2 = st
      /\ failed_batches (_stats s.1.2) = failed_batches (_stats w) + 1
      /\ total_records (_stats s.1.2) = total_records (_stats w)
      /\ is_ok (flush s.1.2 s.2 t).1.1 = false).
Proof.
  intros Ht Hfail. split.
  - destruct (flush w st t) as [[[n|e] w'] st'] eqn:Hfl; [discriminate|].
    apply flush_Raise_inv in Hfl as Hinv. destruct Hinv as (-> & -> & _). simpl.
    destruct (flush_local (count_failure w) st w st t eq_refl eq_refl) as [-> _].
    rewrite Hfl. reflexivity.
  - intros Hauto Hdue s.
    destruct (add_record_unfold w st t data Ht) as (Hflush & _ & Hbuf & _).
    specialize (Hflush (conj Hauto Hdue)).
    set (w1 := mk_writer (batch_size w) (auto_flush w)
                 (PyDict.set t (buffered w t ++ [data]) (_buffer w)) (_stats w)) in *.
    assert (Hg1 : PyDict.get t (_buffer w1) = Some (buffered w t ++ [data]))
      by apply get_set_eq.
    destruct (flush_raise_grows w st t w1 data Hfail Hg1) as [e' Hfl1].
    rewrite Hfl1 in Hflush. cbn [fst snd rbind] in Hflush.
    subst s. rewrite Hflush. cbn [fst snd is_ok count_failure _buffer _stats
                                   failed_batches total_records].
    split; [reflexivity|]. split; [exact Hbuf|]. split; [reflexivity|].
    split; [reflexivity|]. split; [reflexivity|].
    destruct (flush_local (count_failure w1) st w1 st t eq_refl eq_refl) as [-> _].
    rewrite Hfl1. reflexivity.
Qed.

Lemma insert_or_replace_columns (tbl : table V) rows :
  tbl_columns (foldl insert_or_replace tbl rows) = tbl_columns tbl.
Proof.
  revert tbl. induction rows as [|r rows IH]; intros tbl; [reflexivity|].
  simpl. rewrite IH. reflexivity.
Qed.

Lemma buffered_cons_get w t rec0 rest :
  buffered w t = rec0 :: rest -> PyDict.get t (_buffer w) = Some (rec0 :: rest).
Proof.
  unfold buffered. destruct (PyDict.get t (_buffer w)) as [l|]; simpl;
    [intros ->; reflexivity|discriminate].
Qed.

(** The flush of a buffer of records that all have the columns [cols],
    columns of the table: it succeeds and applies them in order. *)
Lemma flush_fits w st t cols tbl pending :
  cols <> [] ->
  Forall (fun c => c ∈ tbl_columns tbl) cols ->
  buffered w t = pending ->
  Forall (has_columns cols) pending ->
  st !! t = Some tbl ->
  exists w',
    flush w st t
    = (Ok (Z.of_nat (length pending)), w', <[t := foldl insert_or_replace tbl pending]> st)
    /\ buffered w' t = []
    /\ batch_size w' = batch_size w /\ auto_flush w' = auto_flush w
    /\ total_records (_stats w') = total_records (_stats w) + Z.of_nat (length pending)
    /\ failed_batches (_stats w') = failed_batches (_stats w).
Proof.
  intros Hne Hcols Hbuf Hfit Htbl. destruct pending as [|rec0 rest].
  - exists w. rewrite (flush_empty w st t Hbuf). simpl.
    rewrite insert_id by exact Htbl. rewrite Z.add_0_r.
    split; [reflexivity|]. split; [exact Hbuf|]. auto.
  - apply buffered_cons_get in Hbuf.
    apply Forall_cons in Hfit as [Hrec0 Hrest].
    exists (count_success w t (Z.of_nat (length (rec0 :: rest)))).
    rewrite (flush_accepts w st t rec0 rest tbl Hbuf Htbl).
    + assert (Hrows : stored_row (columns_of rec0) <$> rec0 :: rest = rec0 :: rest).
      { rewrite <- (list_fmap_id (rec0 :: rest)) at 2.
        apply Forall_fmap_ext_1, Forall_forall. intros r Hr.
        apply stored_row_covering. intros c Hc.
        apply elem_of_columns_of, (has_columns_spec cols rec0 c Hrec0).
        apply (has_columns_spec cols r c); [|exact Hc].
        apply elem_of_cons in Hr as [->|Hr]; [exact Hrec0|].
        rewrite Forall_forall in Hrest. apply Hrest, Hr. }
      rewrite Hrows. split; [reflexivity|].
      split; [unfold buffered; simpl; rewrite get_set_eq; reflexivity|].
      simpl. auto.
    + destruct cols as [|c cols]; [contradiction|].
      intros Hempty. assert (Hc : is_Some (rec0 !! c))
        by (apply (has_columns_spec (c :: cols) rec0 c Hrec0); left).
      rewrite Hempty, lookup_empty in Hc. destruct Hc as [? [=]].
    + intros c Hc. rewrite Forall_forall in Hcols. apply Hcols.
      apply (has_columns_spec cols rec0 c Hrec0), Hc.
    + eapply Forall_impl; [exact Hrest|]. intros r Hr c Hc. simpl.
      apply (has_columns_spec cols r c Hr), (has_columns_spec cols rec0 c Hrec0), Hc.
Qed.

Lemma add_records_loop t cols (tbl0 : table V) :
  t <> "" -> cols <> [] ->
  Forall (fun c => c ∈ tbl_columns tbl0) cols ->
  forall records w st pending tbl,
  buffered w t = pending ->
  Forall (has_columns cols) pending ->
  Forall (has_columns cols) records ->
  st !! t = Some tbl ->
  tbl_columns tbl = tbl_columns tbl0 ->
  let loaded := add_records w st t records in
  let done := flush loaded.1.2 loaded.2 t in
  loaded.1.1 = Ok tt
  /\ is_ok done.1.1 = true
  /\ done.2 = <[t := foldl insert_or_replace tbl (pending ++ records)]> st
  /\ buffered done.1.2 t = []
  /\ total_records (_stats done.1.2)
     = total_records (_stats w) + Z.of_nat (length pending) + Z.of_nat (length records)
  /\ failed_batches (_stats done.1.2) = failed_batches (_stats w).
Proof.
  intros Ht Hne Hcols records.
  induction records as [|r records IH];
    intros w st pending tbl Hbuf Hpend Hrecs Htbl Hsame loaded done.
  - subst loaded done. cbn [add_records fst snd].
    destruct (flush_fits w st t cols tbl pending Hne) as (w' & Hfl & Hb & _ & _ & Htot & Hf);
      auto.
    { rewrite Hsame. exact Hcols. }
    rewrite Hfl. cbn [fst snd is_ok]. rewrite app_nil_r, Htot, Hf.
    split; [reflexivity|]. split; [reflexivity|]. split; [reflexivity|].
    split; [exact Hb|]. split; [simpl; lia|reflexivity].
  - apply Forall_cons in Hrecs as [Hr Hrecs].
    destruct (add_record_unfold w st t r Ht) as (Hflush & Hkeep & Hbuf1 & _).
    set (w1 := mk_writer (batch_size w) (auto_flush w)
                 (PyDict.set t (buffered w t ++ [r]) (_buffer w)) (_stats w)) in *.
    assert (Hpend1 : Forall (has_columns cols) (pending ++ [r]))
      by (apply Forall_app; split; [exact Hpend|constructor; [exact Hr|constructor]]).
    rewrite Hbuf in Hbuf1.
    destruct (decide (auto_flush w = true /\ batch_size w <= get_buffer_size w t + 1))
      as [Hdue|Hnot].
    + specialize (Hflush Hdue).
      destruct (flush_fits w1 st t cols tbl (pending ++ [r]) Hne)
        as (w2 & Hfl & Hb2 & _ & _ & Htot & Hf); auto.
      { rewrite Hsame. exact Hcols. }
      rewrite Hfl in Hflush. cbn [fst snd rbind] in Hflush.
      set (tbl2 := foldl insert_or_replace tbl (pending ++ [r])) in *.
      destruct (IH w2 (<[t := tbl2]> st) [] tbl2 Hb2) as (H1 & H2 & H3 & H4 & H5 & H6).
      { constructor. }
      { exact Hrecs. }
      { apply lookup_insert_eq. }
      { subst tbl2. rewrite insert_or_replace_columns. exact Hsame. }
      subst loaded done. cbn [add_records]. rewrite Hflush.
      split; [exact H1|]. split; [exact H2|].
      split; [rewrite H3, insert_insert_eq; subst tbl2; simpl;
              rewrite <- foldl_app, <- app_assoc; reflexivity|].
      split; [exact H4|].
      rewrite H5, H6, Htot, Hf. simpl. rewrite length_app, length_cons. simpl.
      split; [lia|reflexivity].
    + specialize (Hkeep Hnot).
      destruct (IH w1 st (pending ++ [r]) tbl Hbuf1 Hpend1 Hrecs Htbl Hsame)
        as (H1 & H2 & H3 & H4 & H5 & H6).
      subst loaded done. cbn [add_records]. rewrite Hkeep.
      split; [exact H1|]. split; [exact H2|].
      split; [rewrite H3, <- app_assoc; reflexivity|].
      split; [exact H4|].
      rewrite H5, H6. simpl. rewrite length_app, length_cons. simpl.
      split; [lia|reflexivity].
Qed.

(** X12: loading records through the writer and flushing once at the
    end stores what applying them one by one stores, whatever
    [batch_size] and [auto_flush] are: when the records all carry the same
    columns, columns of the table, no [add_record] raises, the final
    flush succeeds and the table is the old one with every record
    inserted-or-replaced in the order given; every record is counted once
    and no batch fails. *)
Theorem batched_load_equals_row_by_row
    (w : writer V) (st : gmap string (table V)) (t : string) (tbl : table V)
    (cols : list string) (records : list (gmap string V)) :
  t <> "" ->
  buffered w t = [] ->
  st !! t = Some tbl ->
  cols <> [] ->
  Forall (fun c => c ∈ tbl_columns tbl) cols ->
  Forall (has_columns cols) records ->
  let loaded := add_records w st t records in
  let done := flush loaded.1.2 loaded.2 t in
  loaded.1.1 = Ok tt
  /\ is_ok done.1.1 = true
  /\ done.2 = <[t := foldl insert_or_replace tbl records]> st
  /\ buffered done.1.2 t = []
  /\ total_records (_stats done.1.2)
     = total_records (_stats w) + Z.of_nat (length records)
  /\ failed_batches (_stats done.1.2) = failed_batches (_stats w).
Proof.
  intros Ht Hbuf Htbl Hne Hcols Hrecs loaded done.
  destruct (add_records_loop t cols tbl Ht Hne Hcols records w st [] tbl Hbuf)
    as (H1 & H2 & H3 & H4 & H5 & H6); auto.
  fold loaded in H1, H2, H3, H4, H5, H6. fold done in H2, H3, H4, H5, H6.
  rewrite app_nil_l in H3. simpl in H5. rewrite Z.add_0_r in H5.
  repeat (split; [assumption|]). assumption.
Qed.

(** X13: when [add_record] returns, the number it returns is the number
    of records the table's buffer holds afterwards.  A positive number
    means the record was only buffered (store untouched); 0 means the
    automatic flush ran and wrote the whole buffer.  With [auto_flush]
    a successful call therefore never leaves [batch_size] or more records
    buffered for the table. *)
Theorem add_record_returns_buffer_size
    (w : writer V) (st : gmap string (table V)) (t : string) (data : gmap string V)
    (n : Z) :
  (add_record w st t data).1.1 = Ok n ->
  let s := add_record w st t data in
  t <> ""
  /\ get_buffer_size s.1.2 t = n
  /\ ((0 < n /\ n = get_buffer_size w t + 1 /\ s.2 = st
       /\ buffered s.1.2 t = buffered w t ++ [data])
      \/ (n = 0 /\ auto_flush w = true /\ batch_size w <= get_buffer_size w t + 1
          /\ buffered s.1.2 t = []))
  /\ (auto_flush w = true -> n = 0 \/ n < batch_size w).
Proof.
  intros Hok s. subst s.
  destruct (decide (t = "")) as [->|Ht].
  { unfold add_record in Hok. rewrite decide_True in Hok by reflexivity. discriminate. }
  split; [exact Ht|].
  destruct (add_record_unfold w st t data Ht) as (Hflush & Hkeep & Hbuf1 & Hsize1).
  set (w1 := mk_writer (batch_size w) (auto_flush w)
               (PyDict.set t (buffered w t ++ [data]) (_buffer w)) (_stats w)) in *.
  assert (Hpos : 0 < get_buffer_size w t + 1) by (unfold get_buffer_size; lia).
  destruct (decide (auto_flush w = true /\ batch_size w <= get_buffer_size w t + 1))
    as [Hdue|Hnot].
  - specialize (Hflush Hdue). rewrite Hflush in Hok |- *. cbn [fst snd] in Hok |- *.
    destruct ((flush w1 st t).1.1) as [m|e] eqn:Hfl; [|discriminate].
    cbn [rbind] in Hok. injection Hok as <-.
    destruct (flush_buffered_Ok w1 st t m Hfl) as [_ Hempty].
    split; [unfold get_buffer_size; rewrite Hempty; reflexivity|].
    split; [right; tauto|]. left. reflexivity.
  - specialize (Hkeep Hnot). rewrite Hkeep in Hok |- *. cbn [fst snd] in Hok |- *.
    injection Hok as <-.
    split; [exact Hsize1|].
    split; [left; split; [exact Hpos|]; split; [reflexivity|];
            split; [reflexivity|exact Hbuf1]|].
    intros Hauto. right. apply Z.lt_nge. intros Hle. apply Hnot. split; assumption.
Qed.

(** X14: records dropped by [clear_buffer(table)] are never written: a
    later [flush_all] leaves that table of the store as it is, and does to
    every other table what it would have done without the call.  Without
    a table name [clear_buffer] empties the buffer altogether: [flush_all]
    then reports nothing and changes nothing. *)
Theorem cleared_records_are_never_written
    (w : writer V) (st : gmap string (table V)) (t : string) :
  NoDup (PyDict.keys (_buffer w)) ->
  let w' := clear_buffer w (Some t) in
  get_buffer_size w' t = 0
  /\ (flush_all w' st).2 !! t = st !! t
  /\ (forall t', t' <> t -> (flush_all w' st).2 !! t' = (flush_all w st).2 !! t')
  /\ (forall t', t' <> t -> buffered w' t' = buffered w t')
  /\ flush_all (clear_buffer w None) st = ([], clear_buffer w None, st).
Proof.
  intros Hnd w'.
  assert (Hkeys : PyDict.keys (_buffer w') = PyDict.keys (_buffer w)).
  { subst w'. unfold clear_buffer.
    destruct (PyDict.get t (_buffer w)) as [l|] eqn:Hg; [|reflexivity].
    simpl. apply keys_set_present. eapply get_Some_keys. exact Hg. }
  assert (Hempty : buffered w' t = []).
  { subst w'. unfold clear_buffer, buffered.
    destruct (PyDict.get t (_buffer w)) as [l|] eqn:Hg.
    - simpl. rewrite get_set_eq. reflexivity.
    - rewrite Hg. reflexivity. }
  assert (Hother : forall t', t' <> t ->
            PyDict.get t' (_buffer w') = PyDict.get t' (_buffer w)).
  { intros t' Hne. subst w'. unfold clear_buffer.
    destruct (PyDict.get t (_buffer w)) as [l|]; [|reflexivity].
    simpl. apply get_set_ne. congruence. }
  assert (Hnd' : NoDup (PyDict.keys (_buffer w'))) by (rewrite Hkeys; exact Hnd).
  assert (Hout : forall (v : writer V) t0, t0 ∉ PyDict.keys (_buffer v) ->
            NoDup (PyDict.keys (_buffer v)) -> (flush_all v st).2 !! t0 = st !! t0).
  { intros v t0 Hnot Hv. unfold flush_all.
    destruct (flush_all_loop (PyDict.keys (_buffer v)) [] v st Hv) as (_ & Hrest & _).
    apply (Hrest t0 Hnot). }
  split; [unfold get_buffer_size; rewrite Hempty; reflexivity|].
  split; [|split; [|split]].
  - destruct (decide (t ∈ PyDict.keys (_buffer w'))) as [Hin|Hnot].
    + destruct (flush_all_table w' st t Hnd' Hin) as (_ & _ & ->).
      rewrite (flush_empty w' st t Hempty). reflexivity.
    + apply Hout; assumption.
  - intros t' Hne.
    destruct (decide (t' ∈ PyDict.keys (_buffer w))) as [Hin|Hnot].
    + destruct (flush_all_table w st t' Hnd Hin) as (_ & _ & ->).
      rewrite <- Hkeys in Hin.
      destruct (flush_all_table w' st t' Hnd' Hin) as (_ & _ & ->).
      apply (flush_local w' st w st t' (Hother t' Hne) eq_refl).
    + rewrite (Hout w t' Hnot Hnd). apply Hout; [rewrite Hkeys; exact Hnot|exact Hnd'].
  - intros t' Hne. unfold buffered. rewrite (Hother t' Hne). reflexivity.
  - reflexivity.
Qed.

End BatchWriterOpsFacts.

Section BatchWriterOpsExamples.
Import Store BatchWriter BatchWriterOps.

Lemma flush_all_accounts_for_every_record_witness :
  NoDup (PyDict.keys (_buffer isolation_writer))
  /\ (flush_all isolation_writer test_store).1.1
     = [("test_table_a", 0); ("test_table_b", 2)].
Proof.
  assert (Hnd : NoDup (PyDict.keys (_buffer isolation_writer)))
    by (apply (bool_decide_unpack _); vm_compute; reflexivity).
  split; [exact Hnd|].
  destruct (flush_all_accounts_for_every_record isolation_writer test_store Hnd)
    as (Hres & _).
  rewrite Hres. vm_compute. reflexivity.
Defined.

Lemma flush_all_again_writes_nothing_witness :
  NoDup (PyDict.keys (_buffer isolation_writer))
  /\ (flush_all (flush_all isolation_writer test_store).1.2
                (flush_all isolation_writer test_store).2).2
     = (flush_all isolation_writer test_store).2.
Proof.
  assert (Hnd : NoDup (PyDict.keys (_buffer isolation_writer)))
    by (apply (bool_decide_unpack _); vm_compute; reflexivity).
  split; [exact Hnd|].
  exact (proj1 (flush_all_again_writes_nothing isolation_writer test_store Hnd)).
Defined.

Lemma failed_flush_blocks_the_table_witness :
  "test_table_a" <> ""
  /\ is_ok (flush isolation_writer test_store "test_table_a").1.1 = false
  /\ is_ok (add_record isolation_writer test_store "test_table_a"
              (record_a 3 "test3" 300)).1.1 = false.
Proof.
  assert (Ht : "test_table_a" <> "") by discriminate.
  assert (Hf : is_ok (flush isolation_writer test_store "test_table_a").1.1 = false)
    by (vm_compute; reflexivity).
  split; [exact Ht|]. split; [exact Hf|].
  destruct (failed_flush_blocks_the_table isolation_writer test_store "test_table_a"
              (record_a 3 "test3" 300) Ht Hf) as [_ Hadd].
  apply Hadd; [reflexivity|vm_compute; discriminate].
Defined.

Lemma batched_load_equals_row_by_row_witness :
  let records := [record_a 1 "a" 10; record_a 2 "b" 20; record_a 1 "c" 30] in
  let loaded := add_records (new_writer 2 true) test_store "test_table_a" records in
  (flush loaded.1.2 loaded.2 "test_table_a").2
  = <["test_table_a" := foldl insert_or_replace table_a records]> test_store.
Proof.
  intros records loaded.
  refine (proj1 (proj2 (proj2
    (batched_load_equals_row_by_row (new_writer 2 true) test_store "test_table_a"
       table_a ["id"; "name"; "value"] records _ _ _ _ _ _)))).
  - discriminate.
  - reflexivity.
  - vm_compute. reflexivity.
  - discriminate.
  - apply (bool_decide_unpack _). vm_compute. reflexivity.
  - repeat constructor; unfold has_columns;
      apply (bool_decide_unpack _); vm_compute; reflexivity.
Defined.

Lemma add_record_returns_buffer_size_witness :
  (add_record (new_writer 3 true) test_store "test_table_a" (record_a 1 "a" 10)).1.1
  = Ok 1
  /\ get_buffer_size
       (add_record (new_writer 3 true) test_store "test_table_a"
          (record_a 1 "a" 10)).1.2 "test_table_a" = 1.
Proof.
  assert (Hok : (add_record (new_writer 3 true) test_store "test_table_a"
                   (record_a 1 "a" 10)).1.1 = Ok 1) by reflexivity.
  split; [exact Hok|].
  exact (proj1 (proj2 (add_record_returns_buffer_size _ _ _ _ _ Hok))).
Defined.

Lemma cleared_records_are_never_written_witness :
  NoDup (PyDict.keys (_buffer isolation_writer))
  /\ (flush_all (clear_buffer isolation_writer (Some "test_table_b")) test_store).2
       !! "test_table_b" = Some table_b.
Proof.
  assert (Hnd : NoDup (PyDict.keys (_buffer isolation_writer)))
    by (apply (bool_decide_unpack _); vm_compute; reflexivity).
  split; [exact Hnd|].
  destruct (cleared_records_are_never_written isolation_writer test_store
              "test_table_b" Hnd) as (_ & -> & _).
  reflexivity.
Defined.

End BatchWriterOpsExamples.

(** ** Validator: the issue list of a record *)

Section ValidatorOpsFacts.
Import Validator ValidatorOps.
Context {F : Type} `{FloatOps F}.

Implicit Types (record : gmap string (pyval F)) (cfg : config F).
Implicit Types (P : issue F -> Prop).

Lemma appends_ret {A} P (a : A) : appends P (ret a).
Proof. intros issues. exists []. rewrite app_nil_r. split; [reflexivity|constructor]. Qed.

Lemma appends_lift {A} P (r : result A) : appends P (lift r).
Proof. intros issues. exists []. rewrite app_nil_r. split; [reflexivity|constructor]. Qed.

Lemma appends_append P i : P i -> appends P (append i).
Proof. intros Hi issues. exists [i]. split; [reflexivity|repeat constructor; exact Hi]. Qed.

Lemma appends_when P b m : appends P m -> appends P (when b m).
Proof. intros Hm. destruct b; [exact Hm|apply appends_ret]. Qed.

Lemma appends_bind {A B} P (m : check A) (k : A -> check B) :
  appends P m -> (forall a, appends P (k a)) -> appends P (bind m k).
Proof.
  intros Hm Hk issues. unfold bind. destruct (Hm issues) as (e1 & He1 & Hp1).
  destruct (m issues) as [issues1 [a|e]]; simpl in He1; subst issues1.
  - destruct (Hk a (issues ++ e1)) as (e2 & He2 & Hp2).
    exists (e1 ++ e2). rewrite He2, app_assoc. split; [reflexivity|].
    apply Forall_app; split; assumption.
  - exists e1. split; [reflexivity|exact Hp1].
Qed.

Lemma value_issue_new record types ty :
  ty ∈ types -> value_issue record types (new_issue record ty None).
Proof. intros Hty. repeat split; exact Hty || reflexivity. Qed.

(** Closes a goal from the membership [H] of a string in a list of
    other strings. *)
Ltac not_listed H :=
  repeat (apply elem_of_cons in H as [H|H]; [discriminate H|]);
  apply elem_of_nil in H; contradiction.

Ltac appends_step :=
  first
    [ apply appends_when
    | apply appends_lift
    | apply appends_ret
    | apply appends_append, value_issue_new; set_solver
    | apply appends_bind; [|intros ?] ].

Lemma check_prices_appends record :
  appends (value_issue record ["invalid_price"; "price_logic_error"])
          (check_prices record).
Proof. unfold check_prices. repeat appends_step. Qed.

Lemma check_volume_appends cfg record :
  appends (value_issue record ["invalid_volume"; "low_volume"])
          (check_volume cfg record).
Proof.
  unfold check_volume. repeat appends_step.
  match goal with |- context [if ?b then _ else _] => destruct b end;
    repeat appends_step.
Qed.

Lemma check_quality_appends cfg record :
  appends (value_issue record ["low_quality"]) (check_quality cfg record).
Proof. unfold check_quality. repeat appends_step. Qed.

Lemma check_change_appends cfg record :
  appends (value_issue record ["extreme_change"]) (check_change cfg record).
Proof. unfold check_change. repeat appends_step. Qed.

Lemma check_change_absent cfg record :
  present record "preclose" = false -> check_change cfg record = ret tt.
Proof.
  intros Hp. unfold check_change. cbn [forallb]. rewrite Hp, andb_false_r.
  reflexivity.
Qed.

Lemma for_each_when_append (b : string -> bool) (g : string -> issue F)
    (l : list string) : forall issues,
  for_each l (fun x => when (b x) (append (g x))) issues
  = (issues ++ (g <$> filter (fun x => b x = true) l), Ok tt).
Proof.
  induction l as [|x l IH]; intros issues; cbn [for_each].
  - unfold ret. rewrite app_nil_r. reflexivity.
  - unfold bind. destruct (b x) eqn:Hb; cbn [when].
    + unfold append at 1. rewrite IH.
      rewrite filter_cons_True by exact Hb. rewrite fmap_cons, <- app_assoc.
      reflexivity.
    + unfold ret at 1. rewrite IH.
      rewrite filter_cons_False by (rewrite Hb; discriminate). reflexivity.
Qed.

Lemma check_required_missing record issues :
  check_required record issues = (issues ++ missing_issues record, Ok tt).
Proof.
  unfold check_required, missing_issues. rewrite for_each_when_append.
  do 3 f_equal. apply filter_ext_in. intros fld _.
  destruct (present record fld); simpl; split; congruence.
Qed.

(** The issue list of the [try] block, check by check. *)
Lemma checks_shape cfg record :
  exists prices volume quality change r,
    checks cfg record [] = (missing_issues record ++ prices ++ volume ++ quality ++ change, r)
    /\ Forall (value_issue record ["invalid_price"; "price_logic_error"]) prices
    /\ Forall (value_issue record ["invalid_volume"; "low_volume"]) volume
    /\ Forall (value_issue record ["low_quality"]) quality
    /\ Forall (value_issue record ["extreme_change"]) change
    /\ (present record "preclose" = false -> change = []).
Proof.
  unfold checks. unfold bind at 1. rewrite check_required_missing. rewrite app_nil_l.
  unfold bind at 1.
  destruct (check_prices_appends record (missing_issues record)) as (a & Ha & Hpa).
  destruct (check_prices record (missing_issues record)) as [i1 [[]|e]];
    simpl in Ha; subst i1.
  2:{ exists a, [], [], [], (Raise e). rewrite !app_nil_r. repeat split; auto. }
  unfold bind at 1.
  destruct (check_volume_appends cfg record (missing_issues record ++ a)) as (b & Hb & Hpb).
  destruct (check_volume cfg record (missing_issues record ++ a)) as [i2 [[]|e]];
    simpl in Hb; subst i2.
  2:{ exists a, b, [], [], (Raise e). rewrite !app_nil_r, <- app_assoc.
      repeat split; auto. }
  unfold bind at 1.
  destruct (check_quality_appends cfg record ((missing_issues record ++ a) ++ b))
    as (c & Hc & Hpc).
  destruct (check_quality cfg record ((missing_issues record ++ a) ++ b))
    as [i3 [[]|e]]; simpl in Hc; subst i3.
  2:{ exists a, b, c, [], (Raise e). rewrite !app_nil_r, <- !app_assoc.
      repeat split; auto. }
  destruct (check_change_appends cfg record (((missing_issues record ++ a) ++ b) ++ c))
    as (d & Hd & Hpd).
  destruct (check_change cfg record (((missing_issues record ++ a) ++ b) ++ c))
    as [i4 r] eqn:Hch; simpl in Hd; subst i4.
  exists a, b, c, d, r. rewrite <- !app_assoc.
  split; [reflexivity|]. split; [exact Hpa|]. split; [exact Hpb|].
  split; [exact Hpc|]. split; [exact Hpd|].
  intros Hp. rewrite (check_change_absent cfg record Hp) in Hch.
  unfold ret in Hch. injection Hch as Hch _.
  assert (Hnil : (((missing_issues record ++ a) ++ b) ++ c) ++ []
                 = (((missing_issues record ++ a) ++ b) ++ c) ++ d)
    by (rewrite app_nil_r; exact Hch).
  apply app_inv_head in Hnil. symmetry. exact Hnil.
Qed.

(** X15: the issues of one record come in the order of the checks:
    first a [missing_field] issue for exactly each required field that is
    absent or [None] (in the fixed order of the fields, each naming its
    field), then the price issues, the volume issue, the quality issue and
    the change issue, each without a field and without an exception, and
    last at most one [validation_error], which carries the exception.
    Every issue carries the record's own [trade_date]. *)
Theorem validate_record_issues_by_check cfg record (frequency : string) :
  exists prices volume quality change tail,
    _validate_record cfg record frequency
    = missing_issues record ++ prices ++ volume ++ quality ++ change ++ tail
    /\ Forall (value_issue record ["invalid_price"; "price_logic_error"]) prices
    /\ Forall (value_issue record ["invalid_volume"; "low_volume"]) volume
    /\ Forall (value_issue record ["low_quality"]) quality
    /\ Forall (value_issue record ["extreme_change"]) change
    /\ (tail = []
        \/ exists e, tail = [mk_issue "validation_error" None
                               (get_trade_date record) (Some e)])
    /\ Forall (fun i => trade_date i = get_trade_date record)
              (_validate_record cfg record frequency).
Proof.
  destruct (checks_shape cfg record)
    as (a & b & c & d & r & Hch & Ha & Hb & Hc & Hd & _).
  assert (Hdate : forall types l, Forall (value_issue record types) l ->
            Forall (fun i => trade_date i = get_trade_date record) l).
  { intros types l Hl. eapply Forall_impl; [exact Hl|].
    intros i (_ & _ & Hi & _). exact Hi. }
  assert (Hmiss : Forall (fun i => trade_date i = get_trade_date record)
                         (missing_issues record)).
  { unfold missing_issues. apply Forall_fmap, Forall_forall. intros fld _. reflexivity. }
  unfold _validate_record. rewrite Hch.
  destruct r as [[]|e].
  - exists a, b, c, d, []. rewrite app_nil_r.
    split; [reflexivity|]. split; [exact Ha|]. split; [exact Hb|].
    split; [exact Hc|]. split; [exact Hd|]. split; [left; reflexivity|].
    repeat (apply Forall_app; split); eauto.
  - exists a, b, c, d,
      [mk_issue "validation_error" None (get_trade_date record) (Some e)].
    rewrite <- !app_assoc.
    split; [reflexivity|]. split; [exact Ha|]. split; [exact Hb|].
    split; [exact Hc|]. split; [exact Hd|]. split; [right; eauto|].
    repeat (apply Forall_app; split); eauto.
Qed.

(** X16: the change check never fires on a row of [_get_symbol_data]:
    the query selects [prev_close], the check reads [preclose], so for a
    record whose keys are among the query's columns no issue is an
    [extreme_change], whatever the prices are. *)
Theorem queried_rows_never_flag_extreme_change cfg record (frequency : string) :
  dom record ⊆ (list_to_set query_columns : gset string) ->
  forall i, i ∈ _validate_record cfg record frequency ->
            issue_type i <> "extreme_change".
Proof.
  intros Hdom.
  assert (Hp : present record "preclose" = false).
  { unfold present. destruct (record !! "preclose") as [v|] eqn:Hl; [|reflexivity].
    exfalso. assert (Hin : "preclose" ∈ dom record) by (apply elem_of_dom; eauto).
    apply Hdom in Hin. apply elem_of_list_to_set in Hin.
    unfold query_columns in Hin. not_listed Hin. }
  destruct (checks_shape cfg record)
    as (a & b & c & d & r & Hch & Ha & Hb & Hc & _ & Hd).
  rewrite (Hd Hp), app_nil_r in Hch.
  assert (Hother : forall i, i ∈ missing_issues record ++ a ++ b ++ c ->
            issue_type i <> "extreme_change").
  { intros i. rewrite !elem_of_app. unfold missing_issues.
    rewrite Forall_forall in Ha, Hb, Hc.
    intros [Hi|[Hi|[Hi|Hi]]].
    - apply list_elem_of_fmap in Hi as (fld & -> & _). discriminate.
    - destruct (Ha i Hi) as (Hty & _). intros Heq. rewrite Heq in Hty. not_listed Hty.
    - destruct (Hb i Hi) as (Hty & _). intros Heq. rewrite Heq in Hty. not_listed Hty.
    - destruct (Hc i Hi) as (Hty & _). intros Heq. rewrite Heq in Hty. not_listed Hty. }
  intros i. unfold _validate_record. rewrite Hch. destruct r as [[]|e].
  - apply Hother.
  - rewrite elem_of_app, list_elem_of_singleton. intros [Hi| ->];
      [apply Hother, Hi|discriminate].
Qed.

Lemma count_record_issues (f : gmap string (pyval F) -> list (issue F))
    (data : list (gmap string (pyval F))) : forall v i a,
  exists v' i',
    foldl (count_record (fun r => Ok (f r))) (Ok (v, i, a)) data
    = Ok (v', i', a ++ mjoin (f <$> data))
    /\ i <= i'
    /\ (i' = i <-> mjoin (f <$> data) = []).
Proof.
  induction data as [|r data IH]; intros v i a.
  - exists v, i. simpl. rewrite app_nil_r. split; [reflexivity|]. split; [lia|tauto].
  - cbn [foldl].
    assert (Hstep : count_record (fun r => Ok (f r)) (Ok (v, i, a)) r
                    = match f r with
                      | [] => Ok (v + 1, i, a)
                      | _ => Ok (v, i + 1, a ++ f r)
                      end).
    { unfold count_record. simpl. destruct (f r); reflexivity. }
    rewrite Hstep. clear Hstep. rewrite fmap_cons. cbn [mjoin list_join].
    destruct (f r) as [|x xs] eqn:Hf.
    + destruct (IH (v + 1) i a) as (v' & i' & Heq & Hle & Hiff).
      exists v', i'. rewrite Heq. simpl. auto.
    + destruct (IH v (i + 1) (a ++ x :: xs)) as (v' & i' & Heq & Hle & Hiff).
      exists v', i'. rewrite Heq, <- app_assoc.
      split; [reflexivity|]. split; [lia|].
      split; [intros ->; lia|discriminate].
Qed.

(** X17: the [issues] of a symbol are the issue lists of its records,
    one after the other in the order of the rows; [data_quality_stats]
    is computed from the same rows; no record is counted invalid exactly
    when there is no issue at all.  A query that raises gives the result
    of a symbol without rows: all counts 0, no issue and no [error]. *)
Theorem validate_symbol_data_collects_issues cfg
    (fetchall : result (list (gmap string (pyval F)))) (symbol frequency : string) :
  let r := validate_symbol_data cfg fetchall symbol frequency in
  let data := _get_symbol_data fetchall in
  issues r = mjoin ((fun record => _validate_record cfg record frequency) <$> data)
  /\ data_quality_stats r = _calculate_quality_stats data
  /\ (invalid_records r = 0 <-> issues r = [])
  /\ (is_ok fetchall = false ->
      r = mk_symbol_result symbol frequency None 0 0 0 [] None).
Proof.
  intros r data. subst r.
  unfold validate_symbol_data, validate_symbol_data_with. cbn [rbind]. fold data.
  destruct data as [|r0 data'] eqn:Hdata.
  - simpl. split; [reflexivity|]. split; [reflexivity|]. split; [tauto|reflexivity].
  - destruct (count_record_issues (fun record => _validate_record cfg record frequency)
                (r0 :: data') 0 0 []) as (v' & i' & Heq & Hle & Hiff).
    rewrite Heq. cbn [rbind try_except issues data_quality_stats invalid_records].
    rewrite app_nil_l.
    split; [reflexivity|]. split; [reflexivity|]. split; [exact Hiff|].
    intros Hfail. destruct fetchall as [rows|e]; [discriminate|].
    unfold data, _get_symbol_data in Hdata. simpl in Hdata. discriminate.
Qed.

Lemma quality_scores_length (data : list (gmap string (pyval F))) : forall qs,
  quality_scores data = Ok qs ->
  length qs = length (filter (fun r => present r "quality_score" = true) data).
Proof.
  induction data as [|r data IH]; intros qs; cbn [quality_scores].
  - intros [= <-]. reflexivity.
  - destruct (present r "quality_score") eqn:Hp.
    + rewrite filter_cons_True by exact Hp.
      destruct (rbind (getitem r "quality_score") float) as [q|e]; [|discriminate].
      cbn [rbind]. destruct (quality_scores data) as [qs'|e]; [|discriminate].
      cbn [rbind]. intros [= <-]. rewrite !length_cons, (IH qs' eq_refl). reflexivity.
    + rewrite filter_cons_False by (rewrite Hp; discriminate). apply IH.
Qed.

(** X18: when [_calculate_quality_stats] gives statistics, their
    [quality_count] is the number of records that carry a
    [quality_score] (present and not [None]), and it is positive; when no
    record carries one the answer is the empty dict. *)
Theorem quality_stats_count_scored_records (data : list (gmap string (pyval F))) :
  let scored := filter (fun r => present r "quality_score" = true) data in
  match _calculate_quality_stats data with
  | Some s => quality_count s = Z.of_nat (length scored) /\ 0 < quality_count s
  | None => True
  end
  /\ (scored = [] -> _calculate_quality_stats data = None).
Proof.
  intros scored. unfold _calculate_quality_stats.
  destruct data as [|r0 data']; [simpl; auto|].
  set (recs := r0 :: data') in *.
  destruct (quality_scores recs) as [qs|e] eqn:Hqs; cbn [rbind try_except].
  2:{ split; [exact I|reflexivity]. }
  pose proof (quality_scores_length recs qs Hqs) as Hlen. fold scored in Hlen.
  destruct qs as [|q qs]; cbn [try_except].
  - split; [exact I|reflexivity].
  - split.
    + destruct (mean (q :: qs)); cbn [rbind try_except]; [|exact I].
      destruct (minimum (q :: qs)); cbn [rbind try_except]; [|exact I].
      destruct (maximum (q :: qs)); cbn [rbind try_except]; [|exact I].
      destruct (median (q :: qs)); cbn [rbind try_except]; [|exact I].
      cbn [quality_count]. rewrite <- Hlen, length_cons. lia.
    + intros Hnil. rewrite Hnil in Hlen. discriminate.
Qed.

End ValidatorOpsFacts.

Section ValidatorOpsExamples.
Import Validator ValidatorOps.

Lemma queried_rows_never_flag_extreme_change_witness :
  let record := <["prev_close" := PInt 1]>
                  (bar (PInt 10) (PInt 12) (PInt 9) (PInt 11) (PInt 1000)) in
  dom record ⊆ (list_to_set query_columns : gset string)
  /\ Forall (fun i => issue_type i <> "extreme_change")
            (_validate_record example_config record "1d").
Proof.
  intros record.
  assert (Hdom : dom record ⊆ (list_to_set query_columns : gset string))
    by (apply (bool_decide_unpack _); vm_compute; reflexivity).
  split; [exact Hdom|]. apply Forall_forall.
  exact (queried_rows_never_flag_extreme_change example_config record "1d" Hdom).
Defined.

End ValidatorOpsExamples.

(** ** Validator: the tallies of one frequency *)

Section ValidatorScanFacts.
Import Validator ValidatorScan.
Context {F : Type} `{FloatOps F}.
Variable ge_int : F -> Z -> bool.

Implicit Types (validate : string -> result (symbol_result F)).
Implicit Types (d : gmap string Z) (sr : symbol_result F).

Lemma lookup_increment k k' d :
  default 0 (increment k d !! k')
  = default 0 (d !! k') + (if decide (k = k') then 1 else 0).
Proof.
  unfold increment. destruct (decide (k = k')) as [->|Hne].
  - rewrite lookup_insert_eq. reflexivity.
  - rewrite lookup_insert_ne by exact Hne. lia.
Qed.

Lemma lookup_increment_issues (l : list (issue F)) : forall d ty,
  default 0 (foldl (fun d i => increment (issue_type i) d) d l !! ty)
  = default 0 (d !! ty)
    + Z.of_nat (length (filter (fun i => issue_type i = ty) l)).
Proof.
  induction l as [|i l IH]; intros d ty; simpl; [lia|].
  rewrite IH, lookup_increment.
  destruct (decide (issue_type i = ty)) as [Heq|Hne].
  - rewrite filter_cons_True by exact Heq. rewrite length_cons. lia.
  - rewrite filter_cons_False by exact Hne. lia.
Qed.

Lemma frequency_loop_tallies validate (symbols : list string) :
  forall acc : frequency_result,
  let out := foldl (frequency_step ge_int validate) acc symbols in
  let results := returned validate symbols in
  fr_total_symbols out = fr_total_symbols acc
  /\ fr_total_records out = fr_total_records acc + sum_Z (total_records <$> results)
  /\ fr_valid_records out = fr_valid_records acc + sum_Z (valid_records <$> results)
  /\ fr_invalid_records out
     = fr_invalid_records acc + sum_Z (invalid_records <$> results)
       + Z.of_nat (length (filter (fun s => is_ok (validate s) = false) symbols))
  /\ fr_symbols_with_issues out
     = fr_symbols_with_issues acc ++ filter (fun s => flagged validate s = true) symbols
  /\ (forall ty,
        default 0 (fr_issue_types out !! ty)
        = default 0 (fr_issue_types acc !! ty)
          + Z.of_nat (length (filter (fun i => issue_type i = ty)
                                (mjoin (issues <$> results)))))
  /\ (forall k,
        default 0 (fr_quality_distribution out !! k)
        = default 0 (fr_quality_distribution acc !! k)
          + Z.of_nat (length (filter (fun sr => error sr = None
                                               /\ quality_range ge_int sr = k)
                                results))).
Proof.
  induction symbols as [|s symbols IH]; intros acc.
  - simpl. rewrite app_nil_r. repeat (split; [lia|]). split; [reflexivity|].
    split; intros; lia.
  - cbn [foldl]. specialize (IH (frequency_step ge_int validate acc s)).
    cbv zeta in IH. destruct IH as (H1 & H2 & H3 & H4 & H5 & H6 & H7).
    cbv zeta. rewrite H1, H2, H3, H4, H5. clear H1 H2 H3 H4 H5.
    unfold returned. cbn [omap list_omap]. fold (returned validate symbols).
    unfold flagged at 2. unfold frequency_step in *.
    destruct (validate s) as [sr|e] eqn:Hv.
    + cbn [fr_total_symbols fr_total_records fr_valid_records fr_invalid_records
           fr_symbols_with_issues fr_issue_types fr_quality_distribution] in *.
      rewrite filter_cons_False by (rewrite Hv; discriminate).
      rewrite !fmap_cons. cbn [sum_Z foldr mjoin list_join]. fold sum_Z.
      split; [reflexivity|]. split; [unfold sum_Z; lia|]. split; [unfold sum_Z; lia|].
      split; [unfold sum_Z; lia|].
      split.
      { destruct (issues sr) as [|i0 rest0] eqn:Hi.
        - rewrite filter_cons_False; [reflexivity|].
          unfold flagged. rewrite Hv, Hi. discriminate.
        - rewrite filter_cons_True; [rewrite <- app_assoc; reflexivity|].
          unfold flagged. rewrite Hv, Hi. reflexivity. }
      split.
      { intros ty. rewrite H6, lookup_increment_issues, filter_app, length_app, Nat2Z.inj_add. symmetry. apply Z.add_assoc. }
      intros k. rewrite H7. destruct (error sr) as [e|] eqn:He.
      * rewrite filter_cons_False; [reflexivity|]. intros [Hn _]. congruence.
      * rewrite lookup_increment.
        destruct (decide (quality_range ge_int sr = k)) as [Hk|Hk].
        -- rewrite filter_cons_True by (split; [exact He|exact Hk]).
           rewrite length_cons. lia.
        -- rewrite filter_cons_False by (intros [_ Hq]; contradiction). lia.
    + cbn [fr_total_symbols fr_total_records fr_valid_records fr_invalid_records
           fr_symbols_with_issues fr_issue_types fr_quality_distribution] in *.
      rewrite filter_cons_True by (rewrite Hv; reflexivity).
      rewrite filter_cons_False by (unfold flagged; rewrite Hv; discriminate).
      rewrite length_cons.
      split; [reflexivity|]. split; [reflexivity|]. split; [reflexivity|].
      split; [lia|]. split; [reflexivity|]. split; [exact H6|exact H7].
Qed.

(** X19: what [_validate_frequency_data] adds up, whatever
    [validate_symbol_data] does.  The record counts are the sums over the
    symbols whose validation returned, and every symbol whose validation
    raised is counted as one invalid record; [symbols_with_issues] lists,
    in the order given, the symbols whose result has issues;
    [issue_types] holds for each type the number of issues of that type;
    [quality_distribution] holds for each range the number of results
    without [error] that fall in it. *)
Theorem frequency_validation_tallies validate (symbols : list string)
    (frequency : string) :
  let r := _validate_frequency_data_with ge_int validate symbols frequency in
  let results := returned validate symbols in
  fr_total_symbols r = Z.of_nat (length symbols)
  /\ fr_total_records r = sum_Z (total_records <$> results)
  /\ fr_valid_records r = sum_Z (valid_records <$> results)
  /\ fr_invalid_records r
     = sum_Z (invalid_records <$> results)
       + Z.of_nat (length (filter (fun s => is_ok (validate s) = false) symbols))
  /\ fr_symbols_with_issues r = filter (fun s => flagged validate s = true) symbols
  /\ (forall ty,
        default 0 (fr_issue_types r !! ty)
        = Z.of_nat (length (filter (fun i => issue_type i = ty)
                              (mjoin (issues <$> results)))))
  /\ (forall k,
        default 0 (fr_quality_distribution r !! k)
        = Z.of_nat (length (filter (fun sr => error sr = None
                                             /\ quality_range ge_int sr = k)
                              results))).
Proof.
  intros r results. subst r results. unfold _validate_frequency_data_with.
  destruct (frequency_loop_tallies validate symbols
              (mk_frequency_result frequency (Z.of_nat (length symbols)) 0 0 0 ∅ [] ∅))
    as (H1 & H2 & H3 & H4 & H5 & H6 & H7).
  rewrite H1, H2, H3, H4, H5.
  cbn [fr_total_symbols fr_total_records fr_valid_records fr_invalid_records
       fr_symbols_with_issues].
  split; [reflexivity|]. split; [lia|]. split; [lia|]. split; [lia|].
  split; [reflexivity|].
  split.
  - intros ty. rewrite H6. cbn [fr_issue_types]. rewrite lookup_empty. reflexivity.
  - intros k. rewrite H7. cbn [fr_quality_distribution]. rewrite lookup_empty.
    reflexivity.
Qed.

Lemma validate_symbol_data_counts (cfg : config F)
    (fetchall : result (list (gmap string (pyval F)))) (symbol frequency : string) :
  let r := validate_symbol_data cfg fetchall symbol frequency in
  error r = None
  /\ total_records r = Z.of_nat (length (_get_symbol_data fetchall))
  /\ total_records r = valid_records r + invalid_records r.
Proof.
  intros r.
  pose proof (validate_symbol_data_no_error cfg fetchall symbol frequency) as Hne.
  fold r in Hne. split; [exact Hne|].
  destruct (validate_symbol_data_with_cases (Ok (_get_symbol_data fetchall))
              (fun record => Ok (_validate_record cfg record frequency))
              (fun data_records => Ok (_calculate_quality_stats data_records))
              symbol frequency) as [[e He]|(data' & Hd & _ & Ht & _ & _ & Hs)].
  - change (r = mk_symbol_result symbol frequency (Some e) 0 0 0 [] None) in He.
    rewrite He in Hne. discriminate.
  - injection Hd as <-. split; [exact Ht|exact Hs].
Qed.

Lemma returned_all (f : string -> symbol_result F) (l : list string) :
  returned (fun s => Ok (f s)) l = f <$> l.
Proof.
  unfold returned. induction l as [|s l IH]; [reflexivity|].
  rewrite fmap_cons, <- IH. reflexivity.
Qed.

Lemma none_raising (f : string -> symbol_result F) (l : list string) :
  filter (fun s => is_ok (Ok (f s)) = false) l = [].
Proof.
  induction l as [|s l IH]; [reflexivity|].
  rewrite filter_cons_False by (simpl; discriminate). exact IH.
Qed.

(** X20: with the validator's own [validate_symbol_data] the tallies of
    a frequency are consistent: the total is the number of fetched rows
    and equals valid plus invalid; [symbols_with_issues] lists the
    symbols that have an invalid record; and every symbol is tallied in
    exactly one quality range, a symbol without rows (or whose query
    failed) under [very_poor]. *)
Theorem frequency_validation_is_consistent (cfg : config F)
    (fetchall : string -> result (list (gmap string (pyval F))))
    (symbols : list string) (frequency : string) :
  let r := _validate_frequency_data ge_int cfg fetchall symbols frequency in
  let result_of := fun s => validate_symbol_data cfg (fetchall s) s frequency in
  fr_total_records r = fr_valid_records r + fr_invalid_records r
  /\ fr_total_records r
     = sum_Z ((fun s => Z.of_nat (length (_get_symbol_data (fetchall s)))) <$> symbols)
  /\ fr_symbols_with_issues r
     = filter (fun s => invalid_records (result_of s) <> 0) symbols
  /\ (forall k,
        default 0 (fr_quality_distribution r !! k)
        = Z.of_nat (length (filter (fun s => quality_range ge_int (result_of s) = k)
                              symbols)))
  /\ (forall s, _get_symbol_data (fetchall s) = [] ->
                quality_range ge_int (result_of s) = "very_poor").
Proof.
  intros r result_of. subst r. unfold _validate_frequency_data.
  set (validate := fun symbol => Ok (result_of symbol)).
  change (fun symbol => Ok (validate_symbol_data cfg (fetchall symbol) symbol frequency))
    with validate.
  pose proof (returned_all result_of symbols) as Hret.
  pose proof (none_raising result_of symbols) as Hnone.
  change (returned validate symbols = result_of <$> symbols) in Hret.
  change (filter (fun s => is_ok (validate s) = false) symbols = []) in Hnone.
  destruct (frequency_loop_tallies validate symbols
              (mk_frequency_result frequency (Z.of_nat (length symbols)) 0 0 0 ∅ [] ∅))
    as (_ & H2 & H3 & H4 & H5 & _ & H7).
  fold (_validate_frequency_data_with ge_int validate symbols frequency)
    in H2, H3, H4, H5, H7.
  cbn [fr_total_records fr_valid_records fr_invalid_records
       fr_symbols_with_issues fr_quality_distribution] in H2, H3, H4, H5, H7.
  rewrite Hret in H2, H3, H4, H7. rewrite Hnone in H4.
  rewrite H2, H3, H4, H5. clear H2 H3 H4 H5 Hret Hnone.
  split; [|split; [|split; [|split]]].
  - clear H7. induction symbols as [|s l IH]; [reflexivity|].
    rewrite !fmap_cons. cbn [sum_Z foldr]. fold sum_Z.
    destruct (validate_symbol_data_counts cfg (fetchall s) s frequency) as (_ & _ & Hs).
    fold (result_of s) in Hs. unfold sum_Z in *. simpl in *. lia.
  - clear H7. rewrite !Z.add_0_l. induction symbols as [|s l IH]; [reflexivity|].
    rewrite !fmap_cons. cbn [sum_Z foldr]. fold sum_Z.
    destruct (validate_symbol_data_counts cfg (fetchall s) s frequency) as (_ & Ht & _).
    fold (result_of s) in Ht. rewrite Ht. unfold sum_Z in *. rewrite IH. reflexivity.
  - rewrite app_nil_l. apply filter_ext_in. intros s _.
    unfold flagged, validate.
    destruct (validate_symbol_data_collects_issues cfg (fetchall s) s frequency)
      as (_ & _ & Hiff & _). fold (result_of s) in Hiff.
    destruct (issues (result_of s)) as [|i0 rest0].
    + split; [discriminate|]. intros Hn. exfalso. apply Hn, Hiff. reflexivity.
    + split; [|reflexivity]. intros _ Hz. apply Hiff in Hz. discriminate.
  - intros k. rewrite H7, lookup_empty. cbn [default]. rewrite Z.add_0_l. f_equal.
    clear H7. induction symbols as [|s l IH]; [reflexivity|].
    rewrite fmap_cons.
    destruct (validate_symbol_data_counts cfg (fetchall s) s frequency) as (He & _).
    fold (result_of s) in He.
    destruct (decide (quality_range ge_int (result_of s) = k)) as [Hk|Hk].
    + rewrite !filter_cons_True; [|exact Hk|split; [exact He|exact Hk]].
      rewrite !length_cons, IH. reflexivity.
    + rewrite !filter_cons_False; [exact IH|exact Hk|intros [_ Hq]; contradiction].
  - intros s Hempty.
    destruct (validate_symbol_data_collects_issues cfg (fetchall s) s frequency)
      as (_ & Hstats & _). fold (result_of s) in Hstats.
    unfold quality_range, avg_quality_or_0. rewrite Hstats, Hempty. reflexivity.
Qed.

End ValidatorScanFacts.

(** ** Sync manager: planning again, repairing gaps *)

Section PlanningAgainFacts.
Import SyncManager.

Implicit Types (db : database) (symbols : list string) (target_date : date).

Lemma delete_pending_idempotent db target_date :
  delete_pending (delete_pending db target_date) target_date
  = delete_pending db target_date.
Proof.
  unfold delete_pending. simpl. f_equal.
  apply list_filter_filter_l. auto.
Qed.

Lemma plan_store db now symbols target_date :
  (_get_extended_data_symbols_to_process db now symbols target_date).1
  = delete_pending db target_date.
Proof.
  unfold _get_extended_data_symbols_to_process. destruct symbols; reflexivity.
Qed.

(** X21: the planning pass can be repeated: run again on the store it
    left, at the same store time, it leaves that store as it is and
    returns the same list; and the list it returns is a sublist of
    [symbols], in their order. *)
Theorem planning_pass_is_idempotent db (now : Z) symbols target_date :
  let once := _get_extended_data_symbols_to_process db now symbols target_date in
  _get_extended_data_symbols_to_process once.1 now symbols target_date = once
  /\ once.2 `sublist_of` symbols.
Proof.
  intros once. split.
  - subst once. rewrite plan_store.
    unfold _get_extended_data_symbols_to_process.
    rewrite delete_pending_idempotent. reflexivity.
  - subst once. rewrite plan_filter. apply sublist_filter.
Qed.

(** X22: freshness only decays: on the same store, a symbol planned at
    one store time is planned at every later one. *)
Theorem planning_pass_grows_with_time db (now later : Z) symbols target_date
    (s : string) :
  now <= later ->
  s ∈ (_get_extended_data_symbols_to_process db now symbols target_date).2 ->
  s ∈ (_get_extended_data_symbols_to_process db later symbols target_date).2.
Proof.
  intros Hle. rewrite !plan_elem. intros (Hin & Hnc & Hmiss).
  split; [exact Hin|]. split; [exact Hnc|].
  destruct Hmiss as [Hf|Hrest]; [left|right; exact Hrest].
  intros (r & Hr & Hs & Hd & Hfresh). apply Hf.
  exists r. repeat (split; [assumption|]). lia.
Qed.

Lemma planning_pass_grows_with_time_witness :
  noon <= noon + 3600
  /\ "000006.SZ" ∈ (_get_extended_data_symbols_to_process recent_pending_db
                      (noon + 3600) ["000006.SZ"] target_20250124).2.
Proof.
  assert (Hle : noon <= noon + 3600) by (unfold noon; lia).
  split; [exact Hle|].
  apply (planning_pass_grows_with_time recent_pending_db noon (noon + 3600)
           ["000006.SZ"] target_20250124 "000006.SZ" Hle).
  apply (bool_decide_unpack _). vm_compute. reflexivity.
Defined.

End PlanningAgainFacts.

Section GapRepairFacts.
Import GapDetector GapScan GapRepair.
Context {W : Type}.
Variable stock_list_date : W -> string -> result (option (option date)) * W.
Variable get_daily_data : W -> string -> date -> date -> result bool * W.
Variable process_symbol_data :
  W -> string -> date -> date -> string -> result Z * W.

Local Abbreviation fix_loop := (fix_loop stock_list_date get_daily_data process_symbol_data).
Local Abbreviation _auto_fix_gaps :=
  (_auto_fix_gaps stock_list_date get_daily_data process_symbol_data).

Lemma fix_loop_counts (gaps : list gap) : forall fixed fa w fixed' w',
  fix_loop gaps fixed fa w = (Ok fixed', w') ->
  attempted_fixes fixed = fa ->
  0 <= fa <= max_fixes ->
  fx_total_gaps fixed' = fx_total_gaps fixed
  /\ attempted_fixes fixed <= attempted_fixes fixed' <= max_fixes
  /\ successful_fixes fixed' + failed_fixes fixed' - attempted_fixes fixed'
     = successful_fixes fixed + failed_fixes fixed - attempted_fixes fixed
  /\ successful_fixes fixed <= successful_fixes fixed'
  /\ failed_fixes fixed <= failed_fixes fixed'
  /\ skipped_fixes fixed <= skipped_fixes fixed'
  /\ (attempted_fixes fixed' - attempted_fixes fixed)
     + (skipped_fixes fixed' - skipped_fixes fixed)
     <= Z.of_nat (length (filter (fun g => repairable g = true) gaps)).
Proof.
  induction gaps as [|g gaps IH]; intros fixed fa w fixed' w' Hrun Hfa Hbound;
    cbn [GapRepair.fix_loop] in Hrun.
  - injection Hrun as <- <-. simpl. lia.
  - destruct (Z.leb_spec max_fixes fa) as [Hmax|Hlt].
    { injection Hrun as <- <-.
      pose proof (Nat2Z.is_nonneg
                    (length (filter (fun g => repairable g = true) (g :: gaps)))).
      lia. }
    destruct (repairable g) eqn:Hrep; cbn [negb] in Hrun.
    2:{ rewrite filter_cons_False by (rewrite Hrep; discriminate).
        apply (IH _ _ _ _ _ Hrun Hfa Hbound). }
    rewrite filter_cons_True by exact Hrep. rewrite length_cons.
    destruct (stock_list_date w (symbol g)) as [[[[d|]|]|e] w1]; [| | |discriminate].
    + destruct (start_date g <? d).
      * apply IH in Hrun; [|exact Hfa|exact Hbound].
        cbn [fx_total_gaps attempted_fixes successful_fixes failed_fixes
             skipped_fixes] in Hrun. lia.
      * destruct (get_daily_data w1 (symbol g) (start_date g) (end_date g))
          as [[[|]|e] w2]; [| |discriminate].
        -- destruct (process_symbol_data w2 (symbol g) (start_date g) (end_date g)
                       (frequency g)) as [[n|e] w3].
           ++ apply IH in Hrun; [|simpl; lia|lia].
              cbn [fx_total_gaps attempted_fixes successful_fixes failed_fixes
                   skipped_fixes] in Hrun. destruct (0 <? n); lia.
           ++ apply IH in Hrun; [|simpl; lia|lia].
              cbn [fx_total_gaps attempted_fixes successful_fixes failed_fixes
                   skipped_fixes] in Hrun. lia.
        -- apply IH in Hrun; [|simpl; lia|lia].
           cbn [fx_total_gaps attempted_fixes successful_fixes failed_fixes
                skipped_fixes] in Hrun. lia.
    + destruct (get_daily_data w1 (symbol g) (start_date g) (end_date g))
        as [[[|]|e] w2]; [| |discriminate].
      * destruct (process_symbol_data w2 (symbol g) (start_date g) (end_date g)
                    (frequency g)) as [[n|e] w3].
        -- apply IH in Hrun; [|simpl; lia|lia].
           cbn [fx_total_gaps attempted_fixes successful_fixes failed_fixes
                skipped_fixes] in Hrun. destruct (0 <? n); lia.
        -- apply IH in Hrun; [|simpl; lia|lia].
           cbn [fx_total_gaps attempted_fixes successful_fixes failed_fixes
                skipped_fixes] in Hrun. lia.
      * apply IH in Hrun; [|simpl; lia|lia].
        cbn [fx_total_gaps attempted_fixes successful_fixes failed_fixes
             skipped_fixes] in Hrun. lia.
    + apply IH in Hrun; [|exact Hfa|exact Hbound]. lia.
Qed.

Lemma auto_fix_gaps_loop gap_result w :
  _auto_fix_gaps gap_result w
  = fix_loop (all_gaps gap_result)
      (mk_fix_result (total_gaps (summary gap_result)) 0 0 0 0) 0 w.
Proof.
  unfold GapRepair._auto_fix_gaps. destruct (all_gaps gap_result); reflexivity.
Qed.

(** X23: when [_auto_fix_gaps] returns, at most 10 repairs were
    attempted, every attempted repair is counted as successful or as
    failed, attempted and skipped repairs together are at most the gaps
    of frequency [1d] with a symbol, and [total_gaps] is the summary's
    count, whatever the store, the data source and the processing engine
    do. *)
Theorem auto_fix_gaps_counts (gap_result : detection_result) (w w' : W)
    (fixed : fix_result) :
  _auto_fix_gaps gap_result w = (Ok fixed, w') ->
  fx_total_gaps fixed = total_gaps (summary gap_result)
  /\ 0 <= attempted_fixes fixed <= 10
  /\ attempted_fixes fixed = successful_fixes fixed + failed_fixes fixed
  /\ 0 <= successful_fixes fixed /\ 0 <= failed_fixes fixed /\ 0 <= skipped_fixes fixed
  /\ attempted_fixes fixed + skipped_fixes fixed
     <= Z.of_nat (length (filter (fun g => repairable g = true)
                            (all_gaps gap_result))).
Proof.
  rewrite auto_fix_gaps_loop. intros Hrun.
  apply fix_loop_counts in Hrun; [|reflexivity|unfold max_fixes; lia].
  cbn [fx_total_gaps attempted_fixes successful_fixes failed_fixes skipped_fixes]
    in Hrun.
  unfold max_fixes in Hrun. lia.
Qed.

Lemma fix_loop_passes_over (gaps : list gap) : forall fixed fa w,
  Forall (fun g => repairable g = false) gaps ->
  fix_loop gaps fixed fa w = (Ok fixed, w).
Proof.
  induction gaps as [|g gaps IH]; intros fixed fa w Hall; cbn [GapRepair.fix_loop];
    [reflexivity|].
  apply Forall_cons in Hall as [Hg Hall].
  destruct (max_fixes <=? fa); [reflexivity|].
  rewrite Hg. cbn [negb]. apply IH, Hall.
Qed.

(** X24: gaps of another frequency than [1d] (or without a symbol) are
    never repaired: when no gap is of that kind, [_auto_fix_gaps] returns
    all counters 0 and the store and the data source are left as they
    were, no call having been made. *)
Theorem auto_fix_gaps_only_daily (gap_result : detection_result) (w : W) :
  Forall (fun g => frequency g <> "1d" \/ symbol g = "") (all_gaps gap_result) ->
  _auto_fix_gaps gap_result w
  = (Ok (mk_fix_result (total_gaps (summary gap_result)) 0 0 0 0), w).
Proof.
  intros Hall. rewrite auto_fix_gaps_loop. apply fix_loop_passes_over.
  eapply Forall_impl; [exact Hall|]. intros g Hg. unfold repairable.
  destruct Hg as [Hf| ->]; [|reflexivity].
  apply String.eqb_neq in Hf. rewrite Hf. apply andb_false_r.
Qed.

Lemma fix_loop_returns (gaps : list gap) :
  (forall w s, is_ok (stock_list_date w s).1 = true) ->
  (forall w s a b, is_ok (get_daily_data w s a b).1 = true) ->
  forall fixed fa w, is_ok (fix_loop gaps fixed fa w).1 = true.
Proof.
  intros Hstock Hdata.
  induction gaps as [|g gaps IH]; intros fixed fa w; cbn [GapRepair.fix_loop];
    [reflexivity|].
  destruct (max_fixes <=? fa); [reflexivity|].
  destruct (negb (repairable g)); [apply IH|].
  specialize (Hstock w (symbol g)).
  destruct (stock_list_date w (symbol g)) as [[[[d|]|]|e] w1]; simpl in Hstock;
    [| | |discriminate].
  - destruct (start_date g <? d); [apply IH|].
    specialize (Hdata w1 (symbol g) (start_date g) (end_date g)).
    destruct (get_daily_data w1 (symbol g) (start_date g) (end_date g))
      as [[[|]|e] w2]; simpl in Hdata; [| |discriminate].
    + destruct (process_symbol_data w2 (symbol g) (start_date g) (end_date g)
                  (frequency g)) as [[n|e] w3]; apply IH.
    + apply IH.
  - specialize (Hdata w1 (symbol g) (start_date g) (end_date g)).
    destruct (get_daily_data w1 (symbol g) (start_date g) (end_date g))
      as [[[|]|e] w2]; simpl in Hdata; [| |discriminate].
    + destruct (process_symbol_data w2 (symbol g) (start_date g) (end_date g)
                  (frequency g)) as [[n|e] w3]; apply IH.
    + apply IH.
  - apply IH.
Qed.

(** X25: [_auto_fix_gaps] returns whenever the stock lookup and the data
    source do: an exception of the processing engine is a failed fix,
    never an exception of the repair. *)
Theorem auto_fix_gaps_returns (gap_result : detection_result) (w : W) :
  (forall w s, is_ok (stock_list_date w s).1 = true) ->
  (forall w s a b, is_ok (get_daily_data w s a b).1 = true) ->
  is_ok (_auto_fix_gaps gap_result w).1 = true.
Proof.
  intros Hstock Hdata. rewrite auto_fix_gaps_loop.
  apply fix_loop_returns; assumption.
Qed.

End GapRepairFacts.

Section GapRepairExamples.
Import GapDetector GapScan GapRepair.

Lemma auto_fix_gaps_counts_witness :
  let gap_result := detect_all_gaps week_db 739271 739277
                      ["000001.SZ"; "000002.SZ"] ["1d"] in
  GapRepair._auto_fix_gaps listed_stock source_with_data three_records gap_result 0
  = (Ok (mk_fix_result 1 1 1 0 0), 3)
  /\ 0 <= 1 <= 10.
Proof.
  intros gap_result.
  assert (Hrun : GapRepair._auto_fix_gaps listed_stock source_with_data three_records
                   gap_result 0 = (Ok (mk_fix_result 1 1 1 0 0), 3))
    by (vm_compute; reflexivity).
  split; [exact Hrun|].
  exact (proj1 (proj2 (auto_fix_gaps_counts listed_stock source_with_data
                         three_records gap_result 0 3 _ Hrun))).
Defined.

Lemma auto_fix_gaps_only_daily_witness :
  let gap_result := detect_all_gaps week_db 739271 739277
                      ["000001.SZ"; "000002.SZ"] ["5m"] in
  Forall (fun g => frequency g <> "1d" \/ symbol g = "") (all_gaps gap_result)
  /\ GapRepair._auto_fix_gaps listed_stock source_with_data three_records gap_result 0
     = (Ok (mk_fix_result 2 0 0 0 0), 0).
Proof.
  intros gap_result.
  assert (Hall : Forall (fun g => frequency g <> "1d" \/ symbol g = "")
                        (all_gaps gap_result)).
  { apply (bool_decide_unpack _). vm_compute. reflexivity. }
  split; [exact Hall|].
  exact (auto_fix_gaps_only_daily listed_stock source_with_data three_records
           gap_result 0 Hall).
Defined.

Lemma auto_fix_gaps_returns_witness :
  let gap_result := detect_all_gaps week_db 739271 739277
                      ["000001.SZ"; "000002.SZ"] ["1d"] in
  is_ok (GapRepair._auto_fix_gaps listed_stock source_with_data three_records
           gap_result 0).1 = true.
Proof.
  intros gap_result.
  apply (auto_fix_gaps_returns listed_stock source_with_data three_records);
    intros; reflexivity.
Defined.

End GapRepairExamples.

(** ** Gap detector: the scan over the supported tables *)

Section TableGapsFacts.
Import GapDetector GapScan TableGaps.
Variable fetchall : string -> result (list table_row).

Implicit Types (db : database) (t sym : string) (symbols tables : list string).

Lemma detect_date_gaps_fields sym tds ex freq g :
  g ∈ _detect_date_gaps sym tds ex freq ->
  symbol g = sym /\ frequency g = freq /\ gap_type g = "date_missing".
Proof.
  rewrite detect_date_gaps_merge. intros Hg.
  apply list_elem_of_fmap in Hg as (r & -> & _). repeat split.
Qed.

(** The frequency the gaps of a supported table carry. *)
Lemma supported_table_cases t cfg :
  PyDict.get t supported_tables = Some cfg ->
  t ∈ PyDict.keys supported_tables
  /\ or_1d (frequency_column cfg)
     = (if bool_decide (t ∈ ["market_data"; "technical_indicators"])
        then "frequency" else "1d").
Proof.
  intros Hget. split; [eapply get_Some_keys; exact Hget|].
  unfold supported_tables in Hget. cbn [PyDict.get] in Hget.
  repeat match type of Hget with
         | context [decide (?k = t)] =>
             destruct (decide (k = t)) as [<-|?];
               [injection Hget as <-; reflexivity|]
         end.
  discriminate.
Qed.

Lemma symbol_table_gaps_fields db t sym (s e : date) :
  match _detect_symbol_table_gaps fetchall db t sym s e with
  | Ok gaps =>
      t ∈ PyDict.keys supported_tables
      /\ Forall (fun g =>
                   tg_table_name g = t /\ symbol (tg_gap g) = sym
                   /\ gap_type (tg_gap g) = "date_missing"
                   /\ frequency (tg_gap g)
                      = (if bool_decide (t ∈ ["market_data"; "technical_indicators"])
                         then "frequency" else "1d")) gaps
  | Raise err => (t ∉ PyDict.keys supported_tables) /\ err = KeyError t
  end.
Proof.
  unfold _detect_symbol_table_gaps.
  destruct (PyDict.get t supported_tables) as [cfg|] eqn:Hget.
  - destruct (supported_table_cases t cfg Hget) as [Hin Hfreq].
    destruct (_get_trading_days db s e) as [|d tds]; [split; [exact Hin|constructor]|].
    split; [exact Hin|]. apply Forall_fmap, Forall_forall. intros g Hg. simpl.
    apply detect_date_gaps_fields in Hg as (Hs & Hf & Hty).
    rewrite Hs, Hf, Hty, Hfreq. auto.
  - split; [apply get_None_keys; exact Hget|reflexivity].
Qed.

(** X26: the gaps [_detect_symbol_table_gaps] reports for a supported
    table carry the table's name, the symbol and, as their [frequency],
    the value of [frequency_column or "1d"]: the column's name
    [frequency] for [market_data] and [technical_indicators], [1d] for
    the other three tables.  A table that cannot be read counts as a table
    without rows: the gaps are those of a symbol with no date at all.  For
    a table that is not supported the call is a [KeyError]. *)
Theorem table_gaps_carry_the_column_name db t sym (s e : date) :
  match _detect_symbol_table_gaps fetchall db t sym s e with
  | Ok gaps =>
      t ∈ PyDict.keys supported_tables
      /\ Forall (fun g =>
                   tg_table_name g = t /\ symbol (tg_gap g) = sym
                   /\ gap_type (tg_gap g) = "date_missing"
                   /\ frequency (tg_gap g)
                      = (if bool_decide (t ∈ ["market_data"; "technical_indicators"])
                         then "frequency" else "1d")) gaps
      /\ (is_ok (fetchall t) = false ->
          tg_gap <$> gaps
          = _detect_date_gaps sym (_get_trading_days db s e) []
              (if bool_decide (t ∈ ["market_data"; "technical_indicators"])
               then "frequency" else "1d"))
  | Raise err => (t ∉ PyDict.keys supported_tables) /\ err = KeyError t
  end.
Proof.
  pose proof (symbol_table_gaps_fields db t sym s e) as Hfields.
  destruct (_detect_symbol_table_gaps fetchall db t sym s e) as [gaps|err] eqn:Hrun;
    [|exact Hfields].
  destruct Hfields as [Hin Hall]. split; [exact Hin|]. split; [exact Hall|].
  intros Hfail. unfold _detect_symbol_table_gaps in Hrun.
  destruct (PyDict.get t supported_tables) as [cfg|] eqn:Hget; [|discriminate].
  destruct (supported_table_cases t cfg Hget) as [_ Hfreq].
  destruct (_get_trading_days db s e) as [|d tds] eqn:Htd.
  - injection Hrun as <-. reflexivity.
  - injection Hrun as <-. unfold _get_existing_table_dates.
    destruct (fetchall t) as [rows|err]; [discriminate|]. cbn [rbind try_except].
    rewrite <- list_fmap_compose, Hfreq. apply list_fmap_id.
Qed.

Lemma table_loop (detect : string -> result (list table_gap)) symbols :
  forall (L : list string) (G : list table_gap),
  foldl (table_step detect) (L, G) symbols
  = (L ++ filter (fun x => (0 < length (try_except (detect x) (fun _ => [])))%nat)
            symbols,
     G ++ mjoin ((fun x => try_except (detect x) (fun _ => [])) <$> symbols)).
Proof.
  induction symbols as [|x symbols IH]; intros L G.
  - simpl. rewrite !app_nil_r. reflexivity.
  - cbn [foldl]. unfold table_step at 2. rewrite fmap_cons. cbn [mjoin list_join].
    destruct (detect x) as [[|g gs]|err] eqn:Hd; cbn [try_except fst snd].
    + rewrite IH, filter_cons_False by (rewrite Hd; simpl; lia). reflexivity.
    + rewrite IH, filter_cons_True by (rewrite Hd; simpl; lia).
      rewrite <- !app_assoc. reflexivity.
    + rewrite IH, filter_cons_False by (rewrite Hd; simpl; lia). reflexivity.
Qed.

(** X27: for a supported table [_detect_table_gaps] concatenates the
    gaps of the symbols in the order requested, and [symbols_with_gaps]
    lists, in that order and as often as requested, the symbols that have
    a gap; every gap listed carries the table's name and belongs to a
    requested symbol.  For another table the call is a [KeyError]. *)
Theorem table_scan_lists_symbols_in_order db t symbols (s e : date) :
  let gaps_of := fun x =>
    try_except (_detect_symbol_table_gaps fetchall db t x s e) (fun _ => []) in
  match _detect_table_gaps fetchall db t symbols s e with
  | Ok found =>
      t ∈ PyDict.keys supported_tables
      /\ tgs_table_name found = t
      /\ tgs_gaps found = mjoin (gaps_of <$> symbols)
      /\ tgs_symbols_with_gaps found
         = filter (fun x => (0 < length (gaps_of x))%nat) symbols
      /\ Forall (fun g => tg_table_name g = t
                          /\ symbol (tg_gap g) ∈ tgs_symbols_with_gaps found)
                (tgs_gaps found)
  | Raise err => (t ∉ PyDict.keys supported_tables) /\ err = KeyError t
  end.
Proof.
  intros gaps_of. unfold _detect_table_gaps.
  destruct (PyDict.get t supported_tables) as [cfg|] eqn:Hget.
  2:{ split; [apply get_None_keys; exact Hget|reflexivity]. }
  rewrite table_loop. cbn [tgs_table_name tgs_gaps tgs_symbols_with_gaps fst snd].
  rewrite !app_nil_l. fold gaps_of.
  split; [eapply get_Some_keys; exact Hget|].
  split; [reflexivity|]. split; [reflexivity|]. split; [reflexivity|].
  apply Forall_forall. intros g Hg.
  apply list_elem_of_join in Hg as (gs & Hg & Hgs).
  apply list_elem_of_fmap in Hgs as (x & -> & Hx).
  pose proof (symbol_table_gaps_fields db t x s e) as Hfields.
  unfold gaps_of in Hg.
  destruct (_detect_symbol_table_gaps fetchall db t x s e) as [gaps|err] eqn:Hrun;
    cbn [try_except] in Hg; [|apply elem_of_nil in Hg; contradiction].
  destruct Hfields as [_ Hall]. rewrite Forall_forall in Hall.
  destruct (Hall g Hg) as (Ht & Hs & _). split; [exact Ht|].
  rewrite Hs. apply list_elem_of_filter. split; [|exact Hx].
  unfold gaps_of. rewrite Hrun. cbn [try_except].
  destruct gaps; [apply elem_of_nil in Hg; contradiction|simpl; lia].
Qed.

Lemma table_gaps_date_missing db t symbols (s e : date) found :
  _detect_table_gaps fetchall db t symbols s e = Ok found ->
  Forall (fun g => gap_type g = "date_missing") (tg_gap <$> tgs_gaps found).
Proof.
  unfold _detect_table_gaps.
  destruct (PyDict.get t supported_tables) as [cfg|]; [|discriminate].
  rewrite table_loop. intros [= <-]. cbn [tgs_gaps snd].
  apply Forall_fmap, Forall_forall. intros g Hg. simpl.
  rewrite ?app_nil_l in Hg.
  apply list_elem_of_join in Hg as (gs & Hg & Hgs).
  apply list_elem_of_fmap in Hgs as (x & -> & _).
  pose proof (symbol_table_gaps_fields db t x s e) as Hfields.
  destruct (_detect_symbol_table_gaps fetchall db t x s e) as [gaps|err];
    cbn [try_except] in Hg; [|apply elem_of_nil in Hg; contradiction].
  destruct Hfields as [_ Hall]. rewrite Forall_forall in Hall.
  destruct (Hall g Hg) as (_ & _ & Hty & _). exact Hty.
Qed.

Lemma sum_Z_cons (x : Z) (l : list Z) : sum_Z (x :: l) = x + sum_Z l.
Proof. reflexivity. Qed.

Lemma add_gap_loop (gaps : list table_gap) :
  forall (S : gset string) (types : gmap string Z),
  (foldl add_gap (S, types) gaps).2 = foldl count_gap_type types (tg_gap <$> gaps)
  /\ forall x, x ∈ (foldl add_gap (S, types) gaps).1
               <-> x ∈ S \/ exists g, g ∈ gaps /\ symbol (tg_gap g) = x.
Proof.
  induction gaps as [|g gaps IH]; intros S types.
  - simpl. split; [reflexivity|]. intros x. split; [auto|].
    intros [Hx|(g & Hg & _)]; [exact Hx|]. apply elem_of_nil in Hg. contradiction.
  - cbn [foldl]. unfold add_gap at 2 4. cbn [fst snd].
    destruct (IH ({[symbol (tg_gap g)]} ∪ S) (count_gap_type types (tg_gap g)))
      as [Hty Hsym].
    split; [rewrite Hty; reflexivity|].
    intros x. rewrite Hsym, elem_of_union, elem_of_singleton. split.
    + intros [[->|Hx]|(g' & Hg' & Hs)].
      * right. exists g. split; [left|reflexivity].
      * left. exact Hx.
      * right. exists g'. split; [right; exact Hg'|exact Hs].
    + intros [Hx|(g' & Hg' & Hs)]; [left; right; exact Hx|].
      apply elem_of_cons in Hg' as [->|Hg'].
      * left. left. symmetry. exact Hs.
      * right. exists g'. split; assumption.
Qed.

Lemma all_tables_loop db symbols (s e : date) (tables : list string) :
  let entry_of := fun t =>
    match _detect_table_gaps fetchall db t symbols s e with
    | Ok found => Detected found
    | Raise err => Failed err
    end in
  forall (D : list (string * table_entry)) (T N : Z) (S : gset string),
  0 <= T ->
  NoDup (PyDict.keys D ++ tables) ->
  let E := (fun t => (t, entry_of t))
           <$> filter (fun t => t ∈ PyDict.keys supported_tables) tables in
  let T' := T + sum_Z ((fun kv => Z.of_nat (length (entry_gaps kv.2))) <$> E) in
  exists S',
    foldl (all_tables_step fetchall db symbols s e)
      (D, mk_tables_summary T N S
            (if decide (T = 0) then ∅ else {["date_missing" := T]}))
      tables
    = (D ++ E,
       mk_tables_summary T'
         (N + Z.of_nat (length (filter (fun kv => (0 < length (entry_gaps kv.2))%nat) E)))
         S' (if decide (T' = 0) then ∅ else {["date_missing" := T']}))
    /\ forall x, x ∈ S'
                 <-> x ∈ S \/ exists kv g, kv ∈ E /\ g ∈ entry_gaps kv.2
                                           /\ symbol (tg_gap g) = x.
Proof.
  intros entry_of. induction tables as [|t tables IH]; intros D T N S HT Hnd E T'.
  - exists S. subst E T'. simpl. rewrite app_nil_r, Z.add_0_r, Z.add_0_r.
    split; [reflexivity|]. intros x. split; [auto|].
    intros [Hx|(kv & g & Hkv & _)]; [exact Hx|]. apply elem_of_nil in Hkv. contradiction.
  - assert (Hnd' : NoDup (PyDict.keys D ++ tables)).
    { apply NoDup_app in Hnd as (HD & Hdisj & Ht). apply NoDup_cons in Ht as [_ Ht].
      apply NoDup_app. split; [exact HD|]. split; [|exact Ht].
      intros x Hx Hx'. apply (Hdisj x Hx). right. exact Hx'. }
    assert (Hfresh : t ∉ PyDict.keys D).
    { apply NoDup_app in Hnd as (_ & Hdisj & _). intros Hin.
      apply (Hdisj t Hin). left. }
    cbn [foldl]. unfold all_tables_step at 2. cbn [fst snd].
    destruct (PyDict.get t supported_tables) as [cfg|] eqn:Hget.
    2:{ apply get_None_keys in Hget.
        destruct (IH D T N S HT Hnd') as (S' & Heq & HS').
        exists S'. subst E T'. rewrite filter_cons_False by exact Hget.
        split; [exact Heq|exact HS']. }
    apply get_Some_keys in Hget.
    subst E T'. rewrite filter_cons_True by exact Hget. rewrite fmap_cons.
    assert (Hnd2 : forall entry, NoDup (PyDict.keys (D ++ [(t, entry)]) ++ tables)).
    { intros entry. unfold PyDict.keys. rewrite fmap_app, <- app_assoc. exact Hnd. }
    assert (Hentry : entry_of t
              = match _detect_table_gaps fetchall db t symbols s e with
                | Ok found => Detected found
                | Raise err => Failed err
                end) by reflexivity.
    destruct (_detect_table_gaps fetchall db t symbols s e) as [found|err] eqn:Hrun;
      rewrite !Hentry; clear Hentry; rewrite dict_set_fresh by exact Hfresh;
      rewrite fmap_cons, sum_Z_cons; cbn [snd entry_gaps].
    + pose proof (table_gaps_date_missing db t symbols s e found Hrun) as Hty.
      destruct (tgs_gaps found) as [|g gaps] eqn:Hgaps.
      * destruct (IH (D ++ [(t, Detected found)]) T N S HT (Hnd2 _))
          as (S' & Heq & HS').
        exists S'. rewrite Heq, <- app_assoc.
        rewrite filter_cons_False by (cbn [snd entry_gaps]; rewrite Hgaps; simpl; lia).
        change (Z.of_nat (length (@nil table_gap))) with 0. rewrite Z.add_0_l.
        split; [reflexivity|]. intros x. rewrite HS'. split.
        -- intros [Hx|(kv & g & Hkv & Hg & Hs)]; [left; exact Hx|].
           right. exists kv, g. split; [right; exact Hkv|]. split; assumption.
        -- intros [Hx|(kv & g & Hkv & Hg & Hs)]; [left; exact Hx|].
           apply elem_of_cons in Hkv as [->|Hkv].
           ++ cbn [snd entry_gaps] in Hg. rewrite Hgaps in Hg.
              apply elem_of_nil in Hg. contradiction.
           ++ right. exists kv, g. split; [exact Hkv|]. split; assumption.
      * destruct (add_gap_loop (g :: gaps) S
                    (if decide (T = 0) then ∅ else {["date_missing" := T]}))
          as [Htypes Hsyms].
        cbn [ts_total_gaps ts_tables_with_gaps ts_symbols_with_gaps ts_gap_types].
        rewrite Htypes.
        rewrite (count_gap_type_date_missing (tg_gap <$> g :: gaps) T HT Hty).
        rewrite length_fmap.
        set (S1 := (foldl add_gap
                      (S, if decide (T = 0) then ∅ else {["date_missing" := T]})
                      (g :: gaps)).1) in *.
        destruct (IH (D ++ [(t, Detected found)])
                    (T + Z.of_nat (length (g :: gaps))) (N + 1) S1
                    ltac:(lia) (Hnd2 _)) as (S' & Heq & HS').
        exists S'. rewrite Heq, <- app_assoc.
        rewrite filter_cons_True by (cbn [snd entry_gaps]; rewrite Hgaps; simpl; lia).
        rewrite (length_cons (t, Detected found)), Nat2Z.inj_succ, <- Z.add_1_l.
        rewrite !Z.add_assoc.
        split; [reflexivity|].
        intros x. rewrite HS', Hsyms. split.
        -- intros [[Hx|(g' & Hg' & Hs)]|(kv & g' & Hkv & Hg' & Hs)].
           ++ left. exact Hx.
           ++ right. exists (t, Detected found), g'. split; [left|].
              cbn [snd entry_gaps]. rewrite Hgaps. split; assumption.
           ++ right. exists kv, g'. split; [right; exact Hkv|]. split; assumption.
        -- intros [Hx|(kv & g' & Hkv & Hg' & Hs)]; [left; left; exact Hx|].
           apply elem_of_cons in Hkv as [->|Hkv].
           ++ cbn [snd entry_gaps] in Hg'. rewrite Hgaps in Hg'.
              left. right. exists g'. split; assumption.
           ++ right. exists kv, g'. split; [exact Hkv|]. split; assumption.
    + destruct (IH (D ++ [(t, Failed err)]) T N S HT (Hnd2 _)) as (S' & Heq & HS').
      exists S'. rewrite Heq, <- app_assoc.
      rewrite filter_cons_False by (cbn [snd entry_gaps]; simpl; lia).
      change (Z.of_nat (length (@nil table_gap))) with 0. rewrite Z.add_0_l.
      split; [reflexivity|]. intros x. rewrite HS'. split.
      * intros [Hx|(kv & g & Hkv & Hg & Hs)]; [left; exact Hx|].
        right. exists kv, g. split; [right; exact Hkv|]. split; assumption.
      * intros [Hx|(kv & g & Hkv & Hg & Hs)]; [left; exact Hx|].
        apply elem_of_cons in Hkv as [->|Hkv].
        -- cbn [snd entry_gaps] in Hg. apply elem_of_nil in Hg. contradiction.
        -- right. exists kv, g. split; [exact Hkv|]. split; assumption.
Qed.

(** X28: when no table is requested twice, [detect_all_tables_gaps]
    lists one entry per requested table that is supported, in the order
    requested, and passes over every other name without an entry, though
    [tables_checked] counts it; no entry is the handler's error dict.
    [total_gaps] is the number of gaps the entries list,
    [tables_with_gaps] the number of entries with a gap,
    [symbols_with_gaps] the set of the symbols of the listed gaps, and
    [gap_types] is empty or maps [date_missing] to [total_gaps]. *)
Theorem detect_all_tables_gaps_summary db (s e : date) symbols tables :
  NoDup tables ->
  let r := detect_all_tables_gaps fetchall db s e symbols tables in
  let total := ts_total_gaps (tables_summary_of r) in
  (gaps_by_table r).*1 = filter (fun t => t ∈ PyDict.keys supported_tables) tables
  /\ Forall (fun kv => exists found,
                 kv.2 = Detected found
                 /\ _detect_table_gaps fetchall db kv.1 symbols s e = Ok found)
            (gaps_by_table r)
  /\ tables_checked r = Z.of_nat (length tables)
  /\ total = sum_Z ((fun kv => Z.of_nat (length (entry_gaps kv.2))) <$> gaps_by_table r)
  /\ ts_tables_with_gaps (tables_summary_of r)
     = Z.of_nat (length (filter (fun kv => (0 < length (entry_gaps kv.2))%nat)
                           (gaps_by_table r)))
  /\ (forall x, x ∈ ts_symbols_with_gaps (tables_summary_of r)
                <-> exists kv g, kv ∈ gaps_by_table r /\ g ∈ entry_gaps kv.2
                                 /\ symbol (tg_gap g) = x)
  /\ ts_gap_types (tables_summary_of r)
     = (if decide (total = 0) then ∅ else {["date_missing" := total]}).
Proof.
  intros Hnd r total. subst total r. unfold detect_all_tables_gaps.
  pose proof (all_tables_loop db symbols s e tables [] 0 0 ∅) as Hloop.
  cbv zeta in Hloop. rewrite (decide_True (P := 0 = 0)) in Hloop by reflexivity.
  destruct Hloop as (S' & Heq & HS'); [lia|exact Hnd|].
  rewrite Heq. clear Heq.
  cbn [gaps_by_table tables_checked tables_summary_of fst snd ts_total_gaps
       ts_tables_with_gaps ts_symbols_with_gaps ts_gap_types].
  rewrite !app_nil_l, !Z.add_0_l.
  split.
  { rewrite <- list_fmap_compose. apply list_fmap_id. }
  split.
  { apply Forall_fmap, Forall_forall. intros t Ht. cbn [fst snd].
    apply list_elem_of_filter in Ht as [Hsup _].
    destruct (_detect_table_gaps fetchall db t symbols s e) as [found|err] eqn:Hrun;
      [exists found; cbv beta; cbn [fst snd]; rewrite Hrun; split; reflexivity|].
    unfold _detect_table_gaps in Hrun.
    destruct (PyDict.get t supported_tables) as [cfg|] eqn:Hget; [discriminate|].
    apply get_None_keys in Hget. contradiction. }
  split; [reflexivity|]. split; [reflexivity|]. split; [reflexivity|].
  split; [|reflexivity].
  intros x. rewrite HS'. split.
  - intros [Hx|Hx]; [apply elem_of_empty in Hx; contradiction|exact Hx].
  - intros Hx. right. exact Hx.
Qed.

End TableGapsFacts.

Section TableGapsExamples.
Import GapDetector GapScan TableGaps.

Lemma detect_all_tables_gaps_summary_witness :
  let tables := ["valuations"; "dividends"; "market_data"] in
  let r := detect_all_tables_gaps valuations_only week_db 739271 739277
             ["000001.SZ"] tables in
  NoDup tables
  /\ (gaps_by_table r).*1 = ["valuations"; "market_data"]
  /\ tables_checked r = 3.
Proof.
  intros tables r.
  assert (Hnd : NoDup tables) by (apply (bool_decide_unpack _); vm_compute; reflexivity).
  split; [exact Hnd|].
  destruct (detect_all_tables_gaps_summary valuations_only week_db 739271 739277
              ["000001.SZ"] tables Hnd) as (Hkeys & _ & Hchecked & _).
  split; [|exact Hchecked].
  etransitivity; [exact Hkeys|]. vm_compute. reflexivity.
Defined.

(** The valuation rows leave Tuesday to Thursday open; [market_data]
    cannot be read, so the whole week is one gap, whose frequency is the
    column's name. *)
Example table_gaps_of_the_week :
  (fun g => (start_date (tg_gap g), end_date (tg_gap g), frequency (tg_gap g)))
  <$> mjoin ((fun kv => entry_gaps kv.2)
             <$> gaps_by_table
                   (detect_all_tables_gaps valuations_only week_db 739271 739277
                      ["000001.SZ"] ["valuations"; "dividends"; "market_data"]))
  = [(739272, 739274, "1d"); (739271, 739275, "frequency")].
Proof. vm_compute. reflexivity. Qed.

End TableGapsExamples.
